(** * ANANYA-AI: the analysis engines of [ai-service], embedded and verified

    The development follows the Python sources:
    - [utils/text_analysis.py]      (class [TextAnalyzer]),
    - [modules/interaction_analyzer.py] (class [InteractionAnalyzer]),
    - [modules/bias_detector.py]    (class [BiasDetector]),
    - [modules/adaptive_engine.py]  (class [AdaptiveEngine]),
    - [models/schemas.py]           (the pydantic records and enums).

    Conventions.
    - A Python [str] is the list of its Unicode code points ([pystr]); [len],
      indexing and slicing are the list operations.
    - A Python [dict] with string keys is a [gmap string _]; the values of a
      [Dict[str, Any]] are [pyval]s.
    - A Python [float] is a binary64 number of the kernel ([PrimFloat.float]).
    - A call that can raise returns an [option]; [None] is the exception.
    - What comes from outside the repository (hashlib, textstat, the Unicode
      tables behind [str.lower], [repr] and the [re] classes, float
      formatting) is a field of the record [Lib]; the clock and the iteration
      order of hashed sets, which change from run to run, are the fields of
      [Runtime]. *)

From Stdlib Require Import ZArith NArith List String Ascii Floats Uint63 Lia.
From Stdlib Require DecimalString.
From stdpp Require Import base option list gmap strings sorting.

(** A decimal literal in [float_scope] denotes the nearest binary64 number,
    as it does in Python. *)
Set Warnings "-inexact-float".

Local Open Scope string_scope.
Local Open Scope list_scope.
Local Open Scope Z_scope.

(** ** Python strings *)

Definition pystr := list N.

#[global] Typeclasses Transparent pystr.

(** [py s] reads a literal of the development as a Python string; the
    literals used are ASCII, where a byte is its code point. *)
Definition py (s : string) : pystr :=
  map (fun a => N_of_ascii a) (list_ascii_of_string s).

Coercion py : string >-> pystr.

(** ** Values of a [Dict[str, Any]]

    The values the sources read from the interaction patterns and signals:
    [None], booleans, integers and strings. A number with a fractional part
    or a nested list or dictionary is outside the model. *)

Inductive pyval :=
| PNone
| PBool (b : bool)
| PInt (z : Z)
| PStr (s : pystr).

#[global] Instance pyval_eq_dec : EqDecision pyval.
Proof. solve_decision. Defined.

(** ** models/schemas.py *)

Inductive AdaptationType :=
| SIMPLIFY_LANGUAGE
| ADD_EXAMPLES
| CHANGE_REPRESENTATION
| ADJUST_PACE.

#[global] Instance AdaptationType_eq_dec : EqDecision AdaptationType.
Proof. solve_decision. Defined.

Module AdaptationTypeEnum.
Definition value (a : AdaptationType) : pystr :=
  match a with
  | SIMPLIFY_LANGUAGE => py "simplify_language"
  | ADD_EXAMPLES => py "add_examples"
  | CHANGE_REPRESENTATION => py "change_representation"
  | ADJUST_PACE => py "adjust_pace"
  end.
End AdaptationTypeEnum.

Module InteractionData.
Record t := mk {
  session_hash : pystr;
  content_id : pystr;
  response_time_ms : Z;
  action_type : pystr;
  content_text : option pystr;
  is_repeated_error : bool;
  clarification_count : Z;
  time_on_content_seconds : Z
}.
End InteractionData.

Module InteractionAnalysisResult.
Record t := mk {
  session_hash : pystr;
  response_pattern : pystr;
  engagement_level : pystr;
  comprehension_indicators : gmap string pyval;
  requires_adaptation : bool;
  suggested_adaptations : list AdaptationType
}.
End InteractionAnalysisResult.

(** ** modules/interaction_analyzer.py *)

Module InteractionAnalyzer.

Definition DEFAULT_SLOW_RESPONSE_MS : Z := 10000.
Definition DEFAULT_FAST_RESPONSE_MS : Z := 1000.
Definition DEFAULT_HIGH_CLARIFICATION_COUNT : Z := 3.

(** The instance attributes set by [__init__]. *)
Record t := mk {
  slow_response_threshold : Z;
  fast_response_threshold : Z;
  high_clarification_threshold : Z
}.

Definition init : t :=
  {| slow_response_threshold := DEFAULT_SLOW_RESPONSE_MS;
     fast_response_threshold := DEFAULT_FAST_RESPONSE_MS;
     high_clarification_threshold := DEFAULT_HIGH_CLARIFICATION_COUNT |}.

Section Methods.
Variable self : t.

Definition _classify_response_pattern
    (response_time_ms : Z) (action_type : pystr) : pystr :=
  if bool_decide (action_type = py "clarification") then py "seeking_help"
  else if slow_response_threshold self <? response_time_ms then py "deliberate"
  else if response_time_ms <? fast_response_threshold self then py "quick"
  else py "normal".

Definition _assess_engagement
    (time_on_content : Z) (action_type : pystr) (clarification_count : Z)
    : pystr :=
  if bool_decide (action_type = py "question") || (0 <? clarification_count)
  then py "high"
  else if 60 <? time_on_content then py "high"
  else if time_on_content <? 5 then py "low"
  else py "medium".

Definition _build_comprehension_indicators
    (interaction : InteractionData.t) : gmap string pyval :=
  let indicators : gmap string pyval :=
    <["content_engagement" := PStr (py "present")]>
    (<["persistence" := PBool true]>
    (<["help_seeking" := PBool false]>
    (<["response_speed" := PStr (py "normal")]> ∅))) in
  let indicators :=
    if slow_response_threshold self <? InteractionData.response_time_ms interaction
    then <["response_speed" := PStr (py "taking_time")]> indicators
    else if InteractionData.response_time_ms interaction <? fast_response_threshold self
    then <["response_speed" := PStr (py "quick")]> indicators
    else indicators in
  let indicators :=
    if (0 <? InteractionData.clarification_count interaction)
       || bool_decide (InteractionData.action_type interaction = py "clarification")
    then <["help_seeking" := PBool true]> indicators
    else indicators in
  let indicators :=
    if InteractionData.is_repeated_error interaction
    then <["may_benefit_from" := PStr (py "alternative_explanation")]>
         (<["persistence" := PBool true]> indicators)
    else indicators in
  indicators.

Definition _determine_adaptations
    (interaction : InteractionData.t) (indicators : gmap string pyval)
    : bool * list AdaptationType :=
  let adaptations : list AdaptationType := [] in
  let adaptations :=
    if bool_decide (indicators !! "response_speed" = Some (PStr (py "taking_time")))
    then adaptations ++ [SIMPLIFY_LANGUAGE]
    else adaptations in
  let adaptations :=
    if InteractionData.is_repeated_error interaction
    then (adaptations ++ [ADD_EXAMPLES]) ++ [CHANGE_REPRESENTATION]
    else adaptations in
  let adaptations :=
    if high_clarification_threshold self <=? InteractionData.clarification_count interaction
    then adaptations ++ [SIMPLIFY_LANGUAGE]
    else adaptations in
  let requires_adaptation := bool_decide (0 < length adaptations)%nat in
  (requires_adaptation, adaptations).

Definition analyze_single_interaction
    (interaction : InteractionData.t) : InteractionAnalysisResult.t :=
  let response_pattern :=
    _classify_response_pattern
      (InteractionData.response_time_ms interaction)
      (InteractionData.action_type interaction) in
  let engagement_level :=
    _assess_engagement
      (InteractionData.time_on_content_seconds interaction)
      (InteractionData.action_type interaction)
      (InteractionData.clarification_count interaction) in
  let comprehension_indicators := _build_comprehension_indicators interaction in
  let '(requires_adaptation, suggested_adaptations) :=
    _determine_adaptations interaction comprehension_indicators in
  {| InteractionAnalysisResult.session_hash := InteractionData.session_hash interaction;
     InteractionAnalysisResult.response_pattern := response_pattern;
     InteractionAnalysisResult.engagement_level := engagement_level;
     InteractionAnalysisResult.comprehension_indicators := comprehension_indicators;
     InteractionAnalysisResult.requires_adaptation := requires_adaptation;
     InteractionAnalysisResult.suggested_adaptations := suggested_adaptations |}.
End Methods.

End InteractionAnalyzer.

(** ** Characters and the string methods used by the sources *)

(** [str.isspace], which is also the class [\s] of [re] and what
    [str.strip] and [str.split] without argument remove. *)
Definition is_space (c : N) : bool :=
  match c with
  | 9 | 10 | 11 | 12 | 13 | 28 | 29 | 30 | 31 | 32 | 133 | 160
  | 5760 | 8192 | 8193 | 8194 | 8195 | 8196 | 8197 | 8198 | 8199 | 8200
  | 8201 | 8202 | 8232 | 8233 | 8239 | 8287 | 12288 => true
  | _ => false
  end%N.

(** The class [[.!?]]. *)
Definition is_sentence_end (c : N) : bool :=
  match c with
  | 46 | 33 | 63 => true
  | _ => false
  end%N.

Definition is_ascii_upper (c : N) : bool := ((65 <=? c) && (c <=? 90))%N.
Definition is_ascii_lower (c : N) : bool := ((97 <=? c) && (c <=? 122))%N.
Definition is_ascii_digit (c : N) : bool := ((48 <=? c) && (c <=? 57))%N.
Definition is_ascii_letter (c : N) : bool := is_ascii_upper c || is_ascii_lower c.

Definition newline : N := 10%N.
Definition space : N := 32%N.

Fixpoint lstrip (s : pystr) : pystr :=
  match s with
  | [] => []
  | c :: s' => if is_space c then lstrip s' else s
  end.

Fixpoint rstrip (s : pystr) : pystr :=
  match s with
  | [] => []
  | c :: s' =>
      match rstrip s' with
      | [] => if is_space c then [] else [c]
      | t => c :: t
      end
  end.

(** [s.strip()] *)
Definition strip (s : pystr) : pystr := rstrip (lstrip s).

(** [sep.join(parts)] *)
Fixpoint join (sep : pystr) (parts : list pystr) : pystr :=
  match parts with
  | [] => []
  | [p] => p
  | p :: rest => p ++ sep ++ join sep rest
  end.

(** [s.split()]: the maximal runs of non-space characters. [cur] holds the
    run being read, reversed. *)
Fixpoint split_ws_go (cur : pystr) (s : pystr) : list pystr :=
  match s with
  | [] => match cur with [] => [] | _ => [rev cur] end
  | c :: s' =>
      if is_space c
      then match cur with
           | [] => split_ws_go [] s'
           | _ => rev cur :: split_ws_go [] s'
           end
      else split_ws_go (c :: cur) s'
  end.

Definition split_ws (s : pystr) : list pystr := split_ws_go [] s.

(** [prefix_eqb p s]: [s] starts with [p]. *)
Fixpoint prefix_eqb (p s : pystr) : bool :=
  match p, s with
  | [], _ => true
  | _ :: _, [] => false
  | a :: p', c :: s' => (a =? c)%N && prefix_eqb p' s'
  end.

(** [sub in s] for a non-empty [sub] (the markers looked for are not
    empty). *)
Fixpoint contains (sub s : pystr) : bool :=
  match s with
  | [] => prefix_eqb sub []
  | _ :: s' => prefix_eqb sub s || contains sub s'
  end.

(** [s.split(sep)] for a non-empty separator: cut at the occurrences of
    [sep] found from left to right, empty pieces kept. [skip] counts the
    characters of a separator still to be dropped. *)
Fixpoint split_on_go (sep : pystr) (skip : nat) (cur : pystr) (s : pystr)
    : list pystr :=
  match s with
  | [] => [rev cur]
  | c :: s' =>
      match skip with
      | S k => split_on_go sep k cur s'
      | O =>
          if prefix_eqb sep s
          then rev cur :: split_on_go sep (length sep - 1) [] s'
          else split_on_go sep O (c :: cur) s'
      end
  end.

Definition split_on (sep s : pystr) : list pystr := split_on_go sep O [] s.

(** [re.split(r'(?<=[.!?])\s+', s)]: cut at every run of white space that
    directly follows one of [.!?]; the run is dropped. [prev_end] tells
    whether the previous character is one of [.!?]; [in_gap] whether a
    separating run is being skipped. *)
Fixpoint split_after_sentence_go (prev_end in_gap : bool) (cur : pystr)
    (s : pystr) : list pystr :=
  match s with
  | [] => [rev cur]
  | c :: s' =>
      if is_space c
      then if in_gap then split_after_sentence_go false true cur s'
           else if prev_end
                then rev cur :: split_after_sentence_go false true [] s'
                else split_after_sentence_go false false (c :: cur) s'
      else split_after_sentence_go (is_sentence_end c) false (c :: cur) s'
  end.

Definition split_after_sentence (s : pystr) : list pystr :=
  split_after_sentence_go false false [] s.

(** [re.split(r'([.!?]+)', s)]: the text between the runs of [.!?] at the
    even positions, the runs themselves at the odd ones. *)
Fixpoint split_keep_ends_go (in_run : bool) (cur : pystr) (s : pystr)
    : list pystr :=
  match s with
  | [] => if in_run then [rev cur; []] else [rev cur]
  | c :: s' =>
      if is_sentence_end c
      then if in_run then split_keep_ends_go true (c :: cur) s'
           else rev cur :: split_keep_ends_go true [c] s'
      else if in_run then rev cur :: split_keep_ends_go false [c] s'
           else split_keep_ends_go false (c :: cur) s'
  end.

Definition split_keep_ends (s : pystr) : list pystr :=
  split_keep_ends_go false [] s.

(** [re.split(r'[.!?]+', s)]: as above without the runs. *)
Fixpoint split_ends_go (in_run : bool) (cur : pystr) (s : pystr) : list pystr :=
  match s with
  | [] => [rev cur]
  | c :: s' =>
      if is_sentence_end c
      then if in_run then split_ends_go true cur s'
           else rev cur :: split_ends_go true [] s'
      else split_ends_go false (c :: cur) s'
  end.

Definition split_ends (s : pystr) : list pystr := split_ends_go false [] s.

(** [s.count(c)] for a one-character [c]. *)
Definition count_char (c : N) (s : pystr) : nat :=
  length (filter (fun x => x = c) s).

(** ** Case-insensitive literal patterns

    [re.compile(re.escape(w), re.IGNORECASE)] for a word [w] of ASCII
    letters and spaces. A character of the text matches the pattern
    letter [p] when it is [p], its upper-case form, or one of the three
    characters that [re] folds onto an ASCII letter: U+0130 and U+0131 onto
    [i], U+017F onto [s], U+212A onto [k]. *)
Definition ci_char_match (p c : N) : bool :=
  let p := if is_ascii_upper p then (p + 32)%N else p in
  (p =? c)%N
  || (is_ascii_lower p && (c =? p - 32)%N)
  || ((p =? 105)%N && ((c =? 304)%N || (c =? 305)%N))
  || ((p =? 115)%N && (c =? 383)%N)
  || ((p =? 107)%N && (c =? 8490)%N).

Fixpoint ci_prefix (p s : pystr) : bool :=
  match p, s with
  | [], _ => true
  | _ :: _, [] => false
  | a :: p', c :: s' => ci_char_match a c && ci_prefix p' s'
  end.

(** [pattern.sub(repl, s)] for such a pattern (not empty) and a replacement
    without backslash: the matches are found from left to right and do not
    overlap. [skip] counts the characters of a match still to be dropped. *)
Fixpoint sub_ci_go (p repl : pystr) (skip : nat) (s : pystr) : pystr :=
  match s with
  | [] => []
  | c :: s' =>
      match skip with
      | S k => sub_ci_go p repl k s'
      | O =>
          if ci_prefix p s
          then repl ++ sub_ci_go p repl (length p - 1) s'
          else c :: sub_ci_go p repl O s'
      end
  end.

Definition sub_ci (p repl s : pystr) : pystr := sub_ci_go p repl O s.

(** The pattern matches somewhere in [s]. *)
Fixpoint occurs_ci (p s : pystr) : bool :=
  match s with
  | [] => ci_prefix p []
  | _ :: s' => ci_prefix p s || occurs_ci p s'
  end.

(** ** What the sources import *)

(** The functions of the Python runtime and of the packages [hashlib] and
    [textstat] that the sources call. They are fixed for a run of the
    service; nothing is assumed about them. A call that may raise returns an
    [option]. *)
Record Lib := {
  (** [hashlib.sha256(s.encode()).hexdigest()]; [encode] raises on a lone
      surrogate. *)
  sha256_hexdigest : pystr -> option pystr;
  (** [repr(s)] for a string. *)
  repr_str : pystr -> pystr;
  (** [s.lower()] *)
  str_lower : pystr -> pystr;
  (** [f"{x:.1f}"] and [f"{x:.0%}"] *)
  format_1f : float -> pystr;
  format_pct0 : float -> pystr;
  (** The classes [\w] and [\d] of [re] on the code points from U+0080. *)
  unicode_word : N -> bool;
  unicode_decimal : N -> bool;
  (** [a / b] for integers that are not both exactly representable. *)
  big_truediv : Z -> Z -> option float;
  (** textstat *)
  flesch_kincaid_grade : pystr -> option float;
  flesch_reading_ease : pystr -> option float;
  gunning_fog : pystr -> option float;
  smog_index : pystr -> option float;
  automated_readability_index : pystr -> option float;
  coleman_liau_index : pystr -> option float;
  dale_chall_readability_score : pystr -> option float;
  syllable_count : pystr -> option Z
}.

(** What differs from one call to the next: the clock, and the order in
    which a hashed set is iterated (it follows the string hashes, which an
    interpreter draws at start-up). [set_order_str xs] is [list(set(xs))]. *)
Record Runtime := {
  utcnow_isoformat : pystr;
  set_order_str : list pystr -> list pystr;
  set_order_adaptation : list AdaptationType -> list AdaptationType
}.

(** An iteration order lists every element once. *)
Definition set_order_ok {A} (f : list A -> list A) : Prop :=
  forall l, NoDup (f l) /\ forall x, x ∈ f l <-> x ∈ l.

(** ** Numbers *)

(** [str(n)] for an integer. *)
Definition str_of_Z (z : Z) : pystr :=
  py (DecimalString.NilZero.string_of_int (Z.to_int z)).

(** [float(z)], exact for [|z| <= 2^53]. *)
Definition float_of_Z (z : Z) : float :=
  if z <? 0
  then PrimFloat.opp (PrimFloat.of_uint63 (Uint63.of_Z (- z)))
  else PrimFloat.of_uint63 (Uint63.of_Z z).

Definition exact_float (z : Z) : bool := Z.abs z <=? 2 ^ 53.

(** [a / b] on integers: the quotient rounded to the nearest float;
    [ZeroDivisionError] for [b = 0]. *)
Definition int_truediv (lib : Lib) (a b : Z) : option float :=
  if b =? 0 then None
  else if exact_float a && exact_float b
       then Some (PrimFloat.div (float_of_Z a) (float_of_Z b))
       else big_truediv lib a b.

(** [x > y], [x >= y], [x < y], [x <= y] on floats. *)
Definition fgt (x y : float) : bool := PrimFloat.ltb y x.
Definition fge (x y : float) : bool := PrimFloat.leb y x.
Definition flt (x y : float) : bool := PrimFloat.ltb x y.
Definition fle (x y : float) : bool := PrimFloat.leb x y.

(** The integer a [pyval] counts as in arithmetic and comparisons with
    integers; [None] is the [TypeError] for a string or [None]. *)
Definition as_int (v : pyval) : option Z :=
  match v with
  | PInt z => Some z
  | PBool b => Some (if b then 1 else 0)
  | PStr _ | PNone => None
  end.

(** [v > n] *)
Definition py_gt (v : pyval) (n : Z) : option bool :=
  z ← as_int v; Some (n <? z).

(** [bool(v)] *)
Definition truthy (v : pyval) : bool :=
  match v with
  | PNone => false
  | PBool b => b
  | PInt z => negb (z =? 0)
  | PStr s => match s with [] => false | _ => true end
  end.

(** [sum(vs)] *)
Fixpoint py_sum (acc : Z) (vs : list pyval) : option Z :=
  match vs with
  | [] => Some acc
  | v :: vs' => z ← as_int v; py_sum (acc + z) vs'
  end.

(** [d.get(key, default)] *)
Definition dict_get {V} (d : gmap string V) (key : string) (default : V) : V :=
  match d !! key with
  | Some v => v
  | None => default
  end.

(** The classes [\w] and [\d]. *)
Definition is_word (lib : Lib) (c : N) : bool :=
  if (c <? 128)%N
  then is_ascii_letter c || is_ascii_digit c || (c =? 95)%N
  else unicode_word lib c.

Definition is_decimal (lib : Lib) (c : N) : bool :=
  if (c <? 128)%N then is_ascii_digit c else unicode_decimal lib c.

(** The order of [str]: by code points, a prefix first. *)
Fixpoint pystr_leb (a b : pystr) : bool :=
  match a, b with
  | [], _ => true
  | _ :: _, [] => false
  | x :: a', y :: b' =>
      if (x <? y)%N then true
      else if (y <? x)%N then false
      else pystr_leb a' b'
  end.

Definition pystr_le (a b : pystr) : Prop := Is_true (pystr_leb a b).

(** [sorted(xs)] for a list of strings. *)
Definition sorted_str (xs : list pystr) : list pystr :=
  merge_sort pystr_le xs.

(** ** utils/text_analysis.py *)

Module TextAnalyzer.

(** The entries of a pattern list of [identify_jargon_patterns]: a
    dictionary whose ["type"] is ["academic_language"], with its
    ["matches"], or ["long_sentences"], with its ["count"]. *)
Inductive JargonPattern :=
| AcademicLanguage (matches : list pystr) (suggestion : pystr)
| LongSentences (count : nat) (suggestion : pystr).

Definition pattern_type (p : JargonPattern) : pystr :=
  match p with
  | AcademicLanguage _ _ => py "academic_language"
  | LongSentences _ _ => py "long_sentences"
  end.

(** The table [replacements] of [simplify_text], in the order of the
    dictionary literal, which is the order of iteration. *)
Definition replacements : list (string * string) :=
  [ ("utilize", "use");
    ("implement", "do");
    ("facilitate", "help");
    ("commence", "start");
    ("terminate", "end");
    ("prior to", "before");
    ("subsequent to", "after");
    ("in order to", "to");
    ("due to the fact that", "because");
    ("at this point in time", "now");
    ("in the event that", "if");
    ("for the purpose of", "to");
    ("in addition to", "also");
    ("with regard to", "about");
    ("in accordance with", "following");
    ("nevertheless", "but");
    ("furthermore", "also");
    ("consequently", "so");
    ("approximately", "about");
    ("sufficient", "enough");
    ("demonstrate", "show");
    ("indicate", "show");
    ("obtain", "get");
    ("require", "need");
    ("assist", "help");
    ("attempt", "try");
    ("determine", "find out");
    ("establish", "set up");
    ("evaluate", "check");
    ("identify", "find");
    ("maintain", "keep");
    ("modify", "change");
    ("perform", "do");
    ("provide", "give");
    ("regarding", "about");
    ("remain", "stay");
    ("request", "ask for");
    ("select", "choose");
    ("therefore", "so");
    ("currently", "now");
    ("additional", "more");
    ("component", "part");
    ("methodology", "method");
    ("functionality", "feature") ].

(** The loop over the table: every pair is applied, in order, to the
    result of the pairs before it. *)
Definition apply_replacements (table : list (string * string)) (text : pystr)
    : pystr :=
  fold_left
    (fun simplified '(complex_word, simple_word) =>
       sub_ci (py complex_word) (py simple_word) simplified)
    table text.

(** [new_sentences[-1] += sentence], guarded by [if new_sentences]. *)
Fixpoint append_to_last (new_sentences : list pystr) (sentence : pystr)
    : list pystr :=
  match new_sentences with
  | [] => []
  | [l] => [l ++ sentence]
  | l :: rest => l :: append_to_last rest sentence
  end.

(** The body of the loop that breaks long sentences. *)
Definition break_step (new_sentences : list pystr) (ie : nat * pystr)
    : list pystr :=
  let '(i, sentence) := ie in
  if Nat.even i
  then
    let words := split_ws sentence in
    if (20 <? length words)%nat
    then
      let midpoint := (length words / 2)%nat in
      (new_sentences ++ [join [space] (take midpoint words) ++ py "."])
        ++ [join [space] (drop midpoint words)]
    else new_sentences ++ [sentence]
  else append_to_last new_sentences sentence.

Definition enumerate {A} (l : list A) : list (nat * A) :=
  zip (seq 0 (length l)) l.

Definition simplify_text (text : pystr) (level : pystr) : pystr :=
  let simplified := apply_replacements replacements text in
  let simplified :=
    if bool_decide (level = py "simple")
    then
      let sentences := split_keep_ends simplified in
      let new_sentences := fold_left break_step (enumerate sentences) [] in
      join [space] new_sentences
    else simplified in
  strip simplified.

Definition get_complexity_level (flesch_kincaid_grade : float) : pystr :=
  if fle flesch_kincaid_grade 6%float then py "simple"
  else if fle flesch_kincaid_grade 10%float then py "moderate"
  else py "complex".

(** The dictionary returned for a text of fewer than 10 characters once
    stripped. *)
Definition baseline_metrics : gmap string float :=
  <["dale_chall_readability" := 0.0%float]>
  (<["coleman_liau_index" := 0.0%float]>
  (<["automated_readability_index" := 0.0%float]>
  (<["smog_index" := 0.0%float]>
  (<["gunning_fog" := 0.0%float]>
  (<["flesch_reading_ease" := 100.0%float]>
  (<["flesch_kincaid_grade" := 0.0%float]> ∅)))))).

(** [\b(w1|w2|...)\b] searched by [re.findall] for alternatives made of
    word characters: a match starts after a non-word character (or at the
    start), is the first alternative that is there and is followed by a
    non-word character (or the end); the search goes on after the match. *)
Section Findall.
Variable lib : Lib.

Definition boundary_after (w s : pystr) : bool :=
  match drop (length w) s with
  | [] => true
  | d :: _ => negb (is_word lib d)
  end.

Fixpoint findall_words_go (alts : list pystr) (prev_word : bool)
    (skip : nat) (s : pystr) : list pystr :=
  match s with
  | [] => []
  | c :: s' =>
      match skip with
      | S k => findall_words_go alts (is_word lib c) k s'
      | O =>
          if prev_word then findall_words_go alts (is_word lib c) O s'
          else
            match List.find (fun w => prefix_eqb w s && boundary_after w s) alts with
            | Some w => w :: findall_words_go alts (is_word lib c) (length w - 1) s'
            | None => findall_words_go alts (is_word lib c) O s'
            end
      end
  end.

Definition findall_words (alts : list pystr) (s : pystr) : list pystr :=
  findall_words_go alts false O s.

(** [re.findall(r'\b[a-zA-Z]+\b', s)]: the runs of ASCII letters that
    have no word character next to them. [cur] is the run being read,
    reversed; it is [None] when the run started after a word
    character. *)
Fixpoint findall_letters_go (prev_word : bool) (cur : option pystr)
    (s : pystr) : list pystr :=
  match s with
  | [] => match cur with Some run => [rev run] | None => [] end
  | c :: s' =>
      if is_ascii_letter c
      then
        match cur with
        | Some run => findall_letters_go true (Some (c :: run)) s'
        | None =>
            if prev_word then findall_letters_go true None s'
            else findall_letters_go true (Some [c]) s'
        end
      else
        match cur with
        | Some run =>
            if is_word lib c then findall_letters_go true None s'
            else rev run :: findall_letters_go false None s'
        | None => findall_letters_go (is_word lib c) None s'
        end
  end.

Definition findall_letters (s : pystr) : list pystr :=
  findall_letters_go false None s.
End Findall.

Section Methods.
Variable lib : Lib.
Variable rt : Runtime.

Definition get_readability_metrics (text : pystr) : option (gmap string float) :=
  if bool_decide (text = []) || (length (strip text) <? 10)%nat
  then Some baseline_metrics
  else
    fk ← flesch_kincaid_grade lib text;
    fre ← flesch_reading_ease lib text;
    fog ← gunning_fog lib text;
    smog ← smog_index lib text;
    ari ← automated_readability_index lib text;
    cli ← coleman_liau_index lib text;
    dc ← dale_chall_readability_score lib text;
    Some (<["dale_chall_readability" := dc]>
          (<["coleman_liau_index" := cli]>
          (<["automated_readability_index" := ari]>
          (<["smog_index" := smog]>
          (<["gunning_fog" := fog]>
          (<["flesch_reading_ease" := fre]>
          (<["flesch_kincaid_grade" := fk]> ∅))))))).

(** The loop [for word in set(words)] with its test. *)
Fixpoint collect_complex (syllable_threshold : Z) (words : list pystr)
    : option (list pystr) :=
  match words with
  | [] => Some []
  | word :: rest =>
      n ← syllable_count lib word;
      complex_words ← collect_complex syllable_threshold rest;
      Some (if syllable_threshold <=? n then word :: complex_words
            else complex_words)
  end.

Definition identify_complex_words (text : pystr) (syllable_threshold : Z)
    : option (list pystr) :=
  let words := findall_letters lib (str_lower lib text) in
  complex_words ← collect_complex syllable_threshold (set_order_str rt words);
  Some (sorted_str complex_words).

Definition academic_markers : list (list pystr) :=
  [ [py "therefore"; py "hence"; py "thus"; py "wherein"; py "whereby"; py "herein"];
    [py "aforementioned"; py "notwithstanding"; py "pursuant"];
    [py "paradigm"; py "methodology"; py "framework"; py "implementation"];
    [py "utilizing"; py "commenced"; py "terminated"; py "facilitated"] ].

(** The body of the loop over [academic_markers]: what one pattern
    appends to [patterns]. *)
Definition academic_pattern (text : pystr) (pattern : list pystr)
    : option JargonPattern :=
  let matches := findall_words lib pattern (str_lower lib text) in
  match matches with
  | [] => None
  | _ => Some (AcademicLanguage (set_order_str rt matches)
                 (py "Consider simpler alternatives"))
  end.

Definition identify_jargon_patterns (text : pystr) : list JargonPattern :=
  let patterns := omap (academic_pattern text) academic_markers in
  let sentences := split_ends text in
  let long_sentences :=
    map strip (List.filter (fun s => (30 <? length (split_ws s))%nat) sentences) in
  match long_sentences with
  | [] => patterns
  | _ => patterns ++ [LongSentences (length long_sentences)
                        (py "Break into shorter sentences")]
  end.
End Methods.

End TextAnalyzer.

(** ** models/schemas.py, bias detection *)

Inductive BiasType :=
| LANGUAGE_COMPLEXITY
| PACE_MISMATCH
| PRIOR_EXPOSURE_GAP
| REPRESENTATION_ISSUE.

#[global] Instance BiasType_eq_dec : EqDecision BiasType.
Proof. solve_decision. Defined.

Module BiasTypeEnum.
Definition value (b : BiasType) : pystr :=
  match b with
  | LANGUAGE_COMPLEXITY => py "language_complexity"
  | PACE_MISMATCH => py "pace_mismatch"
  | PRIOR_EXPOSURE_GAP => py "prior_exposure_gap"
  | REPRESENTATION_ISSUE => py "representation_issue"
  end.
End BiasTypeEnum.

Inductive SeverityLevel := LOW | MEDIUM | HIGH.

#[global] Instance SeverityLevel_eq_dec : EqDecision SeverityLevel.
Proof. solve_decision. Defined.

Module SeverityLevelEnum.
Definition value (s : SeverityLevel) : pystr :=
  match s with
  | LOW => py "low"
  | MEDIUM => py "medium"
  | HIGH => py "high"
  end.
End SeverityLevelEnum.

Module BiasDetectionRequest.
Record t := mk {
  session_hash : pystr;
  content_text : pystr;
  interaction_patterns : list (gmap string pyval);
  previous_adaptations : list pystr
}.
End BiasDetectionRequest.

Module BiasIndicator.
Record t := mk {
  bias_type : BiasType;
  severity : SeverityLevel;
  confidence : float;
  description : pystr;
  affected_content_segment : option pystr
}.
End BiasIndicator.

Module BiasDetectionResult.
Record t := mk {
  session_hash : pystr;
  bias_detected : bool;
  indicators : list BiasIndicator.t;
  readability_score : float;
  complexity_level : pystr;
  recommended_actions : list AdaptationType;
  analysis_timestamp : pystr;
  deterministic_hash : pystr
}.
End BiasDetectionResult.

(** ** config.py *)

Module settings.
Definition COMPLEXITY_THRESHOLD_HIGH : float := 12.0%float.
Definition COMPLEXITY_THRESHOLD_MEDIUM : float := 8.0%float.
Definition SIMPLIFICATION_LEVELS : Z := 3.
End settings.

(** ** The audit dictionaries

    The values stored in the [data] dictionary of [_generate_audit_hash],
    and what [str(sorted(data.items()))] prints. *)

Inductive audit_value :=
| AStr (s : pystr)
| AInt (z : Z)
| AList (l : list pystr).

Section AuditRepr.
Variable lib : Lib.

(** [repr] of a list of strings: [['a', 'b']]. *)
Definition repr_list (l : list pystr) : pystr :=
  py "[" ++ join (py ", ") (map (repr_str lib) l) ++ py "]".

Definition repr_value (v : audit_value) : pystr :=
  match v with
  | AStr s => repr_str lib s
  | AInt z => str_of_Z z
  | AList l => repr_list l
  end.

(** [repr] of an item [(key, value)]. *)
Definition repr_item (kv : string * audit_value) : pystr :=
  py "(" ++ repr_str lib (py kv.1) ++ py ", " ++ repr_value kv.2 ++ py ")".

(** [sorted(data.items())]: the keys of a dictionary differ, so the items
    are ordered by their keys. *)
Definition sorted_items (data : list (string * audit_value))
    : list (string * audit_value) :=
  merge_sort (fun a b => pystr_le (py a.1) (py b.1)) data.

(** [str(sorted(data.items()))] *)
Definition str_sorted_items (data : list (string * audit_value)) : pystr :=
  py "[" ++ join (py ", ") (map repr_item (sorted_items data)) ++ py "]".

(** [hashlib.sha256(data_str.encode()).hexdigest()[:16]] *)
Definition short_digest (data_str : pystr) : option pystr :=
  take 16 <$> sha256_hexdigest lib data_str.
End AuditRepr.

(** ** Exceptions, and numbers of both kinds

    The methods below average, divide and round; what they raise is told
    apart. [LibraryError] stands for whatever textstat raises. *)

Inductive exn :=
| ZeroDivisionError
| StatisticsError
| OverflowError
| ValueError
| LibraryError.

#[global] Instance exn_eq_dec : EqDecision exn.
Proof. solve_decision. Defined.

Inductive result (A : Type) :=
| Ok (a : A)
| Raise (e : exn).

Arguments Ok {A} a.
Arguments Raise {A} e.

#[global] Instance result_bind : MBind result :=
  fun A B f m =>
    match m with
    | Ok a => f a
    | Raise e => Raise e
    end.

Definition of_option {A} (e : exn) (o : option A) : result A :=
  match o with
  | Some a => Ok a
  | None => Raise e
  end.

(** What these methods use of the Python runtime and of textstat beyond
    [Lib]. *)
Record NumLib := {
  (** [float(z)] for an integer that is not exactly representable; [None]
      is the [OverflowError] of an integer too large for a float. *)
  big_float : Z -> option float;
  (** [round(x, ndigits)] for a float. *)
  round_digits : float -> Z -> float;
  (** [textstat.lexicon_count(text, removepunct=True)] and
      [textstat.sentence_count(text)]. *)
  lexicon_count : pystr -> option Z;
  sentence_count : pystr -> option Z
}.

(** An [int] or a [float]. *)
Inductive pynum :=
| NInt (z : Z)
| NFloat (x : float).

(** [a / b] on integers. *)
Definition truediv (lib : Lib) (a b : Z) : result float :=
  if b =? 0 then Raise ZeroDivisionError
  else of_option OverflowError (int_truediv lib a b).

(** [float(z)], as in [z * x] for a float [x]. *)
Definition float_of_int (nl : NumLib) (z : Z) : result float :=
  if exact_float z then Ok (float_of_Z z)
  else of_option OverflowError (big_float nl z).

(** The comparison of a float with an integer, which Python makes on the
    exact values; there is none for a NaN. *)
Definition cmp_float_int (x : float) (t : Z) : option comparison :=
  match Prim2SF x with
  | S754_nan => None
  | S754_infinity s => Some (if s then Lt else Gt)
  | S754_zero _ => Some (0 ?= t)
  | S754_finite s m e =>
      let v := if s then Z.neg m else Z.pos m in
      Some (if 0 <=? e then (v * 2 ^ e ?= t) else (v ?= t * 2 ^ (- e)))
  end.

(** [x > t] and [x < t] for a float [x] and an integer [t]. *)
Definition float_gt_int (x : float) (t : Z) : bool :=
  match cmp_float_int x t with
  | Some Gt => true
  | _ => false
  end.

Definition float_lt_int (x : float) (t : Z) : bool :=
  match cmp_float_int x t with
  | Some Lt => true
  | _ => false
  end.

(** [x > t] for a number and an integer. *)
Definition num_gt_int (x : pynum) (t : Z) : bool :=
  match x with
  | NInt z => t <? z
  | NFloat f => float_gt_int f t
  end.

(** [x < y] and [x > y] for a number and a float. *)
Definition num_lt_float (x : pynum) (y : float) : bool :=
  match x with
  | NInt z => float_gt_int y z
  | NFloat f => flt f y
  end.

Definition num_gt_float (x : pynum) (y : float) : bool :=
  match x with
  | NInt z => float_lt_int y z
  | NFloat f => fgt f y
  end.

(** [x * c] for a number and a float. *)
Definition num_mul_float (nl : NumLib) (x : pynum) (c : float) : result float :=
  match x with
  | NInt z => f ← float_of_int nl z; Ok (PrimFloat.mul f c)
  | NFloat f => Ok (PrimFloat.mul f c)
  end.

(** [num / den] rounded to the nearest integer, ties to the even one, for
    [num >= 0] and [den > 0]. *)
Definition round_half_even (num den : Z) : Z :=
  let q := num / den in
  let r := num mod den in
  if 2 * r <? den then q
  else if den <? 2 * r then q + 1
  else if Z.even q then q else q + 1.

(** [round(x)] for a float: an integer. *)
Definition round_float (x : float) : result Z :=
  match Prim2SF x with
  | S754_nan => Raise ValueError
  | S754_infinity _ => Raise OverflowError
  | S754_zero _ => Ok 0
  | S754_finite s m e =>
      let n := if 0 <=? e then Z.pos m * 2 ^ e
               else round_half_even (Z.pos m) (2 ^ (- e)) in
      Ok (if s then - n else n)
  end.

(** [round(x)] for a number. *)
Definition round_num (x : pynum) : result Z :=
  match x with
  | NInt z => Ok z
  | NFloat f => round_float f
  end.

(** [statistics.mean(data)] for integers: the sum over the count as a
    fraction in lowest terms, which is returned as an integer if it is
    one and as the nearest float otherwise. *)
Definition mean (lib : Lib) (data : list Z) : result pynum :=
  let n := Z.of_nat (length data) in
  if n <? 1 then Raise StatisticsError
  else
    let total := fold_left Z.add data 0 in
    if total mod n =? 0 then Ok (NInt (total / n))
    else
      let g := Z.gcd total n in
      x ← truediv lib (total / g) (n / g);
      Ok (NFloat x).

(** ** modules/interaction_analyzer.py, sequences of interactions *)

Module InteractionSequences.

(** The values of the dictionary returned by
    [analyze_interaction_sequence]: a string, or the dictionary of the
    metrics. *)
Inductive metric :=
| MInt (z : Z)
| MFloat (x : float).

Inductive entry :=
| EStr (s : pystr)
| EMetrics (m : gmap string metric).

Section Methods.
Variable lib : Lib.
Variable nl : NumLib.
Variable self : InteractionAnalyzer.t.

Definition _calculate_trend (values : list Z) : result pystr :=
  if (length values <? 3)%nat then Ok (py "insufficient_data")
  else
    let midpoint := (length values / 2)%nat in
    first_half_avg ← mean lib (take midpoint values);
    second_half_avg ← mean lib (drop midpoint values);
    let threshold := 0.1%float in
    low ← num_mul_float nl first_half_avg (PrimFloat.sub 1%float threshold);
    if num_lt_float second_half_avg low then Ok (py "improving")
    else
      high ← num_mul_float nl first_half_avg (PrimFloat.add 1%float threshold);
      if num_gt_float second_half_avg high then Ok (py "struggling")
      else Ok (py "stable").

Definition analyze_interaction_sequence (interactions : list InteractionData.t)
    : result (gmap string entry) :=
  match interactions with
  | [] =>
      Ok (<["adaptation_urgency" := EStr (py "low")]>
          (<["trend" := EStr (py "neutral")]>
          (<["pattern_summary" := EStr (py "insufficient_data")]> ∅)))
  | _ =>
      let response_times := map InteractionData.response_time_ms interactions in
      avg_response ← mean lib response_times;
      response_trend ← _calculate_trend response_times;
      let total_clarifications :=
        fold_left Z.add (map InteractionData.clarification_count interactions) 0 in
      let repeated_errors :=
        Z.of_nat (length (List.filter InteractionData.is_repeated_error
                                      interactions)) in
      let count := Z.of_nat (length interactions) in
      summary ←
        (if num_gt_int avg_response (InteractionAnalyzer.slow_response_threshold self)
         then Ok (py "struggling", py "high")
         else
           count_float ← float_of_int nl count;
           if float_lt_int (PrimFloat.mul count_float 0.3%float) repeated_errors
           then Ok (py "persistent_difficulty", py "high")
           else if count * 2 <? total_clarifications
           then Ok (py "needs_clarification", py "medium")
           else if bool_decide (response_trend = py "improving")
           then Ok (py "progressing", py "low")
           else Ok (py "stable", py "low"));
      let '(pattern_summary, adaptation_urgency) := summary in
      avg_rounded ← round_num avg_response;
      error_rate ← truediv lib repeated_errors count;
      Ok (<["metrics" :=
              EMetrics
                (<["interaction_count" := MInt count]>
                 (<["repeated_error_rate" := MFloat (round_digits nl error_rate 2)]>
                 (<["total_clarifications" := MInt total_clarifications]>
                 (<["avg_response_time_ms" := MInt avg_rounded]> ∅))))]>
          (<["adaptation_urgency" := EStr adaptation_urgency]>
          (<["trend" := EStr response_trend]>
          (<["pattern_summary" := EStr pattern_summary]> ∅))))
  end.
End Methods.

End InteractionSequences.

(** ** utils/text_analysis.py, statistics and reading time *)

Module TextStatistics.

Section Methods.
Variable lib : Lib.
Variable nl : NumLib.

Definition get_text_statistics (text : pystr) : result (gmap string pynum) :=
  word_count ← of_option LibraryError (lexicon_count nl text);
  sentences ← of_option LibraryError (sentence_count nl text);
  syllables ← of_option LibraryError (syllable_count lib text);
  let char_count := Z.of_nat (length text) in
  words ← of_option LibraryError (lexicon_count nl text);
  sentences' ← of_option LibraryError (sentence_count nl text);
  avg ← truediv lib words (Z.max sentences' 1);
  Ok (<["avg_words_per_sentence" := NFloat (round_digits nl avg 2)]>
      (<["char_count" := NInt char_count]>
      (<["syllable_count" := NInt syllables]>
      (<["sentence_count" := NInt sentences]>
      (<["word_count" := NInt word_count]> ∅))))).

Definition generate_reading_time_estimate (text : pystr) (wpm : Z)
    : result (gmap string pynum) :=
  word_count ← of_option LibraryError (lexicon_count nl text);
  minutes ← truediv lib word_count wpm;
  let estimated_minutes := round_digits nl minutes 1 in
  estimated_seconds ← round_float (PrimFloat.mul minutes 60%float);
  grade ← of_option LibraryError (flesch_kincaid_grade lib text);
  let adjusted :=
    PrimFloat.mul minutes
      (PrimFloat.add 1%float (PrimFloat.div grade 20%float)) in
  Ok (<["complexity_adjusted_minutes" := NFloat (round_digits nl adjusted 1)]>
      (<["estimated_seconds" := NInt estimated_seconds]>
      (<["estimated_minutes" := NFloat estimated_minutes]>
      (<["word_count" := NInt word_count]> ∅)))).
End Methods.

End TextStatistics.

(** ** modules/interaction_analyzer.py, the audit hash

    The static method [generate_deterministic_hash] of
    [InteractionAnalyzer]. The dictionary is given by its items in the
    order of insertion; its keys are distinct, and its values are of the
    kinds that the audit dictionaries hold. *)
Definition generate_deterministic_hash (lib : Lib)
    (data : list (string * audit_value)) : option pystr :=
  let sorted_str := str_sorted_items lib data in
  short_digest lib sorted_str.

(** ** modules/bias_detector.py *)

Module BiasDetector.

(** The instance attributes set by [__init__]. *)
Record t := mk {
  complexity_threshold_high : float;
  complexity_threshold_medium : float
}.

Definition init : t :=
  {| complexity_threshold_high := settings.COMPLEXITY_THRESHOLD_HIGH;
     complexity_threshold_medium := settings.COMPLEXITY_THRESHOLD_MEDIUM |}.

(** The class [[-•*]]. *)
Definition is_list_marker (c : N) : bool :=
  ((c =? 45) || (c =? 8226) || (c =? 42))%N.

(** [re.search(r'^\s*[-•*]\s+', content, re.MULTILINE)] finds something.
    [at_line_ws] tells whether only white space separates the current
    position from the start of a line. *)
Fixpoint has_list_line (at_line_ws : bool) (s : pystr) : bool :=
  match s with
  | [] => false
  | c :: s' =>
      (at_line_ws && is_list_marker c
         && match s' with d :: _ => is_space d | [] => false end)
      || has_list_line
           (if (c =? newline)%N then true
            else if is_space c then at_line_ws else false)
           s'
  end.

Definition example_markers : list pystr :=
  [py "for example"; py "e.g."; py "for instance"; py "such as"; py "example:"].

(** The values [p.get("response_time_ms", 0)] of the patterns that hold
    the key. *)
Definition response_times (interaction_patterns : list (gmap string pyval))
    : list pyval :=
  omap (fun p => p !! "response_time_ms") interaction_patterns.

(** [sum(1 for t in ts if t > threshold)] *)
Fixpoint count_above (threshold : Z) (ts : list pyval) : option Z :=
  match ts with
  | [] => Some 0
  | t :: ts' =>
      b ← py_gt t threshold;
      n ← count_above threshold ts';
      Some (if b : bool then 1 + n else n)
  end.

(** The two indicators of [_detect_pace_mismatch]. *)
Definition pace_high (lib : Lib) (slow_ratio : float) : BiasIndicator.t :=
  {| BiasIndicator.bias_type := PACE_MISMATCH;
     BiasIndicator.severity := HIGH;
     BiasIndicator.confidence := 0.75%float;
     BiasIndicator.description :=
       py "Interaction patterns suggest content pace may be too fast. "
       ++ format_pct0 lib slow_ratio
       ++ py " of responses exceeded expected time.";
     BiasIndicator.affected_content_segment := None |}.

Definition pace_medium : BiasIndicator.t :=
  {| BiasIndicator.bias_type := PACE_MISMATCH;
     BiasIndicator.severity := MEDIUM;
     BiasIndicator.confidence := 0.60%float;
     BiasIndicator.description :=
       py "Some pace mismatch detected. Consider offering "
       ++ py "pace adjustment options.";
     BiasIndicator.affected_content_segment := None |}.

(** The body of the loop over the jargon patterns: the indicator appended
    for a pattern of type "academic_language". *)
Definition jargon_indicator (pattern : TextAnalyzer.JargonPattern)
    : option BiasIndicator.t :=
  match pattern with
  | TextAnalyzer.AcademicLanguage matches _ =>
      Some {| BiasIndicator.bias_type := LANGUAGE_COMPLEXITY;
              BiasIndicator.severity := LOW;
              BiasIndicator.confidence := 0.60%float;
              BiasIndicator.description :=
                py "Academic jargon detected: "
                ++ join (py ", ") (take 5 matches);
              BiasIndicator.affected_content_segment := None |}
  | TextAnalyzer.LongSentences _ _ => None
  end.

Section Methods.
Variable lib : Lib.
Variable rt : Runtime.
Variable self : t.

Definition _detect_language_complexity_bias
    (content : pystr) (metrics : gmap string float)
    : option (list BiasIndicator.t) :=
  let indicators : list BiasIndicator.t := [] in
  let fk_grade := dict_get metrics "flesch_kincaid_grade" 0%float in
  let indicators :=
    if fge fk_grade (complexity_threshold_high self)
    then indicators ++ [
      {| BiasIndicator.bias_type := LANGUAGE_COMPLEXITY;
         BiasIndicator.severity := HIGH;
         BiasIndicator.confidence := 0.85%float;
         BiasIndicator.description :=
           py "Content readability at grade level " ++ format_1f lib fk_grade
           ++ py " may exclude learners without advanced vocabulary";
         BiasIndicator.affected_content_segment :=
           Some (if (200 <? length content)%nat then take 200 content
                 else content) |} ]
    else if fge fk_grade (complexity_threshold_medium self)
    then indicators ++ [
      {| BiasIndicator.bias_type := LANGUAGE_COMPLEXITY;
         BiasIndicator.severity := MEDIUM;
         BiasIndicator.confidence := 0.70%float;
         BiasIndicator.description :=
           py "Content at grade level " ++ format_1f lib fk_grade
           ++ py " - consider providing simpler alternatives";
         BiasIndicator.affected_content_segment := None |} ]
    else indicators in
  let jargon_patterns := TextAnalyzer.identify_jargon_patterns lib rt content in
  let indicators := indicators ++ omap jargon_indicator jargon_patterns in
  complex_words ← TextAnalyzer.identify_complex_words lib rt content 3;
  let indicators :=
    if (10 <? length complex_words)%nat
    then indicators ++ [
      {| BiasIndicator.bias_type := LANGUAGE_COMPLEXITY;
         BiasIndicator.severity := MEDIUM;
         BiasIndicator.confidence := 0.65%float;
         BiasIndicator.description :=
           py "High density of complex words ("
           ++ str_of_Z (Z.of_nat (length complex_words)) ++ py " found)";
         BiasIndicator.affected_content_segment := None |} ]
    else indicators in
  Some indicators.

Definition _detect_pace_mismatch
    (interaction_patterns : list (gmap string pyval))
    : option (list BiasIndicator.t) :=
  let indicators : list BiasIndicator.t := [] in
  match interaction_patterns with
  | [] => Some indicators
  | _ =>
      let response_times := response_times interaction_patterns in
      match response_times with
      | [] => Some indicators
      | _ =>
          total ← py_sum 0 response_times;
          avg_response ← int_truediv lib total (Z.of_nat (length response_times));
          let slow_threshold_ms := 15000 in
          slow_responses ← count_above slow_threshold_ms response_times;
          slow_ratio ← int_truediv lib slow_responses
                         (Z.of_nat (length response_times));
          Some (if fgt slow_ratio 0.5%float
                then indicators ++ [pace_high lib slow_ratio]
                else if fgt slow_ratio 0.3%float
                then indicators ++ [pace_medium]
                else indicators)
      end
  end.

Definition _detect_prior_exposure_gaps
    (interaction_patterns : list (gmap string pyval))
    : option (list BiasIndicator.t) :=
  let indicators : list BiasIndicator.t := [] in
  clarification_count ←
    py_sum 0 (map (fun p => dict_get p "clarification_count" (PInt 0))
                  interaction_patterns);
  let repeated_errors :=
    Z.of_nat (length (List.filter
                        (fun p => truthy (dict_get p "is_repeated_error" (PBool false)))
                        interaction_patterns)) in
  let total_interactions := Z.of_nat (length interaction_patterns) in
  if total_interactions =? 0 then Some indicators
  else
    clarification_ratio ← int_truediv lib clarification_count total_interactions;
    error_ratio ← int_truediv lib repeated_errors total_interactions;
    let indicators :=
      if fgt clarification_ratio 1.5%float
      then indicators ++ [
        {| BiasIndicator.bias_type := PRIOR_EXPOSURE_GAP;
           BiasIndicator.severity := HIGH;
           BiasIndicator.confidence := 0.70%float;
           BiasIndicator.description :=
             py "High clarification rate suggests content may assume "
             ++ py "prior knowledge that isn't universal";
           BiasIndicator.affected_content_segment := None |} ]
      else indicators in
    let indicators :=
      if fgt error_ratio 0.4%float
      then indicators ++ [
        {| BiasIndicator.bias_type := PRIOR_EXPOSURE_GAP;
           BiasIndicator.severity := MEDIUM;
           BiasIndicator.confidence := 0.65%float;
           BiasIndicator.description :=
             py "Repeated errors suggest foundational concepts "
             ++ py "may need additional scaffolding";
           BiasIndicator.affected_content_segment := None |} ]
      else indicators in
    Some indicators.

Definition _detect_representation_issues (content : pystr)
    : list BiasIndicator.t :=
  let indicators : list BiasIndicator.t := [] in
  let has_examples :=
    existsb (fun marker => contains marker (str_lower lib content))
            example_markers in
  let indicators :=
    if (500 <? length content)%nat && negb has_examples
    then indicators ++ [
      {| BiasIndicator.bias_type := REPRESENTATION_ISSUE;
         BiasIndicator.severity := LOW;
         BiasIndicator.confidence := 0.55%float;
         BiasIndicator.description :=
           py "Content lacks concrete examples which may "
           ++ py "disadvantage learners who benefit from examples";
         BiasIndicator.affected_content_segment := None |} ]
    else indicators in
  let has_numbers := existsb (is_decimal lib) content in
  let has_lists := has_list_line true content in
  let indicators :=
    if (300 <? length content)%nat && negb has_numbers && negb has_lists
    then indicators ++ [
      {| BiasIndicator.bias_type := REPRESENTATION_ISSUE;
         BiasIndicator.severity := LOW;
         BiasIndicator.confidence := 0.50%float;
         BiasIndicator.description :=
           py "Content is highly abstract. Consider adding "
           ++ py "concrete representations or structured lists.";
         BiasIndicator.affected_content_segment := None |} ]
    else indicators in
  indicators.

(** What one indicator adds to the set [recommendations]. *)
Definition recommended_for (b : BiasType) : list AdaptationType :=
  match b with
  | LANGUAGE_COMPLEXITY => [SIMPLIFY_LANGUAGE]
  | PACE_MISMATCH => [ADJUST_PACE]
  | PRIOR_EXPOSURE_GAP => [ADD_EXAMPLES; SIMPLIFY_LANGUAGE]
  | REPRESENTATION_ISSUE => [ADD_EXAMPLES; CHANGE_REPRESENTATION]
  end.

Definition _build_recommendations (indicators : list BiasIndicator.t)
    : list AdaptationType :=
  let recommendations :=
    flat_map (fun indicator => recommended_for (BiasIndicator.bias_type indicator))
             indicators in
  set_order_adaptation rt recommendations.

Definition _generate_audit_hash
    (session_hash content : pystr) (indicators : list BiasIndicator.t)
    : option pystr :=
  content_hash ← short_digest lib content;
  let data :=
    [ ("session", AStr session_hash);
      ("content_hash", AStr content_hash);
      ("indicator_count", AInt (Z.of_nat (length indicators)));
      ("indicator_types",
        AList (sorted_str
                 (map (fun i => BiasTypeEnum.value (BiasIndicator.bias_type i))
                      indicators))) ] in
  let data_str := str_sorted_items lib data in
  short_digest lib data_str.

Definition detect_bias (request : BiasDetectionRequest.t)
    : option BiasDetectionResult.t :=
  let indicators : list BiasIndicator.t := [] in
  readability_metrics ←
    TextAnalyzer.get_readability_metrics lib
      (BiasDetectionRequest.content_text request);
  complexity_indicators ←
    _detect_language_complexity_bias
      (BiasDetectionRequest.content_text request) readability_metrics;
  let indicators := indicators ++ complexity_indicators in
  pace_indicators ←
    match BiasDetectionRequest.interaction_patterns request with
    | [] => Some []
    | _ => _detect_pace_mismatch (BiasDetectionRequest.interaction_patterns request)
    end;
  let indicators := indicators ++ pace_indicators in
  exposure_indicators ←
    match BiasDetectionRequest.interaction_patterns request with
    | [] => Some []
    | _ => _detect_prior_exposure_gaps
             (BiasDetectionRequest.interaction_patterns request)
    end;
  let indicators := indicators ++ exposure_indicators in
  let representation_indicators :=
    _detect_representation_issues (BiasDetectionRequest.content_text request) in
  let indicators := indicators ++ representation_indicators in
  let recommended_actions := _build_recommendations indicators in
  let fk_grade := dict_get readability_metrics "flesch_kincaid_grade" 0%float in
  let complexity_level := TextAnalyzer.get_complexity_level fk_grade in
  audit_hash ←
    _generate_audit_hash
      (BiasDetectionRequest.session_hash request)
      (BiasDetectionRequest.content_text request)
      indicators;
  Some {| BiasDetectionResult.session_hash :=
            BiasDetectionRequest.session_hash request;
          BiasDetectionResult.bias_detected := (0 <? length indicators)%nat;
          BiasDetectionResult.indicators := indicators;
          BiasDetectionResult.readability_score := fk_grade;
          BiasDetectionResult.complexity_level := complexity_level;
          BiasDetectionResult.recommended_actions := recommended_actions;
          BiasDetectionResult.analysis_timestamp := utcnow_isoformat rt;
          BiasDetectionResult.deterministic_hash := audit_hash |}.
End Methods.

(** The values of the dictionary returned by [get_bias_summary]. *)
Inductive summary_value :=
| SBool (b : bool)
| SInt (z : Z)
| SStr (s : pystr)
| SDict (d : gmap pystr Z).

(** [counts[key] = counts.get(key, 0) + 1] *)
Definition count_up (counts : gmap pystr Z) (key : pystr) : gmap pystr Z :=
  <[key := default 0 (counts !! key) + 1]> counts.

(** [xs.index(x)]; [None] is the [ValueError] for an [x] that is not in
    [xs]. *)
Fixpoint index (xs : list pystr) (x : pystr) : option nat :=
  match xs with
  | [] => None
  | y :: xs' => if bool_decide (y = x) then Some 0%nat else S <$> index xs' x
  end.

(** [max(xs, key=key)]: the first of the elements whose key is the
    greatest. [best] is the greatest so far, [best_key] its key. *)
Fixpoint max_go {A} (key : A -> option nat) (best : A) (best_key : nat)
    (xs : list A) : option A :=
  match xs with
  | [] => Some best
  | x :: xs' =>
      k ← key x;
      if (best_key <? k)%nat then max_go key x k xs'
      else max_go key best best_key xs'
  end.

Definition max_by {A} (key : A -> option nat) (xs : list A) : option A :=
  match xs with
  | [] => None
  | x :: xs' => k ← key x; max_go key x k xs'
  end.

(** The body of the loop over the indicators. *)
Definition summary_step (counts : gmap pystr Z * gmap pystr Z)
    (indicator : BiasIndicator.t) : gmap pystr Z * gmap pystr Z :=
  let '(severity_counts, type_counts) := counts in
  let sev := SeverityLevelEnum.value (BiasIndicator.severity indicator) in
  let severity_counts := count_up severity_counts sev in
  let bt := BiasTypeEnum.value (BiasIndicator.bias_type indicator) in
  let type_counts := count_up type_counts bt in
  (severity_counts, type_counts).

Definition get_bias_summary (indicators : list BiasIndicator.t)
    : option (gmap string summary_value) :=
  match indicators with
  | [] =>
      Some (<["severity_distribution" := SDict ∅]>
            (<["summary" := SStr (py "No significant bias indicators detected")]>
            (<["bias_detected" := SBool false]> ∅)))
  | _ =>
      let '(severity_counts, type_counts) :=
        fold_left summary_step indicators (∅, ∅) in
      highest ←
        max_by (fun s => index [py "low"; py "medium"; py "high"]
                           (SeverityLevelEnum.value s))
               (map BiasIndicator.severity indicators);
      Some (<["highest_severity" := SStr (SeverityLevelEnum.value highest)]>
            (<["type_distribution" := SDict type_counts]>
            (<["severity_distribution" := SDict severity_counts]>
            (<["total_indicators" := SInt (Z.of_nat (length indicators))]>
            (<["bias_detected" := SBool true]> ∅)))))
  end.

End BiasDetector.

(** ** models/schemas.py, adaptation *)

Module AdaptationRequest.
Record t := mk {
  session_hash : pystr;
  original_content : pystr;
  requested_adaptations : list AdaptationType;
  current_complexity_level : option pystr;
  interaction_signals : gmap string pyval
}.
End AdaptationRequest.

Module AdaptedContent.
Record t := mk {
  adaptation_type : AdaptationType;
  content : pystr;
  complexity_level : pystr;
  changes_made : list pystr
}.
End AdaptedContent.

Module AdaptationResult.
Record t := mk {
  session_hash : pystr;
  original_content : pystr;
  adaptations : list AdaptedContent.t;
  primary_recommendation : option AdaptedContent.t;
  adaptation_reasoning : pystr;
  deterministic_hash : pystr
}.
End AdaptationResult.

(** ** More of [re] *)

(** The longest prefix of [s] whose characters satisfy [f], and the rest. *)
Fixpoint span (f : N -> bool) (s : pystr) : pystr * pystr :=
  match s with
  | [] => ([], [])
  | c :: s' =>
      if f c then let '(a, b) := span f s' in (c :: a, b) else ([], s)
  end.

Section Regex.
Variable lib : Lib.

(** [\b] between two neighbours; outside the string counts as a
    non-word character. *)
Definition word_boundary (prev next : option N) : bool :=
  xorb (from_option (is_word lib) false prev)
       (from_option (is_word lib) false next).

(** [re.findall] for a pattern with one group: [m prev s] gives, for a
    match at the start of [s] (with [prev] before it), the text of the
    group and the length of the match, which is not 0. The search goes
    on after a match, and one character further on where there is none. *)
Fixpoint findall_scan (m : option N -> pystr -> option (pystr * nat))
    (prev : option N) (skip : nat) (s : pystr) : list pystr :=
  match s with
  | [] => []
  | c :: s' =>
      match skip with
      | S k => findall_scan m (Some c) k s'
      | O =>
          match m prev s with
          | Some (g, n) => g :: findall_scan m (Some c) (n - 1) s'
          | None => findall_scan m (Some c) O s'
          end
      end
  end.

(** [[A-Z][a-z]+] at the start of [s]: the word and what follows. *)
Definition take_cap_word (s : pystr) : option (pystr * pystr) :=
  match s with
  | c :: s' =>
      if is_ascii_upper c
      then let '(lows, r) := span is_ascii_lower s' in
           match lows with
           | [] => None
           | _ => Some (c :: lows, r)
           end
      else None
  | [] => None
  end.

(** The iterations of [(?:\s+[A-Z][a-z]+)*] from offset [pos]: the offsets
    reached after each one. *)
Fixpoint cap_phrase_ends (fuel : nat) (pos : nat) (s : pystr) : list nat :=
  match fuel with
  | O => []
  | S fuel' =>
      let '(ws, r) := span is_space s in
      match ws with
      | [] => []
      | _ =>
          match take_cap_word r with
          | Some (w, r') =>
              let e := (pos + length ws + length w)%nat in
              e :: cap_phrase_ends fuel' e r'
          | None => []
          end
      end
  end.

Definition boundary_at (e : nat) (s : pystr) : bool :=
  word_boundary (s !! (e - 1)%nat) (s !! e).

(** [\b[A-Z][a-z]+(?:\s+[A-Z][a-z]+)*\b] at the start of [s]: the
    repetition is greedy and gives iterations back until the final [\b]
    holds. *)
Definition cap_phrase_at (prev : option N) (s : pystr) : option (pystr * nat) :=
  if word_boundary prev (head s)
  then
    match take_cap_word s with
    | Some (w, r) =>
        let ends := length w :: cap_phrase_ends (length r) (length w) r in
        match List.find (fun e => boundary_at e s) (rev ends) with
        | Some e => Some (take e s, e)
        | None => None
        end
    | None => None
    end
  else None.

(** A double quote, one or more characters other than it (the group)
    and a double quote, at the start of [s]. *)
Definition quoted_at (prev : option N) (s : pystr) : option (pystr * nat) :=
  match s with
  | 34%N :: s' =>
      let '(body, r) := span (fun c => negb (c =? 34)%N) s' in
      match body, r with
      | _ :: _, 34%N :: _ => Some (body, (length body + 2)%nat)
      | _, _ => None
      end
  | _ => None
  end.

(** [re.sub(rf'\b({re.escape(word)})\b', r'\1' + ins, s, count=1,
    flags=re.IGNORECASE)] for a word of ASCII letters: [ins] is inserted
    after the first whole-word occurrence. *)
Fixpoint insert_after_first_word (word ins : pystr) (prev : option N)
    (s : pystr) : pystr :=
  match s with
  | [] => []
  | c :: s' =>
      if ci_prefix word s
         && word_boundary prev (Some c)
         && boundary_at (length word) s
      then take (length word) s ++ ins ++ drop (length word) s
      else c :: insert_after_first_word word ins (Some c) s'
  end.
End Regex.

(** ** modules/adaptive_engine.py *)

Module AdaptiveEngine.

(** The literals of the module that are not ASCII, by code points. *)
Definition bullet : pystr := [226; 8364; 162]%N.

Definition reflection : pystr :=
  [newline; newline; 240; 376; 8217; 161]%N
  ++ py " **Pause and reflect:** What's the main point so far?"
  ++ [newline; newline].

Definition paragraph_break : pystr := [newline; newline].

(** The marker put between chunks by [_add_pace_markers]. *)
Definition pace_marker : pystr :=
  paragraph_break ++ py "---" ++ paragraph_break.

(** The loop of [_split_into_chunks] over [range(0, len(sentences), 3)]. *)
Fixpoint groups_of_three (sentences : list pystr) : list (list pystr) :=
  match sentences with
  | [] => []
  | a :: b :: c :: rest => [a; b; c] :: groups_of_three rest
  | short => [short]
  end.

Definition _split_into_chunks (content : pystr) : list pystr :=
  let paragraphs := split_on paragraph_break content in
  if (3 <=? length paragraphs)%nat then paragraphs
  else
    let sentences := split_after_sentence content in
    if (length sentences <? 4)%nat then [content]
    else
      List.filter (fun chunk => negb (bool_decide (strip chunk = [])))
                  (map (join [space]) (groups_of_three sentences)).

Definition _add_pace_markers (chunks : list pystr) : pystr :=
  match chunks with
  | [] => []
  | [chunk] => chunk
  | _ => join pace_marker chunks
  end.

(** The test of the loop of [_add_reflection_prompts] at index [i]. *)
Definition is_break (content : pystr) (i : nat) : bool :=
  match content !! i with
  | Some c => is_sentence_end c && (i + 1 <? length content)%nat
  | None => false
  end.

Definition _add_reflection_prompts (content : pystr) : pystr :=
  let midpoint := (length content / 2)%nat in
  let search_start := Nat.max 0 (midpoint - 50) in
  let search_end := Nat.min (length content) (midpoint + 50) in
  match List.find (is_break content) (seq midpoint (search_end - midpoint)) with
  | Some i =>
      let insert_point := (i + 1)%nat in
      take insert_point content ++ reflection ++ drop insert_point content
  | None => content
  end.

Definition _adjust_pace (content : pystr) (signals : gmap string pyval)
    : AdaptedContent.t :=
  let changes : list pystr := [] in
  let chunks := _split_into_chunks content in
  let '(paced_content, changes) :=
    if (1 <? length chunks)%nat
    then (_add_pace_markers chunks,
          changes ++ [py "Divided content into "
                      ++ str_of_Z (Z.of_nat (length chunks))
                      ++ py " digestible sections"])
    else (content, changes ++ [py "Content is already appropriately paced"]) in
  let '(paced_content, changes) :=
    if (800 <? length content)%nat
    then
      let with_pauses := _add_reflection_prompts paced_content in
      if bool_decide (with_pauses <> paced_content)
      then (with_pauses, changes ++ [py "Added reflection checkpoints"])
      else (paced_content, changes)
    else (paced_content, changes) in
  {| AdaptedContent.adaptation_type := ADJUST_PACE;
     AdaptedContent.content := paced_content;
     AdaptedContent.complexity_level := py "simple";
     AdaptedContent.changes_made := changes |}.

Definition _convert_to_bullets (content : pystr) : pystr :=
  let sentences := split_after_sentence content in
  if (length sentences <? 3)%nat then content
  else
    let bullets :=
      omap (fun sentence =>
              let sentence := strip sentence in
              match sentence with
              | [] => None
              | _ => Some (bullet ++ [space] ++ sentence)
              end)
           sentences in
    join [newline] bullets.

Definition _add_structure (content : pystr) : pystr :=
  let paragraphs := split_on paragraph_break content in
  if (length paragraphs <? 2)%nat
  then
    let sentences := split_after_sentence content in
    if (4 <=? length sentences)%nat
    then
      let mid := (length sentences / 2)%nat in
      join paragraph_break
        [join [space] (take mid sentences); join [space] (drop mid sentences)]
    else content
  else
    let structured :=
      omap (fun '(i, para) =>
              match strip para with
              | [] => None
              | _ => Some (py "**Part " ++ str_of_Z (Z.of_nat i) ++ py ":**"
                           ++ [newline] ++ para)
              end)
           (zip (seq 1 (length paragraphs)) paragraphs) in
    join paragraph_break structured.

Definition _add_summary (content : pystr) : pystr :=
  let first_sentence := default [] (head (split_after_sentence content)) in
  let first_sentence :=
    if (100 <? length first_sentence)%nat
    then take 100 first_sentence ++ py "..."
    else first_sentence in
  let summary :=
    py "**Quick Overview:** " ++ first_sentence
    ++ paragraph_break ++ py "---" ++ paragraph_break in
  summary ++ content.

Definition _change_representation (content : pystr) (signals : gmap string pyval)
    : AdaptedContent.t :=
  let changes : list pystr := [] in
  let modified := content in
  let '(modified, changes) :=
    if (200 <? length content)%nat && (count_char newline content <? 3)%nat
    then
      let bulleted := _convert_to_bullets content in
      if bool_decide (bulleted <> content)
      then (bulleted, changes ++ [py "Converted dense text to bullet points"])
      else (modified, changes)
    else (modified, changes) in
  let '(modified, changes) :=
    if negb (existsb (fun marker => contains marker content)
                     [bullet; py "-"; py "*"; py "1."; py "2."])
    then
      let structured := _add_structure modified in
      if bool_decide (structured <> modified)
      then (structured, changes ++ [py "Added structural organization"])
      else (modified, changes)
    else (modified, changes) in
  let '(modified, changes) :=
    if (500 <? length content)%nat
    then
      let with_summary := _add_summary modified in
      if bool_decide (with_summary <> modified)
      then (with_summary, changes ++ [py "Added summary introduction"])
      else (modified, changes)
    else (modified, changes) in
  let changes :=
    match changes with
    | [] => changes ++ [py "Reorganized content structure"]
    | _ => changes
    end in
  {| AdaptedContent.adaptation_type := CHANGE_REPRESENTATION;
     AdaptedContent.content := modified;
     AdaptedContent.complexity_level := py "moderate";
     AdaptedContent.changes_made := changes |}.

Definition _generate_example_section (concepts : list pystr) : pystr :=
  match concepts with
  | [] => []
  | _ =>
      let lines := [py "**Examples to help understand:**"; []] in
      let lines :=
        lines ++ map (fun concept =>
                        bullet ++ py " **" ++ concept
                        ++ py "**: [This concept can be understood as...]")
                     (take 3 concepts) in
      join [newline] lines
  end.

Definition _build_adaptation_reasoning
    (requested_types : list AdaptationType) (signals : gmap string pyval)
    : pystr :=
  let reasons :=
    map (fun adapt_type =>
           match adapt_type with
           | SIMPLIFY_LANGUAGE =>
               py "Language simplified based on interaction patterns indicating "
               ++ py "comprehension barriers"
           | ADD_EXAMPLES =>
               py "Examples added to provide concrete understanding of abstract concepts"
           | CHANGE_REPRESENTATION =>
               py "Content restructured to offer alternative learning pathway"
           | ADJUST_PACE =>
               py "Content chunked to allow for gradual comprehension"
           end)
        requested_types in
  match reasons with
  | [] => py "Standard adaptation applied"
  | _ => join (py " | ") reasons
  end.

(** The loop [for adaptation in adaptations] of
    [_select_primary_adaptation], which returns at the first adaptation
    whose type is a key of [signal_priority]. *)
Fixpoint first_with_priority (signal_priority : list (AdaptationType * Z))
    (adaptations : list AdaptedContent.t) : option AdaptedContent.t :=
  match adaptations with
  | [] => None
  | adaptation :: rest =>
      if bool_decide (AdaptedContent.adaptation_type adaptation ∈ signal_priority.*1)
      then Some adaptation
      else first_with_priority signal_priority rest
  end.

(** The outer [option] is the exception, the inner one the [Optional]
    of the signature. *)
Definition _select_primary_adaptation
    (adaptations : list AdaptedContent.t) (signals : gmap string pyval)
    : option (option AdaptedContent.t) :=
  match adaptations with
  | [] => Some None
  | first :: _ =>
      let signal_priority : list (AdaptationType * Z) := [] in
      many ← py_gt (dict_get signals "clarification_count" (PInt 0)) 2;
      let signal_priority :=
        if many : bool then signal_priority ++ [(SIMPLIFY_LANGUAGE, 1)]
        else signal_priority in
      let signal_priority :=
        if truthy (dict_get signals "is_repeated_error" PNone)
        then signal_priority ++ [(ADD_EXAMPLES, 1)]
        else signal_priority in
      slow ← py_gt (dict_get signals "response_time_ms" (PInt 0)) 15000;
      let signal_priority :=
        if slow : bool then signal_priority ++ [(ADJUST_PACE, 1)]
        else signal_priority in
      match first_with_priority signal_priority adaptations with
      | Some adaptation => Some (Some adaptation)
      | None => Some (Some first)
      end
  end.

Section Methods.
Variable lib : Lib.
Variable rt : Runtime.

Definition _simplify_language (content : pystr) (signals : gmap string pyval)
    : option AdaptedContent.t :=
  let clarification_count := dict_get signals "clarification_count" (PInt 0) in
  many ← py_gt clarification_count 3;
  let level := if many : bool then py "simple" else py "moderate" in
  let simplified := TextAnalyzer.simplify_text content level in
  let changes : list pystr := [] in
  orig_metrics ← TextAnalyzer.get_readability_metrics lib content;
  new_metrics ← TextAnalyzer.get_readability_metrics lib simplified;
  let orig_grade := dict_get orig_metrics "flesch_kincaid_grade" 0%float in
  let new_grade := dict_get new_metrics "flesch_kincaid_grade" 0%float in
  let changes :=
    if flt new_grade orig_grade
    then changes ++ [py "Reduced reading level from grade "
                     ++ format_1f lib orig_grade ++ py " to "
                     ++ format_1f lib new_grade]
    else changes in
  let orig_words := split_ws (str_lower lib content) in
  let new_words := split_ws (str_lower lib simplified) in
  let replaced_count :=
    length (remove_dups
              (List.filter (fun w => negb (bool_decide (w ∈ new_words)))
                           orig_words)) in
  let changes :=
    if (0 <? replaced_count)%nat
    then changes ++ [py "Simplified " ++ str_of_Z (Z.of_nat replaced_count)
                     ++ py " complex terms"]
    else changes in
  let orig_sentences :=
    (count_char 46 content + count_char 33 content + count_char 63 content)%nat in
  let new_sentences :=
    (count_char 46 simplified + count_char 33 simplified
     + count_char 63 simplified)%nat in
  let changes :=
    if (orig_sentences <? new_sentences)%nat
    then changes ++ [py "Broke long sentences into shorter ones"]
    else changes in
  let changes :=
    match changes with
    | [] => changes ++ [py "Applied vocabulary simplification"]
    | _ => changes
    end in
  Some {| AdaptedContent.adaptation_type := SIMPLIFY_LANGUAGE;
          AdaptedContent.content := simplified;
          AdaptedContent.complexity_level := level;
          AdaptedContent.changes_made := changes |}.

Definition _extract_key_concepts (content : pystr) : list pystr :=
  let words := findall_scan (cap_phrase_at lib) None O content in
  let quoted := findall_scan quoted_at None O content in
  let concepts := take 5 (set_order_str rt (words ++ quoted)) in
  concepts.

(** The body of the loop of [_add_inline_examples]. *)
Definition inline_step (modified : pystr) (word : pystr) : pystr :=
  if negb (bool_decide (word ∈ [py "example"; py "understanding"]))
     && negb (contains (word ++ py " (") (str_lower lib modified))
  then insert_after_first_word lib word (py " (in simpler terms)") None modified
  else modified.

Definition _add_inline_examples (content : pystr) : option pystr :=
  complex_words ← TextAnalyzer.identify_complex_words lib rt content 3;
  match complex_words with
  | [] => Some content
  | _ => Some (fold_left inline_step (take 2 complex_words) content)
  end.

Definition _add_examples (content : pystr) (signals : gmap string pyval)
    : option AdaptedContent.t :=
  let changes : list pystr := [] in
  let example_markers :=
    [py "for example"; py "e.g."; py "for instance"; py "such as"] in
  let has_examples :=
    existsb (fun marker => contains marker (str_lower lib content))
            example_markers in
  let key_concepts := _extract_key_concepts content in
  let enhanced_content := content in
  let '(enhanced_content, changes) :=
    match has_examples, key_concepts with
    | false, _ :: _ =>
        let example_section := _generate_example_section key_concepts in
        (content ++ paragraph_break ++ example_section,
         changes ++ [py "Added example section for "
                     ++ str_of_Z (Z.of_nat (length key_concepts))
                     ++ py " key concepts"])
    | _, _ => (enhanced_content, changes)
    end in
  inline_examples ← _add_inline_examples enhanced_content;
  let '(enhanced_content, changes) :=
    if bool_decide (inline_examples <> enhanced_content)
    then (inline_examples,
          changes ++ [py "Added inline examples for complex terms"])
    else (enhanced_content, changes) in
  let changes :=
    match changes with
    | [] => changes ++ [py "Content already contains sufficient examples"]
    | _ => changes
    end in
  Some {| AdaptedContent.adaptation_type := ADD_EXAMPLES;
          AdaptedContent.content := enhanced_content;
          AdaptedContent.complexity_level := py "moderate";
          AdaptedContent.changes_made := changes |}.

(** [AdaptationType] has four members, so the final [return None] of
    the source is not reached. *)
Definition _apply_adaptation (content : pystr)
    (adaptation_type : AdaptationType) (signals : gmap string pyval)
    : option AdaptedContent.t :=
  match adaptation_type with
  | SIMPLIFY_LANGUAGE => _simplify_language content signals
  | ADD_EXAMPLES => _add_examples content signals
  | CHANGE_REPRESENTATION => Some (_change_representation content signals)
  | ADJUST_PACE => Some (_adjust_pace content signals)
  end.

Definition _generate_audit_hash
    (session_hash original : pystr) (adaptations : list AdaptedContent.t)
    : option pystr :=
  original_hash ← short_digest lib original;
  let data :=
    [ ("session", AStr session_hash);
      ("original_hash", AStr original_hash);
      ("adaptation_types",
        AList (sorted_str
                 (map (fun a => AdaptationTypeEnum.value
                                  (AdaptedContent.adaptation_type a))
                      adaptations))) ] in
  let data_str := str_sorted_items lib data in
  short_digest lib data_str.

Definition generate_adaptation (request : AdaptationRequest.t)
    : option AdaptationResult.t :=
  adaptations ←
    mapM (fun adaptation_type =>
            _apply_adaptation
              (AdaptationRequest.original_content request)
              adaptation_type
              (AdaptationRequest.interaction_signals request))
         (AdaptationRequest.requested_adaptations request);
  primary ←
    _select_primary_adaptation adaptations
      (AdaptationRequest.interaction_signals request);
  let reasoning :=
    _build_adaptation_reasoning
      (AdaptationRequest.requested_adaptations request)
      (AdaptationRequest.interaction_signals request) in
  audit_hash ←
    _generate_audit_hash
      (AdaptationRequest.session_hash request)
      (AdaptationRequest.original_content request)
      adaptations;
  Some {| AdaptationResult.session_hash := AdaptationRequest.session_hash request;
          AdaptationResult.original_content :=
            AdaptationRequest.original_content request;
          AdaptationResult.adaptations := adaptations;
          AdaptationResult.primary_recommendation := primary;
          AdaptationResult.adaptation_reasoning := reasoning;
          AdaptationResult.deterministic_hash := audit_hash |}.
End Methods.

(** [xs[:n]]: the first [n] elements, or all but the last [-n] for a
    negative [n]. *)
Definition slice_to {A} (n : Z) (xs : list A) : list A :=
  if n <? 0 then take (Z.to_nat (Z.of_nat (length xs) + n)) xs
  else take (Z.to_nat n) xs.

Definition generate_multiple_variants (content : pystr) (num_variants : Z)
    : list AdaptedContent.t :=
  let variants : list AdaptedContent.t := [] in
  let variants :=
    variants ++ [ {| AdaptedContent.adaptation_type := SIMPLIFY_LANGUAGE;
                     AdaptedContent.content := content;
                     AdaptedContent.complexity_level := py "original";
                     AdaptedContent.changes_made :=
                       [py "Original content preserved"] |} ] in
  let moderate := TextAnalyzer.simplify_text content (py "moderate") in
  let variants :=
    variants ++ [ {| AdaptedContent.adaptation_type := SIMPLIFY_LANGUAGE;
                     AdaptedContent.content := moderate;
                     AdaptedContent.complexity_level := py "moderate";
                     AdaptedContent.changes_made :=
                       [py "Vocabulary simplified";
                        py "Technical terms clarified"] |} ] in
  let simple := TextAnalyzer.simplify_text content (py "simple") in
  let variants :=
    variants ++ [ {| AdaptedContent.adaptation_type := SIMPLIFY_LANGUAGE;
                     AdaptedContent.content := simple;
                     AdaptedContent.complexity_level := py "simple";
                     AdaptedContent.changes_made :=
                       [py "Maximum vocabulary simplification";
                        py "Sentences shortened";
                        py "Complex structures removed"] |} ] in
  slice_to num_variants variants.

End AdaptiveEngine.

(** * Inputs of the statements *)

(** An interaction record with the given response time and action, the
    other fields at the defaults of the schema. *)
Definition interaction_with (rt : Z) (action : string) (repeated : bool) : InteractionData.t :=
  {| InteractionData.session_hash := py "s";
     InteractionData.content_id := py "c";
     InteractionData.response_time_ms := rt;
     InteractionData.action_type := py action;
     InteractionData.content_text := None;
     InteractionData.is_repeated_error := repeated;
     InteractionData.clarification_count := 0;
     InteractionData.time_on_content_seconds := 0 |}.

(** ** A library to run the definitions with

    [ascii_lib] implements [Lib] for running the definitions on ASCII data:
    SHA-256 of the UTF-8 encoding, [repr] and [lower] as they act on ASCII
    text, the two float formats by exact rounding of the binary value. It
    holds no Unicode table beyond U+007F, and every call of textstat
    raises in it. *)

Module Sha256.

Definition mask32 : N := 0xffffffff%N.

Definition add32 (a b : N) : N := N.land (a + b) mask32.

Definition rotr (n x : N) : N :=
  N.land (N.lor (N.shiftr x n) (N.shiftl x (32 - n))) mask32.

Definition xor3 (a b c : N) : N := N.lxor (N.lxor a b) c.

Definition Ch (x y z : N) : N :=
  N.lxor (N.land x y) (N.land (N.lxor x mask32) z).

Definition Maj (x y z : N) : N :=
  xor3 (N.land x y) (N.land x z) (N.land y z).

Definition Sigma0 (x : N) : N := xor3 (rotr 2 x) (rotr 13 x) (rotr 22 x).
Definition Sigma1 (x : N) : N := xor3 (rotr 6 x) (rotr 11 x) (rotr 25 x).
Definition sigma0 (x : N) : N := xor3 (rotr 7 x) (rotr 18 x) (N.shiftr x 3).
Definition sigma1 (x : N) : N := xor3 (rotr 17 x) (rotr 19 x) (N.shiftr x 10).

(** The first [n] primes, found by trial division from [candidate] on. *)
Fixpoint next_primes (fuel n : nat) (candidate : N) (found : list N) : list N :=
  match fuel, n with
  | S fuel', S n' =>
      if forallb (fun p => negb (candidate mod p =? 0)%N) found
      then next_primes fuel' n' (candidate + 1)%N (found ++ [candidate])
      else next_primes fuel' n (candidate + 1)%N found
  | _, _ => found
  end.

Definition primes (n : nat) : list N := next_primes 400 n 2%N [].

(** The integer cube root, one bit after the other from bit [bits - 1]. *)
Fixpoint cube_root_bits (bits : nat) (n r : N) : N :=
  match bits with
  | O => r
  | S bits' =>
      let r' := (r + N.shiftl 1 (N.of_nat bits'))%N in
      cube_root_bits bits' n (if (r' * r' * r' <=? n)%N then r' else r)
  end.

(** The round constants: the first 32 bits of the fractional parts of the
    cube roots of the first 64 primes. *)
Definition K : list N :=
  Eval vm_compute in
    map (fun p => N.land (cube_root_bits 36 (N.shiftl p 96) 0) mask32) (primes 64).

(** The initial hash value: the same of the square roots of the first 8
    primes. *)
Definition H0 : list N :=
  Eval vm_compute in
    map (fun p => N.land (N.sqrt (N.shiftl p 64)) mask32) (primes 8).

(** The bytes of [n] on [k] positions, most significant first. *)
Fixpoint be_bytes (k : nat) (n : N) : list N :=
  match k with
  | O => []
  | S k' => N.land (N.shiftr n (8 * N.of_nat k')) 255 :: be_bytes k' n
  end.

Definition pad (msg : list N) : list N :=
  let len := length msg in
  let zeros := ((64 - (len + 9) mod 64) mod 64)%nat in
  msg ++ [128%N] ++ repeat 0%N zeros ++ be_bytes 8 (8 * N.of_nat len).

(** The 32-bit words of a list of bytes. *)
Fixpoint words_of (bytes : list N) : list N :=
  match bytes with
  | a :: b :: c :: d :: rest =>
      (N.shiftl a 24 + N.shiftl b 16 + N.shiftl c 8 + d)%N :: words_of rest
  | _ => []
  end.

(** The message schedule, last word first: [n] more words after [w]. *)
Fixpoint extend (n : nat) (w : list N) : list N :=
  match n with
  | O => w
  | S n' =>
      let x :=
        add32 (add32 (sigma1 (nth 1 w 0%N)) (nth 6 w 0%N))
              (add32 (sigma0 (nth 14 w 0%N)) (nth 15 w 0%N)) in
      extend n' (x :: w)
  end.

Definition state : Type := N * N * N * N * N * N * N * N.

Definition round (s : state) (kw : N * N) : state :=
  let '(a, b, c, d, e, f, g, h) := s in
  let t1 := add32 (add32 (add32 h (Sigma1 e)) (add32 (Ch e f g) kw.1)) kw.2 in
  let t2 := add32 (Sigma0 a) (Maj a b c) in
  (add32 t1 t2, a, b, c, add32 d t1, e, f, g).

Definition compress (s : state) (block : list N) : state :=
  let w := rev (extend 48 (rev block)) in
  let '(a, b, c, d, e, f, g, h) := fold_left round (zip K w) s in
  let '(a0, b0, c0, d0, e0, f0, g0, h0) := s in
  (add32 a0 a, add32 b0 b, add32 c0 c, add32 d0 d,
   add32 e0 e, add32 f0 f, add32 g0 g, add32 h0 h).

(** The blocks of 16 words of a padded message. *)
Fixpoint blocks (fuel : nat) (ws : list N) : list (list N) :=
  match fuel, ws with
  | S fuel', _ :: _ => take 16 ws :: blocks fuel' (drop 16 ws)
  | _, _ => []
  end.

Definition hex_digit (n : N) : N :=
  if (n <? 10)%N then (48 + n)%N else (87 + n)%N.

Definition hex_word (w : N) : pystr :=
  flat_map (fun b => [hex_digit (N.shiftr b 4); hex_digit (N.land b 15)])
           (be_bytes 4 w).

Definition initial_state : state :=
  let h := fun i => nth i H0 0%N in
  (h 0%nat, h 1%nat, h 2%nat, h 3%nat, h 4%nat, h 5%nat, h 6%nat, h 7%nat).

Definition hexdigest (msg : list N) : pystr :=
  let ws := words_of (pad msg) in
  let '(a, b, c, d, e, f, g, h) :=
    fold_left compress (blocks (length ws) ws) initial_state in
  flat_map hex_word [a; b; c; d; e; f; g; h].

End Sha256.

(** [s.encode()]: UTF-8; [None] for a surrogate or a value that is no code
    point. *)
Definition utf8_char (c : N) : option (list N) :=
  if (c <? 0x80)%N then Some [c]
  else if (c <? 0x800)%N
  then Some [0xC0 + N.shiftr c 6; 0x80 + N.land c 0x3F]%N
  else if (c <? 0x10000)%N
  then if ((0xD800 <=? c) && (c <=? 0xDFFF))%N then None
       else Some [0xE0 + N.shiftr c 12; 0x80 + N.land (N.shiftr c 6) 0x3F;
                  0x80 + N.land c 0x3F]%N
  else if (c <? 0x110000)%N
  then Some [0xF0 + N.shiftr c 18; 0x80 + N.land (N.shiftr c 12) 0x3F;
             0x80 + N.land (N.shiftr c 6) 0x3F; 0x80 + N.land c 0x3F]%N
  else None.

Definition utf8_encode (s : pystr) : option (list N) :=
  (fun bytes => List.concat bytes) <$> mapM utf8_char s.

Definition ascii_lower_char (c : N) : N :=
  if is_ascii_upper c then (c + 32)%N else c.

(** [repr] of a string: single quotes unless the string holds a single
    quote and no double quote; the backslash, the chosen quote and the
    control characters are escaped. *)
Definition repr_char (quote : N) (c : N) : pystr :=
  if (c =? 92)%N then [92; 92]%N
  else if (c =? quote)%N then [92%N; c]
  else if (c =? 10)%N then py "\n"
  else if (c =? 13)%N then py "\r"
  else if (c =? 9)%N then py "\t"
  else if ((c <? 32) || (c =? 127))%N
  then py "\x" ++ [Sha256.hex_digit (N.shiftr c 4); Sha256.hex_digit (N.land c 15)]
  else [c].

Definition ascii_repr (s : pystr) : pystr :=
  let quote :=
    if bool_decide (39%N ∈ s) && negb (bool_decide (34%N ∈ s)) then 34%N else 39%N in
  [quote] ++ flat_map (repr_char quote) s ++ [quote].

(** [m * 2^e * scale] rounded to the nearest integer, ties to even. *)
Definition round_scaled (m : positive) (e : Z) (scale : Z) : Z :=
  let num := Z.pos m * scale in
  if 0 <=? e then num * 2 ^ e
  else
    let d := 2 ^ (- e) in
    let q := num / d in
    let r := num mod d in
    if 2 * r <? d then q
    else if d <? 2 * r then q + 1
    else if Z.even q then q else q + 1.

Definition sign_str (s : bool) : pystr := if s then py "-" else [].

Definition exact_format_1f (x : float) : pystr :=
  match Prim2SF x with
  | S754_nan => py "nan"
  | S754_infinity s => sign_str s ++ py "inf"
  | S754_zero s => sign_str s ++ py "0.0"
  | S754_finite s m e =>
      let n := round_scaled m e 10 in
      sign_str s ++ str_of_Z (n / 10) ++ py "." ++ str_of_Z (n mod 10)
  end.

Definition exact_format_pct0 (x : float) : pystr :=
  match Prim2SF (PrimFloat.mul x 100%float) with
  | S754_nan => py "nan%"
  | S754_infinity s => sign_str s ++ py "inf%"
  | S754_zero s => sign_str s ++ py "0%"
  | S754_finite s m e => sign_str s ++ str_of_Z (round_scaled m e 1) ++ py "%"
  end.

Definition ascii_lib : Lib :=
  {| sha256_hexdigest := fun s => Sha256.hexdigest <$> utf8_encode s;
     repr_str := ascii_repr;
     str_lower := map ascii_lower_char;
     format_1f := exact_format_1f;
     format_pct0 := exact_format_pct0;
     unicode_word := fun _ => false;
     unicode_decimal := fun _ => false;
     big_truediv := fun _ _ => None;
     flesch_kincaid_grade := fun _ => None;
     flesch_reading_ease := fun _ => None;
     gunning_fog := fun _ => None;
     smog_index := fun _ => None;
     automated_readability_index := fun _ => None;
     coleman_liau_index := fun _ => None;
     dale_chall_readability_score := fun _ => None;
     syllable_count := fun _ => None |}.

(** Two runs of the service: different clock readings, and sets iterated
    in opposite orders. *)
Definition run1 : Runtime :=
  {| utcnow_isoformat := py "2024-05-01T10:00:00.000001";
     set_order_str := remove_dups;
     set_order_adaptation := remove_dups |}.

Definition run2 : Runtime :=
  {| utcnow_isoformat := py "2024-05-01T10:00:07.250000";
     set_order_str := fun l => reverse (remove_dups l);
     set_order_adaptation := fun l => reverse (remove_dups l) |}.

(** ** Pace mismatch, in the words of the specification *)

(** The number of response times above 15000 ms, and the fraction of the
    list they make up, as the detector computes it: a float division of the
    two counts. *)
Definition slow_count (ts : list Z) : Z :=
  Z.of_nat (length (List.filter (fun t => 15000 <? t) ts)).

Definition slow_fraction (ts : list Z) : float :=
  PrimFloat.div (float_of_Z (slow_count ts)) (float_of_Z (Z.of_nat (length ts))).

Definition sum_Z (ts : list Z) : Z := fold_left Z.add ts 0.

(** The float quotient [s / n] compares with 0.5 and 0.3 as the exact
    fraction does with 1/2 and 3/10. *)
Definition ratio_agrees (n s : Z) : bool :=
  let r := PrimFloat.div (float_of_Z s) (float_of_Z n) in
  Bool.eqb (fgt r 0.5%float) (n <? 2 * s)
  && Bool.eqb (fgt r 0.3%float) (3 * n <? 10 * s).

(** [ratio_agrees n] on [s], [s + 1], ... ([fuel] values). *)
Fixpoint ratios_agree_row (fuel : nat) (n s : Z) : bool :=
  match fuel with
  | O => true
  | S fuel' => ratio_agrees n s && ratios_agree_row fuel' n (s + 1)
  end.

(** The rows [0 .. n] for [n], [n + 1], ... ([fuel] values). *)
Fixpoint ratios_agree_rows (fuel : nat) (n : Z) : bool :=
  match fuel with
  | O => true
  | S fuel' =>
      ratios_agree_row (S (Z.to_nat n)) n 0 && ratios_agree_rows fuel' (n + 1)
  end.

(** The three interaction patterns of the pace-mismatch test. *)
Definition pace_test_patterns : list (gmap string pyval) :=
  [ {[ "response_time_ms" := PInt 20000 ]};
    {[ "response_time_ms" := PInt 18000 ]};
    {[ "response_time_ms" := PInt 5000 ]} ].

(** ** Primary recommendation, in the words of the specification *)

(** The priority set built from the signals: [many] stands for
    [clarification_count > 2], [repeated] for a true [is_repeated_error],
    [slow] for [response_time_ms > 15000]. *)
Definition priority_set (many repeated slow : bool) : list AdaptationType :=
  (if many then [SIMPLIFY_LANGUAGE] else [])
  ++ (if repeated then [ADD_EXAMPLES] else [])
  ++ (if slow then [ADJUST_PACE] else []).

(** The first adaptation, in the order of generation, whose type is in the
    set; the first adaptation if there is none; nothing for no adaptation. *)
Definition primary_of (priority : list AdaptationType)
    (adaptations : list AdaptedContent.t) : option AdaptedContent.t :=
  match List.find
          (fun a => bool_decide (AdaptedContent.adaptation_type a ∈ priority))
          adaptations with
  | Some a => Some a
  | None => head adaptations
  end.

(** ** Indicators that differ in all but their types *)

Definition indicator_of (b : BiasType) (s : SeverityLevel) (c : float)
    (d : string) (segment : option pystr) : BiasIndicator.t :=
  {| BiasIndicator.bias_type := b;
     BiasIndicator.severity := s;
     BiasIndicator.confidence := c;
     BiasIndicator.description := py d;
     BiasIndicator.affected_content_segment := segment |}.

Definition indicators_a : list BiasIndicator.t :=
  [ indicator_of LANGUAGE_COMPLEXITY HIGH 0.85%float "grade 14.2" (Some (py "Dense text"));
    indicator_of PACE_MISMATCH MEDIUM 0.60%float "some pace mismatch" None ].

Definition indicators_b : list BiasIndicator.t :=
  [ indicator_of PACE_MISMATCH HIGH 0.75%float "pace too fast" None;
    indicator_of LANGUAGE_COMPLEXITY LOW 0.60%float "jargon" None ].

(** ** Simplification, in the words of the specification *)

(** Some phrase of the substitution table occurs in [s], in any case. *)
Definition holds_table_phrase (s : pystr) : bool :=
  existsb (fun entry => occurs_ci (py entry.1) s) TextAnalyzer.replacements.

(** ** Texts for the reflection prompt *)

(** 901 characters with a single sentence end, at index 440: ten
    characters before the midpoint (450), inside the window 400..499. *)
Definition text_break_before_midpoint : pystr :=
  repeat 97%N 440 ++ py "." ++ repeat 97%N 460.

(** The same with the sentence end at index 460, ten characters after the
    midpoint. *)
Definition text_break_after_midpoint : pystr :=
  repeat 97%N 460 ++ py "." ++ repeat 97%N 440.

(** ** Requests and results for the determinism statements *)

(** A request whose content is short and holds no letter, so that textstat
    is not called, with the patterns of the pace-mismatch test. *)
Definition bias_request : BiasDetectionRequest.t :=
  {| BiasDetectionRequest.session_hash := py "test_123";
     BiasDetectionRequest.content_text := py "2 + 2 = 4";
     BiasDetectionRequest.interaction_patterns := pace_test_patterns;
     BiasDetectionRequest.previous_adaptations := [] |}.

Definition pace_request : AdaptationRequest.t :=
  {| AdaptationRequest.session_hash := py "test_123";
     AdaptationRequest.original_content := py "2 + 2 = 4";
     AdaptationRequest.requested_adaptations := [ADJUST_PACE; CHANGE_REPRESENTATION];
     AdaptationRequest.current_complexity_level := None;
     AdaptationRequest.interaction_signals := {[ "response_time_ms" := PInt 20000 ]} |}.

(** The patterns of the exposure-gap test, with the same content. *)
Definition exposure_request : BiasDetectionRequest.t :=
  {| BiasDetectionRequest.session_hash := py "test_123";
     BiasDetectionRequest.content_text := py "2 + 2 = 4";
     BiasDetectionRequest.interaction_patterns :=
       [ {[ "clarification_count" := PInt 2 ]};
         {[ "clarification_count" := PInt 3 ]};
         {[ "clarification_count" := PInt 1 ]} ];
     BiasDetectionRequest.previous_adaptations := [] |}.

(** [run1] a moment later: the same interpreter, another clock reading. *)
Definition run1_later : Runtime :=
  {| utcnow_isoformat := py "2024-05-01T10:00:07.250000";
     set_order_str := set_order_str run1;
     set_order_adaptation := set_order_adaptation run1 |}.

(** A result with its time stamp replaced. *)
Definition with_timestamp (ts : pystr) (r : BiasDetectionResult.t)
    : BiasDetectionResult.t :=
  {| BiasDetectionResult.session_hash := BiasDetectionResult.session_hash r;
     BiasDetectionResult.bias_detected := BiasDetectionResult.bias_detected r;
     BiasDetectionResult.indicators := BiasDetectionResult.indicators r;
     BiasDetectionResult.readability_score := BiasDetectionResult.readability_score r;
     BiasDetectionResult.complexity_level := BiasDetectionResult.complexity_level r;
     BiasDetectionResult.recommended_actions := BiasDetectionResult.recommended_actions r;
     BiasDetectionResult.analysis_timestamp := ts;
     BiasDetectionResult.deterministic_hash := BiasDetectionResult.deterministic_hash r |}.

(** Two lists of results of the loop over the words: both raised, or both
    returned and the lists have the same elements. *)
Definition same_words (r1 r2 : option (list pystr)) : Prop :=
  match r1, r2 with
  | Some l1, Some l2 => l1 ≡ₚ l2
  | None, None => True
  | _, _ => False
  end.

(** Two results of a sub-detector: both raised, or both returned and the
    indicators have the same bias types, one by one. *)
Definition same_types (r1 r2 : option (list BiasIndicator.t)) : Prop :=
  match r1, r2 with
  | Some l1, Some l2 =>
      map BiasIndicator.bias_type l1 = map BiasIndicator.bias_type l2
  | None, None => True
  | _, _ => False
  end.

(** ** Further inputs *)

(** A sentence that the table rewrites once and for all. *)
Definition plain_sentence : pystr := py "We utilize the methodology.".

(** Adaptations of the two types of [pace_request], in the order of the
    request. *)
Definition two_adaptations : list AdaptedContent.t :=
  [ AdaptiveEngine._change_representation (py "2 + 2 = 4") ∅;
    AdaptiveEngine._adjust_pace (py "2 + 2 = 4") ∅ ].

(** ** Ranks of the classifier's labels *)

(** The engagement levels in increasing order; any other string counts as
    the lowest. *)
Definition engagement_rank (level : pystr) : nat :=
  if bool_decide (level = py "high") then 2
  else if bool_decide (level = py "medium") then 1
  else 0.

(** ** Names of the readability scores *)

Definition metric_names : list string :=
  [ "flesch_kincaid_grade"; "flesch_reading_ease"; "gunning_fog"; "smog_index";
    "automated_readability_index"; "coleman_liau_index"; "dale_chall_readability" ].

(** The text is below the length at which textstat is consulted. *)
Definition is_short (text : pystr) : bool :=
  bool_decide (text = []) || (length (strip text) <? 10)%nat.

(** ** Indicators by type and by severity *)

(** The indicators of one bias type, in their order. *)
Definition of_type (b : BiasType) (indicators : list BiasIndicator.t)
    : list BiasIndicator.t :=
  List.filter (fun i => bool_decide (BiasIndicator.bias_type i = b)) indicators.

(** The severities in increasing order. *)
Definition severity_rank (s : SeverityLevel) : nat :=
  match s with
  | LOW => 0
  | MEDIUM => 1
  | HIGH => 2
  end.

(** The entry of a dictionary of counts for a key counted [n] times: no
    entry for a key that was never counted. *)
Definition count_entry (n : nat) : option Z :=
  match n with
  | O => None
  | _ => Some (Z.of_nat n)
  end.

(** The number of indicators whose severity, or whose type, has the
    value [key]. *)
Definition with_severity (key : pystr) (indicators : list BiasIndicator.t) : nat :=
  length (List.filter
            (fun i => bool_decide (SeverityLevelEnum.value (BiasIndicator.severity i) = key))
            indicators).

Definition with_type (key : pystr) (indicators : list BiasIndicator.t) : nat :=
  length (List.filter
            (fun i => bool_decide (BiasTypeEnum.value (BiasIndicator.bias_type i) = key))
            indicators).

(** The sum of the counts of a dictionary. *)
Definition sum_counts (counts : gmap pystr Z) : Z :=
  map_fold (fun _ n acc => n + acc) 0 counts.

(** ** A stand-in for textstat

    A library under which long texts can be run: every readability score
    of a text is its length divided by 40, and the syllables of a word are
    its maximal runs of vowels. *)
Definition is_vowel (c : N) : bool :=
  bool_decide (c ∈ [97; 101; 105; 111; 117; 121]%N).

Fixpoint vowel_runs (in_run : bool) (word : pystr) : Z :=
  match word with
  | [] => 0
  | c :: word' =>
      if is_vowel c
      then (if in_run then 0 else 1) + vowel_runs true word'
      else vowel_runs false word'
  end.

Definition length_score (text : pystr) : option float :=
  Some (PrimFloat.div (float_of_Z (Z.of_nat (length text))) 40%float).

Definition sample_lib : Lib :=
  {| sha256_hexdigest := sha256_hexdigest ascii_lib;
     repr_str := repr_str ascii_lib;
     str_lower := str_lower ascii_lib;
     format_1f := format_1f ascii_lib;
     format_pct0 := format_pct0 ascii_lib;
     unicode_word := unicode_word ascii_lib;
     unicode_decimal := unicode_decimal ascii_lib;
     big_truediv := big_truediv ascii_lib;
     flesch_kincaid_grade := length_score;
     flesch_reading_ease := length_score;
     gunning_fog := length_score;
     smog_index := length_score;
     automated_readability_index := length_score;
     coleman_liau_index := length_score;
     dale_chall_readability_score := length_score;
     syllable_count := fun word => Some (vowel_runs false word) |}.

(** A dense paragraph of 581 characters, without example, number or list,
    read slowly and with many requests for clarification. *)
Definition dense_text : pystr :=
  py "The aforementioned methodology is utilizing a paradigm wherein "
  ++ py "the implementation of the framework commenced. Therefore the "
  ++ py "instructor facilitated the comprehension of the fundamental "
  ++ py "principles, notwithstanding the considerable difficulties that "
  ++ py "the participants encountered during the preliminary evaluation. "
  ++ py "Subsequently the organization terminated the experimental "
  ++ py "programme, and the remaining materials were distributed among "
  ++ py "the interested departments of the university for additional "
  ++ py "investigation and eventual publication of the accumulated "
  ++ py "observations in the proceedings.".

Definition dense_request : BiasDetectionRequest.t :=
  {| BiasDetectionRequest.session_hash := py "test_123";
     BiasDetectionRequest.content_text := dense_text;
     BiasDetectionRequest.interaction_patterns :=
       [ {[ "response_time_ms" := PInt 20000; "clarification_count" := PInt 2 ]};
         {[ "response_time_ms" := PInt 18000; "clarification_count" := PInt 3;
            "is_repeated_error" := PBool true ]};
         {[ "clarification_count" := PInt 1 ]} ];
     BiasDetectionRequest.previous_adaptations := [] |}.

(** The same content with no interaction pattern. *)
Definition content_only_request : BiasDetectionRequest.t :=
  {| BiasDetectionRequest.session_hash := py "test_123";
     BiasDetectionRequest.content_text := dense_text;
     BiasDetectionRequest.interaction_patterns := [];
     BiasDetectionRequest.previous_adaptations := [] |}.

(** ** What a transform keeps of a text *)

(** The characters of a text that are not white space, in their order. *)
Definition non_space_chars (s : pystr) : pystr :=
  List.filter (fun c => negb (is_space c)) s.

(** ** A request for all four adaptations *)

Definition dense_adaptation_request : AdaptationRequest.t :=
  {| AdaptationRequest.session_hash := py "test_123";
     AdaptationRequest.original_content := dense_text;
     AdaptationRequest.requested_adaptations :=
       [CHANGE_REPRESENTATION; SIMPLIFY_LANGUAGE; ADJUST_PACE; ADD_EXAMPLES];
     AdaptationRequest.current_complexity_level := Some (py "complex");
     AdaptationRequest.interaction_signals :=
       {[ "clarification_count" := PInt 4; "response_time_ms" := PInt 20000 ]} |}.

(** [p] is what [s] starts with. *)
Definition starts_with (p s : pystr) : Prop := take (length p) s = p.

(** The number of variants that a call for [n] variants returns. *)
Definition variants_returned (n : Z) : nat :=
  Z.to_nat (Z.min 3 (if n <? 0 then 3 + n else n)).

(** The adaptations that the four transforms return. *)
Definition well_formed (a : AdaptedContent.t) : Prop :=
  (1 <= length (AdaptedContent.changes_made a) <= 3)%nat
  /\ (AdaptedContent.complexity_level a = py "simple"
      \/ AdaptedContent.complexity_level a = py "moderate").

(** ** The substitution table, entry by entry *)

(** No entry of the table replaces a phrase by a longer one. *)
Definition table_shortens : bool :=
  forallb (fun entry : string * string =>
             (length (py entry.2) <=? length (py entry.1))%nat)
          TextAnalyzer.replacements.

(** The character [e] is matched by no character of [p]. *)
Definition never_matches (e : N) (p : pystr) : bool :=
  forallb (fun a => negb (ci_char_match a e)) p.

(** No entry of the table matches or produces the character [e]. *)
Definition table_keeps (e : N) : bool :=
  forallb (fun entry : string * string =>
             negb (bool_decide (py entry.1 = []))
             && never_matches e (py entry.1)
             && (count_char e (py entry.2) =? 0)%nat)
          TextAnalyzer.replacements.

(** ** Insertions *)

(** [t] is [s] with [note] inserted at one place. *)
Definition inserted (note s t : pystr) : Prop :=
  exists a b, s = a ++ b /\ t = a ++ note ++ b.

Definition inserted_at_most_twice (note s t : pystr) : Prop :=
  t = s
  \/ inserted note s t
  \/ exists m, inserted note s m /\ inserted note m t.

(** ** A dictionary filled in two orders *)

Definition audit_data : list (string * audit_value) :=
  [ ("session", AStr (py "test_123"));
    ("interaction_count", AInt 3);
    ("patterns", AList [py "deliberate"; py "quick"]) ].

Definition audit_data_reordered : list (string * audit_value) :=
  [ ("patterns", AList [py "deliberate"; py "quick"]);
    ("session", AStr (py "test_123"));
    ("interaction_count", AInt 3) ].

(** ** Ranks of the complexity levels *)

Definition level_rank (level : pystr) : nat :=
  if bool_decide (level = py "complex") then 2
  else if bool_decide (level = py "moderate") then 1
  else 0.

(** ** What a call may raise *)

(** The call returns, or raises one of the exceptions [allowed]. *)
Definition raises_only {A} (allowed : list exn) (r : result A) : Prop :=
  match r with
  | Ok _ => True
  | Raise e => e ∈ allowed
  end.

(** ** A sequence of interactions *)

(** A library that counts the words separated by white space, finds one
    sentence in every text, converts no large integer, and leaves a float
    that it is to round as it is. *)
Definition sample_numlib : NumLib :=
  {| big_float := fun _ => None;
     round_digits := fun x _ => x;
     lexicon_count := fun text => Some (Z.of_nat (length (split_ws text)));
     sentence_count := fun _ => Some 1 |}.

Definition interaction_of (response_time_ms clarification_count : Z)
    (is_repeated_error : bool) : InteractionData.t :=
  {| InteractionData.session_hash := py "test_123";
     InteractionData.content_id := py "topic_1";
     InteractionData.response_time_ms := response_time_ms;
     InteractionData.action_type := py "read";
     InteractionData.content_text := None;
     InteractionData.is_repeated_error := is_repeated_error;
     InteractionData.clarification_count := clarification_count;
     InteractionData.time_on_content_seconds := 30 |}.

(** Three interactions with falling response times. *)
Definition falling_sequence : list InteractionData.t :=
  [ interaction_of 9000 1 false;
    interaction_of 6000 0 false;
    interaction_of 3000 0 false ].

(** The pairs of pattern summary and adaptation urgency. *)
Definition summary_pairs : list (pystr * pystr) :=
  [ (py "struggling", py "high");
    (py "persistent_difficulty", py "high");
    (py "needs_clarification", py "medium");
    (py "progressing", py "low");
    (py "stable", py "low") ].

(** * Theorems *)

(** ** The single-record classifier *)

Section ClassifierFacts.
Import InteractionAnalyzer.
Variable self : InteractionAnalyzer.t.
Variable i : InteractionData.t.

Lemma response_pattern_analyze :
  InteractionAnalysisResult.response_pattern (analyze_single_interaction self i)
  = _classify_response_pattern self
      (InteractionData.response_time_ms i) (InteractionData.action_type i).
Proof.
  unfold analyze_single_interaction.
  destruct (_determine_adaptations _ _ _); reflexivity.
Qed.

Lemma suggested_analyze :
  InteractionAnalysisResult.suggested_adaptations (analyze_single_interaction self i)
  = snd (_determine_adaptations self i (_build_comprehension_indicators self i)).
Proof.
  unfold analyze_single_interaction.
  destruct (_determine_adaptations _ _ _); reflexivity.
Qed.

Lemma requires_analyze :
  InteractionAnalysisResult.requires_adaptation (analyze_single_interaction self i)
  = fst (_determine_adaptations self i (_build_comprehension_indicators self i)).
Proof.
  unfold analyze_single_interaction.
  destruct (_determine_adaptations _ _ _); reflexivity.
Qed.

Lemma indicators_analyze :
  InteractionAnalysisResult.comprehension_indicators (analyze_single_interaction self i)
  = _build_comprehension_indicators self i.
Proof.
  unfold analyze_single_interaction.
  destruct (_determine_adaptations _ _ _); reflexivity.
Qed.

(** The response-speed entry of the indicators is "taking_time" exactly
    when the response time is above the slow threshold. *)
Lemma response_speed_taking_time :
  _build_comprehension_indicators self i !! "response_speed"
    = Some (PStr (py "taking_time"))
  <-> slow_response_threshold self < InteractionData.response_time_ms i.
Proof.
  unfold _build_comprehension_indicators.
  destruct (Z.ltb_spec (slow_response_threshold self) (InteractionData.response_time_ms i));
    destruct (Z.ltb_spec (InteractionData.response_time_ms i) (fast_response_threshold self));
    destruct (_ || _); destruct (InteractionData.is_repeated_error i);
    simplify_map_eq; split; intros; try lia; try done.
Qed.
End ClassifierFacts.

(** C4, as the claim states it, fails at the two boundaries: a "read"
    interaction answered in exactly 10000 ms (the slow threshold) is
    classified "normal", not "deliberate", and one answered in exactly
    1000 ms (the fast threshold) is classified "normal", not "quick". *)
Lemma C4_inclusive_boundaries_fail :
  InteractionAnalysisResult.response_pattern
    (InteractionAnalyzer.analyze_single_interaction InteractionAnalyzer.init
       (interaction_with 10000 "read" false)) = py "normal"
  /\ py "normal" <> py "deliberate"
  /\ InteractionAnalysisResult.response_pattern
       (InteractionAnalyzer.analyze_single_interaction InteractionAnalyzer.init
          (interaction_with 1000 "read" false)) = py "normal"
  /\ py "normal" <> py "quick".
Proof. repeat split; (reflexivity || discriminate). Qed.

(** C4 (amended): the single-record classifier returns "seeking_help" when
    the action type is "clarification"; otherwise "deliberate" when the
    response time is strictly greater than the slow threshold; otherwise
    "quick" when it is strictly less than the fast threshold; otherwise
    "normal". The action type is tested before the timing, and a response
    time equal to either threshold is "normal" (10000 ms and 1000 ms with
    the default thresholds). *)
Theorem C4_classify_response_pattern
    (self : InteractionAnalyzer.t) (i : InteractionData.t) :
  let r := InteractionAnalyzer.analyze_single_interaction self i in
  let rt := InteractionData.response_time_ms i in
  let act := InteractionData.action_type i in
  let slow := InteractionAnalyzer.slow_response_threshold self in
  let fast := InteractionAnalyzer.fast_response_threshold self in
  (act = py "clarification" ->
     InteractionAnalysisResult.response_pattern r = py "seeking_help")
  /\ (act <> py "clarification" -> slow < rt ->
     InteractionAnalysisResult.response_pattern r = py "deliberate")
  /\ (act <> py "clarification" -> rt <= slow -> rt < fast ->
     InteractionAnalysisResult.response_pattern r = py "quick")
  /\ (act <> py "clarification" -> fast <= rt <= slow ->
     InteractionAnalysisResult.response_pattern r = py "normal")
  /\ InteractionAnalyzer.slow_response_threshold InteractionAnalyzer.init = 10000
  /\ InteractionAnalyzer.fast_response_threshold InteractionAnalyzer.init = 1000.
Proof.
  intros r rt act slow fast. subst r.
  rewrite response_pattern_analyze.
  unfold InteractionAnalyzer._classify_response_pattern.
  fold rt act slow fast.
  repeat split.
  - intros ->. rewrite bool_decide_eq_true_2; done.
  - intros Hne Hlt. rewrite bool_decide_eq_false_2 by done.
    destruct (Z.ltb_spec slow rt); [done | lia].
  - intros Hne Hle Hlt. rewrite bool_decide_eq_false_2 by done.
    destruct (Z.ltb_spec slow rt); [lia |].
    destruct (Z.ltb_spec rt fast); [done | lia].
  - intros Hne [Hge Hle]. rewrite bool_decide_eq_false_2 by done.
    destruct (Z.ltb_spec slow rt); [lia |].
    destruct (Z.ltb_spec rt fast); [lia | done].
Qed.

(** C5: the single-record classifier returns [requires_adaptation = true]
    with a non-empty [suggested_adaptations] exactly when the response-speed
    indicator is "taking_time", or [is_repeated_error] holds, or
    [clarification_count] reaches the high-clarification threshold (3 by
    default). The suggestions are, in this order, simplify-language for
    "taking_time", add-examples and change-representation for a repeated
    error, simplify-language for the clarification count. A record with
    [response_time_ms = 25000] and [is_repeated_error = true] requires
    adaptation. *)
Theorem C5_requires_adaptation
    (self : InteractionAnalyzer.t) (i : InteractionData.t) :
  let r := InteractionAnalyzer.analyze_single_interaction self i in
  let taking_time :=
    InteractionAnalysisResult.comprehension_indicators r !! "response_speed"
    = Some (PStr (py "taking_time")) in
  let repeated := InteractionData.is_repeated_error i = true in
  let many :=
    InteractionAnalyzer.high_clarification_threshold self
    <= InteractionData.clarification_count i in
  ((InteractionAnalysisResult.requires_adaptation r = true
    /\ InteractionAnalysisResult.suggested_adaptations r <> [])
   <-> (taking_time \/ repeated \/ many))
  /\ InteractionAnalysisResult.suggested_adaptations r
     = (if bool_decide taking_time then [SIMPLIFY_LANGUAGE] else [])
       ++ (if bool_decide repeated then [ADD_EXAMPLES; CHANGE_REPRESENTATION] else [])
       ++ (if bool_decide many then [SIMPLIFY_LANGUAGE] else [])
  /\ InteractionAnalyzer.high_clarification_threshold InteractionAnalyzer.init = 3
  /\ (InteractionData.response_time_ms i = 25000 -> repeated ->
      InteractionAnalysisResult.requires_adaptation r = true).
Proof.
  intros r taking_time repeated many. subst r taking_time repeated many.
  rewrite requires_analyze, suggested_analyze, indicators_analyze.
  unfold InteractionAnalyzer._determine_adaptations.
  set (ind := InteractionAnalyzer._build_comprehension_indicators self i).
  destruct (InteractionData.is_repeated_error i);
    destruct (Z.leb_spec (InteractionAnalyzer.high_clarification_threshold self)
                (InteractionData.clarification_count i));
    destruct (decide (ind !! "response_speed" = Some (PStr (py "taking_time")))) as [Ht|Ht];
    repeat first [ rewrite (bool_decide_eq_true_2 _ Ht)
                 | rewrite (bool_decide_eq_false_2 _ Ht) ];
    cbn [app fst snd length];
    repeat match goal with
           | |- context [bool_decide ?P] =>
               first [ rewrite (bool_decide_eq_true_2 P) by (done || lia)
                     | rewrite (bool_decide_eq_false_2 P) by (done || lia) ]
           end;
    cbn [app];
    (split; [| split; [reflexivity | split; [reflexivity | try done]]]);
    (split; [ intros [? ?]; auto; try done | intros [?|[?|?]]; try done; try lia; split; done ]).
Qed.

(** ** Readability of short texts *)

Lemma strip_nil : strip [] = [].
Proof. reflexivity. Qed.

(** C9: for every text whose stripped length is below 10, the empty string
    included, [get_readability_metrics] returns the baseline dictionary,
    whatever textstat would do (it is not called): grade 0.0, reading ease
    100.0 and 0.0 for the fog, SMOG, automated-readability, Coleman-Liau
    and Dale-Chall scores, and no other entry. *)
Theorem C9_short_text_baseline (lib : Lib) (text : pystr) :
  (length (strip text) < 10)%nat ->
  TextAnalyzer.get_readability_metrics lib text
    = Some TextAnalyzer.baseline_metrics
  /\ TextAnalyzer.get_readability_metrics lib [] = Some TextAnalyzer.baseline_metrics
  /\ TextAnalyzer.baseline_metrics !! "flesch_kincaid_grade" = Some 0.0%float
  /\ TextAnalyzer.baseline_metrics !! "flesch_reading_ease" = Some 100.0%float
  /\ TextAnalyzer.baseline_metrics !! "gunning_fog" = Some 0.0%float
  /\ TextAnalyzer.baseline_metrics !! "smog_index" = Some 0.0%float
  /\ TextAnalyzer.baseline_metrics !! "automated_readability_index" = Some 0.0%float
  /\ TextAnalyzer.baseline_metrics !! "coleman_liau_index" = Some 0.0%float
  /\ TextAnalyzer.baseline_metrics !! "dale_chall_readability" = Some 0.0%float
  /\ size TextAnalyzer.baseline_metrics = 7%nat.
Proof.
  intros Hshort. split; [| split].
  - unfold TextAnalyzer.get_readability_metrics.
    destruct (Nat.ltb_spec (length (strip text)) 10) as [_ | Hge]; [| lia].
    rewrite orb_true_r. reflexivity.
  - reflexivity.
  - repeat split; vm_compute; reflexivity.
Qed.

(** ** Pace mismatch *)

Lemma py_sum_ints (ts : list Z) (acc : Z) :
  py_sum acc (map PInt ts) = Some (fold_left Z.add ts acc).
Proof.
  revert acc. induction ts as [| t ts IH]; intros acc; [reflexivity |].
  cbn. apply IH.
Qed.

Lemma count_above_ints (ts : list Z) :
  BiasDetector.count_above 15000 (map PInt ts) = Some (slow_count ts).
Proof.
  unfold slow_count.
  induction ts as [| t ts IH]; [reflexivity |].
  cbn [map BiasDetector.count_above py_gt as_int mbind option_bind List.filter].
  rewrite IH. cbn [mbind option_bind].
  destruct (15000 <? t); cbn [length]; f_equal; lia.
Qed.

Lemma slow_count_bounds (ts : list Z) :
  0 <= slow_count ts <= Z.of_nat (length ts).
Proof.
  unfold slow_count. split; [lia |].
  apply inj_le. induction ts as [| t ts IH]; cbn; [lia |].
  destruct (15000 <? t); cbn; lia.
Qed.

Lemma exact_float_small (z : Z) : 0 <= z <= 2 ^ 53 -> exact_float z = true.
Proof.
  intros Hz. unfold exact_float. apply Z.leb_le. lia.
Qed.

(** Integers of at most 53 bits are divided exactly: no exception, and the
    quotient is the float division of the two. *)
Lemma int_truediv_small (lib : Lib) (a b : Z) :
  b <> 0 -> Z.abs a <= 2 ^ 53 -> Z.abs b <= 2 ^ 53 ->
  int_truediv lib a b = Some (PrimFloat.div (float_of_Z a) (float_of_Z b)).
Proof.
  intros Hb Ha Hb'. unfold int_truediv, exact_float.
  destruct (Z.eqb_spec b 0) as [-> | _]; [done |].
  destruct (Z.leb_spec (Z.abs a) (2 ^ 53)); [| lia].
  destruct (Z.leb_spec (Z.abs b) (2 ^ 53)); [| lia].
  reflexivity.
Qed.

Lemma ratios_agree_row_spec (fuel : nat) (n s0 s : Z) :
  ratios_agree_row fuel n s0 = true ->
  s0 <= s < s0 + Z.of_nat fuel -> ratio_agrees n s = true.
Proof.
  revert s0. induction fuel as [| fuel IH]; intros s0 H Hs; [lia |].
  cbn [ratios_agree_row] in H. apply andb_prop in H. destruct H as [H1 H2].
  destruct (Z.eq_dec s s0) as [-> | Hne]; [exact H1 |].
  apply (IH (s0 + 1)); [exact H2 | lia].
Qed.

Lemma ratios_agree_rows_spec (fuel : nat) (n0 n s : Z) :
  ratios_agree_rows fuel n0 = true ->
  0 <= n0 -> n0 <= n < n0 + Z.of_nat fuel -> 0 <= s <= n ->
  ratio_agrees n s = true.
Proof.
  revert n0. induction fuel as [| fuel IH]; intros n0 H Hn0 Hn Hs; [lia |].
  cbn [ratios_agree_rows] in H. apply andb_prop in H. destruct H as [H1 H2].
  destruct (Z.eq_dec n n0) as [-> | Hne].
  - apply (ratios_agree_row_spec _ _ _ _ H1). lia.
  - apply (IH (n0 + 1)); [exact H2 | lia | lia | lia].
Qed.

Lemma ratios_agree_1000 : ratios_agree_rows 1000 1 = true.
Proof. vm_compute. reflexivity. Qed.

(** The comparisons made on the float fraction are those of the exact
    fraction, for lists of up to 1000 response times. *)
Lemma slow_fraction_exact (ts : list Z) :
  ts <> [] -> (length ts <= 1000)%nat ->
  fgt (slow_fraction ts) 0.5%float
    = (Z.of_nat (length ts) <? 2 * slow_count ts)
  /\ fgt (slow_fraction ts) 0.3%float
    = (3 * Z.of_nat (length ts) <? 10 * slow_count ts).
Proof.
  intros Hne Hlen.
  assert (Hpos : (0 < length ts)%nat) by (destruct ts; [done | cbn; lia]).
  pose proof (slow_count_bounds ts) as Hb.
  pose proof (ratios_agree_rows_spec 1000 1 (Z.of_nat (length ts)) (slow_count ts)
                ratios_agree_1000) as H.
  specialize (H ltac:(lia) ltac:(lia) ltac:(lia)).
  unfold ratio_agrees in H.
  apply andb_prop in H. destruct H as [H1 H2].
  apply eqb_prop in H1, H2. auto.
Qed.

Lemma response_times_nonempty (patterns : list (gmap string pyval)) :
  BiasDetector.response_times patterns <> [] -> patterns <> [].
Proof. intros H ->. apply H. reflexivity. Qed.

(** C6: for a list of interaction patterns whose ["response_time_ms"]
    entries are integers and not all absent, the pace sub-detector takes
    the fraction of the entries above 15000 ms and returns exactly one
    pace_mismatch indicator of severity HIGH and confidence 0.75 when the
    fraction is greater than 0.5, exactly one of severity MEDIUM and
    confidence 0.60 when it is greater than 0.3 and not greater than 0.5,
    and no indicator otherwise. The fraction is the float quotient of the
    two counts; for up to 1000 entries its comparisons with 0.5 and 0.3 are
    those of the exact fraction with 1/2 and 3/10. The response times
    [20000; 18000; 5000] give the HIGH indicator. (The mean of the times,
    which the detector computes first, is assumed not to overflow.) *)
Theorem C6_pace_mismatch
    (lib : Lib) (patterns : list (gmap string pyval)) (ts : list Z) :
  BiasDetector.response_times patterns = map PInt ts ->
  ts <> [] ->
  Z.of_nat (length ts) <= 2 ^ 53 ->
  is_Some (int_truediv lib (sum_Z ts) (Z.of_nat (length ts))) ->
  let fraction := slow_fraction ts in
  BiasDetector._detect_pace_mismatch lib patterns
  = Some (if fgt fraction 0.5%float then [BiasDetector.pace_high lib fraction]
          else if fgt fraction 0.3%float then [BiasDetector.pace_medium]
          else [])
  /\ (BiasIndicator.bias_type (BiasDetector.pace_high lib fraction) = PACE_MISMATCH
      /\ BiasIndicator.severity (BiasDetector.pace_high lib fraction) = HIGH
      /\ BiasIndicator.confidence (BiasDetector.pace_high lib fraction) = 0.75%float)
  /\ (BiasIndicator.bias_type BiasDetector.pace_medium = PACE_MISMATCH
      /\ BiasIndicator.severity BiasDetector.pace_medium = MEDIUM
      /\ BiasIndicator.confidence BiasDetector.pace_medium = 0.60%float)
  /\ ((length ts <= 1000)%nat ->
      fgt fraction 0.5%float = (Z.of_nat (length ts) <? 2 * slow_count ts)
      /\ fgt fraction 0.3%float = (3 * Z.of_nat (length ts) <? 10 * slow_count ts))
  /\ BiasDetector._detect_pace_mismatch lib pace_test_patterns
     = Some [BiasDetector.pace_high lib (slow_fraction [20000; 18000; 5000])].
Proof.
  intros Htimes Hne Hlen [avg Havg] fraction.
  split; [| split; [| split; [| split]]].
  - unfold BiasDetector._detect_pace_mismatch.
    assert (Hp : patterns <> []).
    { apply response_times_nonempty. rewrite Htimes. destruct ts; done. }
    destruct patterns as [| p patterns']; [done |].
    rewrite Htimes.
    destruct ts as [| t ts']; [done |].
    change (map PInt (t :: ts')) with (PInt t :: map PInt ts') at 1.
    cbv beta iota.
    change (PInt t :: map PInt ts') with (map PInt (t :: ts')).
    rewrite py_sum_ints, length_map.
    change (fold_left Z.add (t :: ts') 0) with (sum_Z (t :: ts')).
    cbn [mbind option_bind].
    rewrite Havg. cbn [mbind option_bind].
    rewrite count_above_ints. cbn [mbind option_bind].
    pose proof (slow_count_bounds (t :: ts')) as Hb.
    unfold int_truediv at 1.
    destruct (Z.eqb_spec (Z.of_nat (length (t :: ts'))) 0) as [H0 | _];
      [cbn in H0; lia |].
    rewrite !exact_float_small by lia.
    cbn [andb mbind option_bind app]. reflexivity.
  - repeat split.
  - repeat split.
  - intros Hshort. apply slow_fraction_exact; assumption.
  - vm_compute. reflexivity.
Qed.

(** ** Primary recommendation *)

Lemma first_with_priority_find
    (signal_priority : list (AdaptationType * Z))
    (adaptations : list AdaptedContent.t) :
  AdaptiveEngine.first_with_priority signal_priority adaptations
  = List.find
      (fun a => bool_decide (AdaptedContent.adaptation_type a ∈ signal_priority.*1))
      adaptations.
Proof.
  induction adaptations as [| a rest IH]; [reflexivity |].
  cbn. destruct (bool_decide _); [reflexivity | exact IH].
Qed.

Lemma signal_priority_keys (many repeated slow : bool) :
  (((if many then [] ++ [(SIMPLIFY_LANGUAGE, 1)] else [])
    ++ (if repeated then [(ADD_EXAMPLES, 1)] else []))
   ++ (if slow then [(ADJUST_PACE, 1)] else [])).*1
  = priority_set many repeated slow.
Proof. destruct many, repeated, slow; reflexivity. Qed.

Lemma select_primary_spec
    (adaptations : list AdaptedContent.t) (signals : gmap string pyval)
    (cc rt : Z) :
  as_int (dict_get signals "clarification_count" (PInt 0)) = Some cc ->
  as_int (dict_get signals "response_time_ms" (PInt 0)) = Some rt ->
  AdaptiveEngine._select_primary_adaptation adaptations signals
  = Some (primary_of
            (priority_set (2 <? cc)
               (truthy (dict_get signals "is_repeated_error" PNone))
               (15000 <? rt))
            adaptations).
Proof.
  intros Hcc Hrt.
  unfold AdaptiveEngine._select_primary_adaptation, primary_of.
  destruct adaptations as [| first rest]; [reflexivity |].
  unfold py_gt. rewrite Hcc, Hrt. cbn [mbind option_bind].
  rewrite first_with_priority_find.
  rewrite <- (signal_priority_keys (2 <? cc)
                (truthy (dict_get signals "is_repeated_error" PNone))
                (15000 <? rt)).
  destruct (2 <? cc), (truthy _), (15000 <? rt); cbn [app];
    match goal with
    | |- context [List.find ?f ?l] => destruct (List.find f l)
    end; reflexivity.
Qed.

(** ** One adaptation per requested type *)

Section AdaptationTypes.
Variable lib : Lib.
Variable rt : Runtime.

Lemma adjust_pace_type (content : pystr) (signals : gmap string pyval) :
  AdaptedContent.adaptation_type (AdaptiveEngine._adjust_pace content signals)
  = ADJUST_PACE.
Proof.
  unfold AdaptiveEngine._adjust_pace.
  repeat match goal with
         | |- context [if ?b then _ else _] => destruct b
         end; reflexivity.
Qed.

Lemma change_representation_type (content : pystr) (signals : gmap string pyval) :
  AdaptedContent.adaptation_type
    (AdaptiveEngine._change_representation content signals)
  = CHANGE_REPRESENTATION.
Proof.
  unfold AdaptiveEngine._change_representation.
  repeat match goal with
         | |- context [if ?b then _ else _] => destruct b
         end; reflexivity.
Qed.

Lemma simplify_language_type (content : pystr) (signals : gmap string pyval)
    (a : AdaptedContent.t) :
  AdaptiveEngine._simplify_language lib content signals = Some a ->
  AdaptedContent.adaptation_type a = SIMPLIFY_LANGUAGE.
Proof.
  unfold AdaptiveEngine._simplify_language. intros H.
  repeat match type of H with
         | (?m ≫= _) = Some _ =>
             destruct m; cbn [mbind option_bind] in H; [| discriminate]
         end.
  injection H as <-. reflexivity.
Qed.

Lemma add_examples_type (content : pystr) (signals : gmap string pyval)
    (a : AdaptedContent.t) :
  AdaptiveEngine._add_examples lib rt content signals = Some a ->
  AdaptedContent.adaptation_type a = ADD_EXAMPLES.
Proof.
  unfold AdaptiveEngine._add_examples. intros H.
  repeat match type of H with
         | context [let '(_, _) := ?p in _] => destruct p
         | (?m ≫= _) = Some _ =>
             destruct m; cbn [mbind option_bind] in H; [| discriminate]
         end.
  injection H as <-. reflexivity.
Qed.

Lemma apply_adaptation_type (content : pystr) (t : AdaptationType)
    (signals : gmap string pyval) (a : AdaptedContent.t) :
  AdaptiveEngine._apply_adaptation lib rt content t signals = Some a ->
  AdaptedContent.adaptation_type a = t.
Proof.
  destruct t; cbn [AdaptiveEngine._apply_adaptation]; intros H.
  - eapply simplify_language_type; eassumption.
  - eapply add_examples_type; eassumption.
  - injection H as <-. apply change_representation_type.
  - injection H as <-. apply adjust_pace_type.
Qed.

Lemma mapM_apply_adaptation_types (content : pystr) (signals : gmap string pyval)
    (requested : list AdaptationType) (adaptations : list AdaptedContent.t) :
  mapM (fun t => AdaptiveEngine._apply_adaptation lib rt content t signals) requested
    = Some adaptations ->
  map AdaptedContent.adaptation_type adaptations = requested.
Proof.
  revert adaptations. induction requested as [| t requested IH]; intros adaptations H.
  - cbn in H. injection H as <-. reflexivity.
  - cbn [mapM] in H.
    destruct (AdaptiveEngine._apply_adaptation lib rt content t signals) as [a |] eqn:Ha;
      cbn [mbind option_bind] in H; [| discriminate].
    destruct (mapM _ requested) as [rest |] eqn:Hrest;
      cbn [mbind option_bind mret option_ret] in H; [| discriminate].
    injection H as <-. cbn [map].
    f_equal; [eapply apply_adaptation_type; eassumption | apply IH; reflexivity].
Qed.

(** What [generate_adaptation] returns, when it returns. *)
Lemma generate_adaptation_fields (request : AdaptationRequest.t)
    (result : AdaptationResult.t) :
  AdaptiveEngine.generate_adaptation lib rt request = Some result ->
  map AdaptedContent.adaptation_type (AdaptationResult.adaptations result)
    = AdaptationRequest.requested_adaptations request
  /\ AdaptiveEngine._select_primary_adaptation
       (AdaptationResult.adaptations result)
       (AdaptationRequest.interaction_signals request)
     = Some (AdaptationResult.primary_recommendation result)
  /\ AdaptiveEngine._generate_audit_hash lib
       (AdaptationRequest.session_hash request)
       (AdaptationRequest.original_content request)
       (AdaptationResult.adaptations result)
     = Some (AdaptationResult.deterministic_hash result).
Proof.
  unfold AdaptiveEngine.generate_adaptation. intros H.
  destruct (mapM _ _) as [adaptations |] eqn:Hmap;
    cbn [mbind option_bind] in H; [| discriminate].
  destruct (AdaptiveEngine._select_primary_adaptation _ _) as [primary |] eqn:Hsel;
    cbn [mbind option_bind] in H; [| discriminate].
  destruct (AdaptiveEngine._generate_audit_hash _ _ _ _) as [h |] eqn:Hh;
    cbn [mbind option_bind] in H; [| discriminate].
  injection H as <-. cbn.
  split; [eapply mapM_apply_adaptation_types; eassumption |].
  split; assumption.
Qed.
End AdaptationTypes.

(** C7: the primary recommendation. The priority set holds
    simplify-language when [clarification_count] is greater than 2,
    add-examples when [is_repeated_error] is true, adjust-pace when
    [response_time_ms] is greater than 15000 (absent signals count as 0 and
    false). The selection returns the first adaptation, in the order of
    generation, whose type is in the set; the first adaptation when none
    is; nothing when no adaptation was generated. The adaptations of a
    result are generated in the order of the request, one per requested
    type, and its primary recommendation is selected from them in this
    way. The two numeric signals are integers (their comparison raises
    otherwise). *)
Theorem C7_primary_recommendation
    (lib : Lib) (rt : Runtime) (request : AdaptationRequest.t)
    (adaptations : list AdaptedContent.t) (cc ms : Z) :
  let signals := AdaptationRequest.interaction_signals request in
  let priority :=
    priority_set (2 <? cc)
      (truthy (dict_get signals "is_repeated_error" PNone))
      (15000 <? ms) in
  as_int (dict_get signals "clarification_count" (PInt 0)) = Some cc ->
  as_int (dict_get signals "response_time_ms" (PInt 0)) = Some ms ->
  AdaptiveEngine._select_primary_adaptation adaptations signals
    = Some (primary_of priority adaptations)
  /\ primary_of priority [] = None
  /\ (forall result,
        AdaptiveEngine.generate_adaptation lib rt request = Some result ->
        map AdaptedContent.adaptation_type (AdaptationResult.adaptations result)
          = AdaptationRequest.requested_adaptations request
        /\ AdaptationResult.primary_recommendation result
           = primary_of priority (AdaptationResult.adaptations result)).
Proof.
  intros signals priority Hcc Hms.
  split; [apply select_primary_spec; assumption |].
  split; [reflexivity |].
  intros result Hres.
  apply generate_adaptation_fields in Hres.
  destruct Hres as (Htypes & Hsel & _).
  split; [exact Htypes |].
  fold signals in Hsel.
  rewrite (select_primary_spec _ _ cc ms Hcc Hms) in Hsel.
  injection Hsel as Hsel. symmetry. exact Hsel.
Qed.

(** ** The order of strings and [sorted] *)

Lemma pystr_leb_refl (a : pystr) : pystr_leb a a = true.
Proof.
  induction a as [| x a IH]; [reflexivity |].
  cbn. rewrite N.ltb_irrefl. exact IH.
Qed.

Lemma pystr_leb_total (a b : pystr) :
  pystr_leb a b = true \/ pystr_leb b a = true.
Proof.
  revert b. induction a as [| x a IH]; intros [| y b]; cbn; auto.
  destruct (N.ltb_spec x y), (N.ltb_spec y x); auto; try lia.
Qed.

Lemma pystr_leb_antisym (a b : pystr) :
  pystr_leb a b = true -> pystr_leb b a = true -> a = b.
Proof.
  revert b. induction a as [| x a IH]; intros [| y b]; cbn; try done.
  destruct (N.ltb_spec x y), (N.ltb_spec y x); try done; try lia.
  intros H1 H2. assert (x = y) by lia. subst. f_equal. auto.
Qed.

Lemma pystr_leb_trans (a b c : pystr) :
  pystr_leb a b = true -> pystr_leb b c = true -> pystr_leb a c = true.
Proof.
  revert b c. induction a as [| x a IH]; intros [| y b] [| z c]; cbn; try done.
  destruct (N.ltb_spec x y), (N.ltb_spec y x), (N.ltb_spec y z), (N.ltb_spec z y),
    (N.ltb_spec x z), (N.ltb_spec z x); try done; try lia.
  apply IH.
Qed.

Lemma pystr_le_total : Total pystr_le.
Proof.
  intros a b. unfold pystr_le.
  destruct (pystr_leb_total a b) as [H | H]; rewrite H; cbn; auto.
Qed.

Lemma pystr_le_trans : Transitive pystr_le.
Proof.
  intros a b c H1 H2. unfold pystr_le in *.
  apply Is_true_true in H1, H2. apply Is_true_true.
  eapply pystr_leb_trans; eassumption.
Qed.

Lemma pystr_le_antisym : AntiSymm (=) pystr_le.
Proof.
  intros a b H1 H2. unfold pystr_le in *.
  apply Is_true_true in H1, H2. apply pystr_leb_antisym; assumption.
Qed.

(** [sorted] returns the same list for two lists with the same elements,
    whatever their order. *)
Lemma sorted_str_Permutation (xs ys : list pystr) :
  xs ≡ₚ ys -> sorted_str xs = sorted_str ys.
Proof.
  intros Hperm. unfold sorted_str.
  apply (@Sorted_unique _ pystr_le pystr_le_trans pystr_le_antisym).
  - apply (@Sorted_merge_sort _ pystr_le _ pystr_le_total).
  - apply (@Sorted_merge_sort _ pystr_le _ pystr_le_total).
  - rewrite !merge_sort_Permutation. exact Hperm.
Qed.

(** ** The audit hash of the bias detector *)

(** C10: the audit hash of the bias detector depends on the session hash,
    the content and the bias types of the indicators up to their order
    (hence on their count and their sorted list of type names), and on
    nothing else: two indicator lists whose lists of bias types are
    permutations of each other give the same hash for the same session hash
    and content, whatever their severities, confidences, descriptions and
    content segments. *)
Theorem C10_audit_hash_types_only
    (lib : Lib) (session_hash content : pystr)
    (indicators1 indicators2 : list BiasIndicator.t) :
  map BiasIndicator.bias_type indicators1 ≡ₚ map BiasIndicator.bias_type indicators2 ->
  BiasDetector._generate_audit_hash lib session_hash content indicators1
  = BiasDetector._generate_audit_hash lib session_hash content indicators2.
Proof.
  intros Hperm.
  unfold BiasDetector._generate_audit_hash.
  assert (Hlen : length indicators1 = length indicators2).
  { apply Permutation_length in Hperm. rewrite !length_map in Hperm. exact Hperm. }
  assert (Hsorted :
    sorted_str (map (fun i => BiasTypeEnum.value (BiasIndicator.bias_type i)) indicators1)
    = sorted_str (map (fun i => BiasTypeEnum.value (BiasIndicator.bias_type i)) indicators2)).
  { apply sorted_str_Permutation.
    rewrite <- !(map_map BiasIndicator.bias_type BiasTypeEnum.value).
    apply Permutation_map. exact Hperm. }
  rewrite Hlen, Hsorted. reflexivity.
Qed.

(** ** Simplification at level "moderate" *)

Lemma rstrip_idemp (s : pystr) : rstrip (rstrip s) = rstrip s.
Proof.
  induction s as [| c s IH]; [reflexivity |].
  cbn [rstrip]. destruct (rstrip s) as [| d t] eqn:Hr.
  - destruct (is_space c) eqn:Hc; [reflexivity |].
    cbn [rstrip]. rewrite Hc. reflexivity.
  - cbn [rstrip]. cbn [rstrip] in IH. rewrite IH. reflexivity.
Qed.

Lemma lstrip_head (s : pystr) :
  lstrip s = [] \/ exists c t, lstrip s = c :: t /\ is_space c = false.
Proof.
  induction s as [| c s IH]; [left; reflexivity |].
  cbn [lstrip]. destruct (is_space c) eqn:Hc; [exact IH |].
  right. exists c, s. auto.
Qed.

Lemma lstrip_rstrip_lstrip (s : pystr) :
  lstrip (rstrip (lstrip s)) = rstrip (lstrip s).
Proof.
  destruct (lstrip_head s) as [-> | (c & t & -> & Hc)]; [reflexivity |].
  cbn [rstrip]. destruct (rstrip t); rewrite ?Hc; cbn [lstrip]; rewrite Hc; reflexivity.
Qed.

Lemma strip_idemp (s : pystr) : strip (strip s) = strip s.
Proof.
  unfold strip. rewrite lstrip_rstrip_lstrip. apply rstrip_idemp.
Qed.

(** A pattern that matches nowhere leaves the text as it is. *)
Lemma sub_ci_absent (p repl s : pystr) :
  occurs_ci p s = false -> sub_ci p repl s = s.
Proof.
  unfold sub_ci. induction s as [| c s IH]; [reflexivity |].
  cbn [occurs_ci sub_ci_go]. intros H.
  apply orb_false_elim in H. destruct H as [Hpre Hrest].
  rewrite Hpre. f_equal. apply IH. exact Hrest.
Qed.

Lemma apply_replacements_absent (table : list (string * string)) (s : pystr) :
  existsb (fun entry => occurs_ci (py entry.1) s) table = false ->
  TextAnalyzer.apply_replacements table s = s.
Proof.
  unfold TextAnalyzer.apply_replacements.
  induction table as [| [cw sw] table IH]; [reflexivity |].
  cbn [existsb fold_left fst]. intros H.
  apply orb_false_elim in H. destruct H as [Hhere Hrest].
  rewrite (sub_ci_absent _ _ _ Hhere). apply IH. exact Hrest.
Qed.

Lemma simplify_text_moderate (text : pystr) :
  TextAnalyzer.simplify_text text (py "moderate")
  = strip (TextAnalyzer.apply_replacements TextAnalyzer.replacements text).
Proof. reflexivity. Qed.

(** C3, as the claim states it, fails: the table is applied once, entry
    after entry, and a later entry can complete an earlier one. From
    "prior in order to" the entry "in order to" makes "prior to", which a
    second run rewrites to "before". *)
Lemma C3_second_run_substitutes :
  TextAnalyzer.simplify_text (py "prior in order to") (py "moderate") = py "prior to"
  /\ TextAnalyzer.simplify_text
       (TextAnalyzer.simplify_text (py "prior in order to") (py "moderate"))
       (py "moderate") = py "before"
  /\ TextAnalyzer.simplify_text
       (TextAnalyzer.simplify_text (py "prior in order to") (py "moderate"))
       (py "moderate")
     <> TextAnalyzer.simplify_text (py "prior in order to") (py "moderate").
Proof.
  split; [vm_compute; reflexivity |].
  split; [vm_compute; reflexivity |].
  vm_compute. discriminate.
Qed.

(** C3 (amended): simplification at level "moderate" is a fixed point on
    its own output whenever no phrase of the substitution table occurs, in
    any case, in that output: a second run then substitutes nothing and
    returns the output unchanged. A text in which no table phrase occurs
    is returned stripped and otherwise unchanged. *)
Theorem C3_moderate_fixed_point (text : pystr) :
  let out := TextAnalyzer.simplify_text text (py "moderate") in
  holds_table_phrase out = false ->
  TextAnalyzer.simplify_text out (py "moderate") = out
  /\ (holds_table_phrase text = false -> out = strip text).
Proof.
  intros out Hnone. split.
  - rewrite simplify_text_moderate.
    rewrite (apply_replacements_absent _ _ Hnone).
    subst out. rewrite simplify_text_moderate. apply strip_idemp.
  - intros Htext. subst out. rewrite simplify_text_moderate.
    rewrite (apply_replacements_absent _ _ Htext). reflexivity.
Qed.

(** ** The reflection prompt of the adjust-pace transform *)

Lemma find_none_seq (f : nat -> bool) (start len : nat) :
  (forall i, (start <= i < start + len)%nat -> f i = false) ->
  List.find f (seq start len) = None.
Proof.
  revert start. induction len as [| len IH]; intros start H; [reflexivity |].
  cbn [seq List.find]. rewrite (H start) by lia.
  apply IH. intros i Hi. apply H. lia.
Qed.

(** The prompt is searched for from the midpoint onwards only: without a
    sentence end in the 50 characters from the midpoint, the text is
    returned unchanged. *)
Lemma add_reflection_prompts_none (content : pystr) :
  (forall i c, (length content / 2 <= i < length content / 2 + 50)%nat ->
               content !! i = Some c -> is_sentence_end c = false) ->
  AdaptiveEngine._add_reflection_prompts content = content.
Proof.
  intros H. unfold AdaptiveEngine._add_reflection_prompts.
  rewrite find_none_seq; [reflexivity |].
  intros i Hi. unfold AdaptiveEngine.is_break.
  destruct (content !! i) as [c |] eqn:Hc; [| reflexivity].
  rewrite (H i c); [reflexivity | lia | exact Hc].
Qed.

(** C8 (the code at the failing input): a text of 901 characters whose only
    sentence end stands ten characters before the midpoint, well inside
    the window of 50 characters around it, comes out of the adjust-pace
    transform without a prompt; with the sentence end ten characters after
    the midpoint the prompt is inserted behind it. The search starts at
    the midpoint: whenever the 50 characters from the midpoint hold no
    sentence end, [_add_reflection_prompts] changes nothing. *)
Theorem C8_prompt_searched_forward_only :
  length text_break_before_midpoint = 901%nat
  /\ text_break_before_midpoint !! 440%nat = Some 46%N
  /\ AdaptedContent.content
       (AdaptiveEngine._adjust_pace text_break_before_midpoint ∅)
     = text_break_before_midpoint
  /\ AdaptedContent.changes_made
       (AdaptiveEngine._adjust_pace text_break_before_midpoint ∅)
     = [py "Content is already appropriately paced"]
  /\ AdaptedContent.content
       (AdaptiveEngine._adjust_pace text_break_after_midpoint ∅)
     = take 461 text_break_after_midpoint ++ AdaptiveEngine.reflection
       ++ drop 461 text_break_after_midpoint
  /\ (forall content : pystr,
        (forall i c, (length content / 2 <= i < length content / 2 + 50)%nat ->
                     content !! i = Some c -> is_sentence_end c = false) ->
        AdaptiveEngine._add_reflection_prompts content = content).
Proof.
  split; [vm_compute; reflexivity |].
  split; [vm_compute; reflexivity |].
  split; [vm_compute; reflexivity |].
  split; [vm_compute; reflexivity |].
  split; [vm_compute; reflexivity |].
  exact add_reflection_prompts_none.
Qed.

(** ** What depends on the run *)

Lemma set_order_Permutation {A} (f g : list A -> list A) (l : list A) :
  set_order_ok f -> set_order_ok g -> f l ≡ₚ g l.
Proof.
  intros Hf Hg. destruct (Hf l) as [Hnf Hef], (Hg l) as [Hng Heg].
  apply NoDup_Permutation; [assumption | assumption |].
  intros x. rewrite Hef, Heg. reflexivity.
Qed.

Lemma remove_dups_order_ok {A} `{EqDecision A} :
  set_order_ok (remove_dups (A := A)).
Proof.
  intros l. split; [apply NoDup_remove_dups |].
  intros x. apply elem_of_remove_dups.
Qed.

Lemma reverse_remove_dups_order_ok {A} `{EqDecision A} :
  set_order_ok (fun l : list A => reverse (remove_dups l)).
Proof.
  intros l. split.
  - rewrite reverse_Permutation. apply NoDup_remove_dups.
  - intros x. rewrite elem_of_reverse. apply elem_of_remove_dups.
Qed.

Lemma same_words_trans (r1 r2 r3 : option (list pystr)) :
  same_words r1 r2 -> same_words r2 r3 -> same_words r1 r3.
Proof.
  destruct r1, r2, r3; cbn; try done. intros H1 H2. etransitivity; eassumption.
Qed.

Lemma collect_complex_Permutation (lib : Lib) (threshold : Z)
    (l1 l2 : list pystr) :
  l1 ≡ₚ l2 ->
  same_words (TextAnalyzer.collect_complex lib threshold l1)
             (TextAnalyzer.collect_complex lib threshold l2).
Proof.
  induction 1 as [| x l1 l2 _ IH | x y l | l1 l2 l3 _ IH1 _ IH2].
  - cbn. constructor.
  - cbn [TextAnalyzer.collect_complex].
    destruct (syllable_count lib x) as [n |]; cbn [mbind option_bind]; [| exact I].
    destruct (TextAnalyzer.collect_complex lib threshold l1) as [c1 |],
             (TextAnalyzer.collect_complex lib threshold l2) as [c2 |];
      cbn in *; try done.
    destruct (threshold <=? n); [constructor |]; exact IH.
  - cbn [TextAnalyzer.collect_complex].
    destruct (syllable_count lib x) as [n |], (syllable_count lib y) as [m |];
      cbn [mbind option_bind]; try exact I;
      destruct (TextAnalyzer.collect_complex lib threshold l) as [c |];
      cbn; try exact I.
    destruct (threshold <=? n), (threshold <=? m);
      try reflexivity. apply perm_swap.
  - eapply same_words_trans; eassumption.
Qed.

Section TwoRuns.
Variable lib : Lib.
Variables rt1 rt2 : Runtime.
Hypothesis ok1 : set_order_ok (set_order_str rt1).
Hypothesis ok2 : set_order_ok (set_order_str rt2).

(** The complex words do not depend on the order of iteration: they are
    sorted at the end. *)
Lemma identify_complex_words_run (text : pystr) (threshold : Z) :
  TextAnalyzer.identify_complex_words lib rt1 text threshold
  = TextAnalyzer.identify_complex_words lib rt2 text threshold.
Proof.
  unfold TextAnalyzer.identify_complex_words.
  pose proof (collect_complex_Permutation lib threshold _ _
                (set_order_Permutation _ _
                   (TextAnalyzer.findall_letters lib (str_lower lib text)) ok1 ok2))
    as H.
  destruct (TextAnalyzer.collect_complex lib threshold (set_order_str rt1 _)) as [c1 |],
           (TextAnalyzer.collect_complex lib threshold (set_order_str rt2 _)) as [c2 |];
    cbn in *; try done.
  f_equal. apply sorted_str_Permutation. exact H.
Qed.
End TwoRuns.

Lemma omap_cons_match {A B} (f : A -> option B) (x : A) (l : list A) :
  omap f (x :: l)
  = match f x with Some y => y :: omap f l | None => omap f l end.
Proof. reflexivity. Qed.

(** The jargon indicators have the same types in every run: one
    language-complexity indicator per marker pattern that matches. *)
Lemma jargon_indicator_types (lib : Lib) (rt1 rt2 : Runtime) (text : pystr) :
  map BiasIndicator.bias_type
      (omap BiasDetector.jargon_indicator
            (TextAnalyzer.identify_jargon_patterns lib rt1 text))
  = map BiasIndicator.bias_type
        (omap BiasDetector.jargon_indicator
              (TextAnalyzer.identify_jargon_patterns lib rt2 text)).
Proof.
  unfold TextAnalyzer.identify_jargon_patterns.
  set (long := map strip _).
  assert (Hmarkers : forall markers,
    map BiasIndicator.bias_type
        (omap BiasDetector.jargon_indicator
              (omap (TextAnalyzer.academic_pattern lib rt1 text) markers))
    = map BiasIndicator.bias_type
          (omap BiasDetector.jargon_indicator
                (omap (TextAnalyzer.academic_pattern lib rt2 text) markers))).
  { induction markers as [| pattern markers IH]; [reflexivity |].
    rewrite !(omap_cons_match _ pattern markers).
    destruct (TextAnalyzer.academic_pattern lib rt1 text pattern) as [p1 |] eqn:E1,
             (TextAnalyzer.academic_pattern lib rt2 text pattern) as [p2 |] eqn:E2;
      unfold TextAnalyzer.academic_pattern in E1, E2;
      destruct (TextAnalyzer.findall_words lib pattern (str_lower lib text));
      try discriminate; [| exact IH].
    injection E1 as <-. injection E2 as <-.
    rewrite !(omap_cons_match BiasDetector.jargon_indicator).
    cbn [BiasDetector.jargon_indicator map BiasIndicator.bias_type].
    f_equal. exact IH. }
  destruct long.
  - apply Hmarkers.
  - rewrite !omap_app, !map_app. f_equal. apply Hmarkers.
Qed.

Lemma complexity_bias_types (lib : Lib) (rt1 rt2 : Runtime) (self : BiasDetector.t)
    (content : pystr) (metrics : gmap string float) :
  set_order_ok (set_order_str rt1) -> set_order_ok (set_order_str rt2) ->
  same_types
    (BiasDetector._detect_language_complexity_bias lib rt1 self content metrics)
    (BiasDetector._detect_language_complexity_bias lib rt2 self content metrics).
Proof.
  intros ok1 ok2.
  unfold BiasDetector._detect_language_complexity_bias.
  rewrite (identify_complex_words_run lib rt1 rt2 ok1 ok2).
  destruct (TextAnalyzer.identify_complex_words lib rt2 content 3) as [words |];
    cbn [mbind option_bind same_types]; [| exact I].
  pose proof (jargon_indicator_types lib rt1 rt2 content) as Hj.
  destruct (10 <? length words)%nat;
    destruct (fge _ (BiasDetector.complexity_threshold_high self));
    try destruct (fge _ (BiasDetector.complexity_threshold_medium self));
    rewrite ?map_app; cbn [app map]; rewrite ?Hj; reflexivity.
Qed.

(** The audit hash of the detector is made from the session hash, the
    content and the bias types of the indicators. *)
Lemma bias_audit_hash_types (lib : Lib) (session_hash content : pystr)
    (indicators1 indicators2 : list BiasIndicator.t) :
  map BiasIndicator.bias_type indicators1 = map BiasIndicator.bias_type indicators2 ->
  BiasDetector._generate_audit_hash lib session_hash content indicators1
  = BiasDetector._generate_audit_hash lib session_hash content indicators2.
Proof.
  intros Htypes. unfold BiasDetector._generate_audit_hash.
  assert (Hlen : length indicators1 = length indicators2).
  { rewrite <- (length_map BiasIndicator.bias_type indicators1), Htypes.
    apply length_map. }
  rewrite <- !(map_map BiasIndicator.bias_type BiasTypeEnum.value).
  rewrite Hlen, Htypes. reflexivity.
Qed.

(** The hash of the adaptive engine is made from the session hash, the
    content and the types of the adaptations. *)
Lemma adaptation_audit_hash_types (lib : Lib) (session_hash original : pystr)
    (adaptations1 adaptations2 : list AdaptedContent.t) :
  map AdaptedContent.adaptation_type adaptations1
    = map AdaptedContent.adaptation_type adaptations2 ->
  AdaptiveEngine._generate_audit_hash lib session_hash original adaptations1
  = AdaptiveEngine._generate_audit_hash lib session_hash original adaptations2.
Proof.
  intros Htypes. unfold AdaptiveEngine._generate_audit_hash.
  rewrite <- !(map_map AdaptedContent.adaptation_type AdaptationTypeEnum.value).
  rewrite Htypes. reflexivity.
Qed.

(** The hash returned by [detect_bias], as a function of the request and
    of the indicators of the language sub-detector. *)
Lemma detect_bias_hash (lib : Lib) (rt : Runtime) (self : BiasDetector.t)
    (request : BiasDetectionRequest.t) :
  let content := BiasDetectionRequest.content_text request in
  let patterns := BiasDetectionRequest.interaction_patterns request in
  BiasDetectionResult.deterministic_hash
    <$> BiasDetector.detect_bias lib rt self request
  = (metrics ← TextAnalyzer.get_readability_metrics lib content;
     complexity ← BiasDetector._detect_language_complexity_bias lib rt self
                    content metrics;
     pace ← match patterns with
            | [] => Some []
            | _ => BiasDetector._detect_pace_mismatch lib patterns
            end;
     exposure ← match patterns with
                | [] => Some []
                | _ => BiasDetector._detect_prior_exposure_gaps lib patterns
                end;
     BiasDetector._generate_audit_hash lib
       (BiasDetectionRequest.session_hash request) content
       (((([] ++ complexity) ++ pace) ++ exposure)
        ++ BiasDetector._detect_representation_issues lib content)).
Proof.
  intros content patterns. unfold BiasDetector.detect_bias.
  fold content patterns.
  destruct (TextAnalyzer.get_readability_metrics lib content) as [metrics |];
    cbn [mbind option_bind fmap option_fmap option_map]; [| reflexivity].
  destruct (BiasDetector._detect_language_complexity_bias _ _ _ _ _) as [ci |];
    cbn [mbind option_bind fmap option_fmap option_map]; [| reflexivity].
  destruct (match patterns with
            | [] => Some []
            | _ => BiasDetector._detect_pace_mismatch lib patterns
            end) as [pi |];
    cbn [mbind option_bind fmap option_fmap option_map]; [| reflexivity].
  destruct (match patterns with
            | [] => Some []
            | _ => BiasDetector._detect_prior_exposure_gaps lib patterns
            end) as [ei |];
    cbn [mbind option_bind fmap option_fmap option_map]; [| reflexivity].
  destruct (BiasDetector._generate_audit_hash _ _ _ _) as [h |];
    cbn [mbind option_bind fmap option_fmap option_map]; reflexivity.
Qed.

(** The clock of the run is the time stamp of the result, and enters
    nothing else. *)
Lemma detect_bias_clock (lib : Lib) (self : BiasDetector.t)
    (request : BiasDetectionRequest.t) (now1 now2 : pystr)
    (order_str : list pystr -> list pystr)
    (order_adaptation : list AdaptationType -> list AdaptationType) :
  BiasDetector.detect_bias lib
    {| utcnow_isoformat := now2; set_order_str := order_str;
       set_order_adaptation := order_adaptation |} self request
  = with_timestamp now2
      <$> BiasDetector.detect_bias lib
            {| utcnow_isoformat := now1; set_order_str := order_str;
               set_order_adaptation := order_adaptation |} self request.
Proof.
  unfold BiasDetector.detect_bias.
  cbn [utcnow_isoformat].
  repeat match goal with
         | |- (?m ≫= _) = _ <$> (?m' ≫= _) =>
             change m' with m;
             destruct m; cbn [mbind option_bind fmap option_fmap option_map];
             [| reflexivity]
         end.
  reflexivity.
Qed.

(** The adaptive engine consults the run only for the order of sets of
    strings. *)
Lemma generate_adaptation_run (lib : Lib) (rt1 rt2 : Runtime)
    (request : AdaptationRequest.t) :
  set_order_str rt1 = set_order_str rt2 ->
  AdaptiveEngine.generate_adaptation lib rt1 request
  = AdaptiveEngine.generate_adaptation lib rt2 request.
Proof.
  destruct rt1 as [now1 order1 oa1], rt2 as [now2 order2 oa2].
  cbn [set_order_str]. intros ->. reflexivity.
Qed.

(** C1: the audit hash does not depend on the run. For a fixed request,
    two calls of [detect_bias] made at different times, in interpreters
    that iterate sets in different orders, return the same
    [deterministic_hash] (or both raise); two calls of [generate_adaptation]
    that return give the same [deterministic_hash], and within one
    interpreter (the same order of sets) the second call returns what the
    first did. *)
Theorem C1_audit_hash_deterministic
    (lib : Lib) (self : BiasDetector.t) (rt1 rt2 : Runtime)
    (bias_req : BiasDetectionRequest.t) (adapt_req : AdaptationRequest.t) :
  set_order_ok (set_order_str rt1) ->
  set_order_ok (set_order_str rt2) ->
  BiasDetectionResult.deterministic_hash
    <$> BiasDetector.detect_bias lib rt1 self bias_req
  = BiasDetectionResult.deterministic_hash
      <$> BiasDetector.detect_bias lib rt2 self bias_req
  /\ (forall r1 r2,
        AdaptiveEngine.generate_adaptation lib rt1 adapt_req = Some r1 ->
        AdaptiveEngine.generate_adaptation lib rt2 adapt_req = Some r2 ->
        AdaptationResult.deterministic_hash r1 = AdaptationResult.deterministic_hash r2)
  /\ (set_order_str rt1 = set_order_str rt2 ->
      AdaptationResult.deterministic_hash
        <$> AdaptiveEngine.generate_adaptation lib rt1 adapt_req
      = AdaptationResult.deterministic_hash
          <$> AdaptiveEngine.generate_adaptation lib rt2 adapt_req).
Proof.
  intros ok1 ok2. split; [| split].
  - rewrite !detect_bias_hash. cbv zeta.
    destruct (TextAnalyzer.get_readability_metrics lib _) as [metrics |];
      cbn [mbind option_bind]; [| reflexivity].
    pose proof (complexity_bias_types lib rt1 rt2 self
                  (BiasDetectionRequest.content_text bias_req) metrics ok1 ok2) as Hc.
    destruct (BiasDetector._detect_language_complexity_bias lib rt1 _ _ _) as [c1 |],
             (BiasDetector._detect_language_complexity_bias lib rt2 _ _ _) as [c2 |];
      cbn [same_types] in Hc; try done.
    cbn [mbind option_bind].
    destruct (match BiasDetectionRequest.interaction_patterns bias_req with
              | [] => Some []
              | _ => BiasDetector._detect_pace_mismatch lib _
              end) as [pi |]; cbn [mbind option_bind]; [| reflexivity].
    destruct (match BiasDetectionRequest.interaction_patterns bias_req with
              | [] => Some []
              | _ => BiasDetector._detect_prior_exposure_gaps lib _
              end) as [ei |]; cbn [mbind option_bind]; [| reflexivity].
    apply bias_audit_hash_types.
    rewrite !map_app. cbn [map app]. rewrite Hc. reflexivity.
  - intros r1 r2 H1 H2.
    apply generate_adaptation_fields in H1, H2.
    destruct H1 as (Ht1 & _ & Hh1), H2 as (Ht2 & _ & Hh2).
    rewrite (adaptation_audit_hash_types lib _ _ _ (AdaptationResult.adaptations r2))
      in Hh1 by (rewrite Ht1, Ht2; reflexivity).
    rewrite Hh1 in Hh2. injection Hh2 as ->. reflexivity.
  - intros Hsame. rewrite (generate_adaptation_run lib rt1 rt2 adapt_req Hsame).
    reflexivity.
Qed.

(** C2, as the claim states it, fails: the result carries the time of the
    call. The same request, answered twice by the same interpreter a few
    seconds apart, gives two results with different [analysis_timestamp]
    fields. Between two interpreters that iterate sets in different orders,
    the recommended actions of a prior-exposure gap come in different
    orders as well. *)
Lemma C2_results_differ_in_timestamp :
  (exists r1 r2,
     BiasDetector.detect_bias ascii_lib run1 BiasDetector.init bias_request = Some r1
     /\ BiasDetector.detect_bias ascii_lib run1_later BiasDetector.init bias_request
        = Some r2
     /\ BiasDetectionResult.analysis_timestamp r1 = py "2024-05-01T10:00:00.000001"
     /\ BiasDetectionResult.analysis_timestamp r2 = py "2024-05-01T10:00:07.250000"
     /\ r1 <> r2)
  /\ BiasDetectionResult.recommended_actions
       <$> BiasDetector.detect_bias ascii_lib run1 BiasDetector.init exposure_request
     = Some [ADD_EXAMPLES; SIMPLIFY_LANGUAGE]
  /\ BiasDetectionResult.recommended_actions
       <$> BiasDetector.detect_bias ascii_lib run2 BiasDetector.init exposure_request
     = Some [SIMPLIFY_LANGUAGE; ADD_EXAMPLES].
Proof.
  split; [| split; vm_compute; reflexivity].
  destruct (BiasDetector.detect_bias ascii_lib run1 BiasDetector.init bias_request)
    as [r1 |] eqn:H1; [| vm_compute in H1; discriminate].
  exists r1, (with_timestamp (py "2024-05-01T10:00:07.250000") r1).
  pose proof (detect_bias_clock ascii_lib BiasDetector.init bias_request
                (utcnow_isoformat run1) (utcnow_isoformat run1_later)
                (set_order_str run1) (set_order_adaptation run1)) as Hclock.
  change (BiasDetector.detect_bias ascii_lib run1_later BiasDetector.init bias_request
          = with_timestamp (utcnow_isoformat run1_later)
              <$> BiasDetector.detect_bias ascii_lib run1 BiasDetector.init bias_request)
    in Hclock.
  rewrite H1 in Hclock. cbn [fmap option_fmap option_map] in Hclock.
  assert (Hts : BiasDetectionResult.analysis_timestamp r1
                = py "2024-05-01T10:00:00.000001").
  { assert (H : BiasDetectionResult.analysis_timestamp
                  <$> BiasDetector.detect_bias ascii_lib run1 BiasDetector.init bias_request
                = Some (py "2024-05-01T10:00:00.000001"))
      by (vm_compute; reflexivity).
    rewrite H1 in H. injection H as H. exact H. }
  split; [reflexivity |].
  split; [exact Hclock |].
  split; [exact Hts |].
  split; [reflexivity |].
  intros Heq.
  apply (f_equal BiasDetectionResult.analysis_timestamp) in Heq.
  rewrite Hts in Heq. cbn in Heq. vm_compute in Heq. discriminate.
Qed.

(** C2 (amended): two calls of [detect_bias] with the same request, made by
    the same interpreter (sets are iterated in the same order), return
    results that are identical field for field, the indicators and the
    recommended actions in their order, except for [analysis_timestamp],
    which is the clock reading of each call: the second result is the first
    one with the second clock reading (and the second call raises exactly
    when the first does). *)
Theorem C2_detect_bias_same_but_timestamp
    (lib : Lib) (self : BiasDetector.t) (rt1 rt2 : Runtime)
    (request : BiasDetectionRequest.t) :
  set_order_str rt1 = set_order_str rt2 ->
  set_order_adaptation rt1 = set_order_adaptation rt2 ->
  BiasDetector.detect_bias lib rt2 self request
  = with_timestamp (utcnow_isoformat rt2)
      <$> BiasDetector.detect_bias lib rt1 self request
  /\ (forall r1, BiasDetector.detect_bias lib rt1 self request = Some r1 ->
        BiasDetectionResult.analysis_timestamp r1 = utcnow_isoformat rt1).
Proof.
  destruct rt1 as [now1 order1 oa1], rt2 as [now2 order2 oa2].
  cbn [set_order_str set_order_adaptation utcnow_isoformat].
  intros -> ->. split.
  - apply detect_bias_clock.
  - intros r1 H1.
    pose proof (detect_bias_clock lib self request now1 now1 order2 oa2) as H.
    rewrite H1 in H. cbn [fmap option_fmap option_map] in H.
    injection H as ->. reflexivity.
Qed.

(** ** The statements at concrete inputs *)

Lemma C1_audit_hash_deterministic_witness :
  set_order_ok (set_order_str run1)
  /\ set_order_ok (set_order_str run2)
  /\ BiasDetectionResult.deterministic_hash
       <$> BiasDetector.detect_bias ascii_lib run1 BiasDetector.init bias_request
     = BiasDetectionResult.deterministic_hash
         <$> BiasDetector.detect_bias ascii_lib run2 BiasDetector.init bias_request
  /\ BiasDetectionResult.deterministic_hash
       <$> BiasDetector.detect_bias ascii_lib run1 BiasDetector.init bias_request
     = Some (py "8cf5afb0565abd21").
Proof.
  split; [exact remove_dups_order_ok |].
  split; [exact reverse_remove_dups_order_ok |].
  split; [| vm_compute; reflexivity].
  exact (proj1 (C1_audit_hash_deterministic ascii_lib BiasDetector.init run1 run2
                  bias_request pace_request
                  remove_dups_order_ok reverse_remove_dups_order_ok)).
Defined.

Lemma C2_detect_bias_same_but_timestamp_witness :
  set_order_str run1 = set_order_str run1_later
  /\ set_order_adaptation run1 = set_order_adaptation run1_later
  /\ BiasDetector.detect_bias ascii_lib run1_later BiasDetector.init bias_request
     = with_timestamp (utcnow_isoformat run1_later)
         <$> BiasDetector.detect_bias ascii_lib run1 BiasDetector.init bias_request.
Proof.
  split; [reflexivity |].
  split; [reflexivity |].
  exact (proj1 (C2_detect_bias_same_but_timestamp ascii_lib BiasDetector.init
                  run1 run1_later bias_request eq_refl eq_refl)).
Defined.

Lemma C3_moderate_fixed_point_witness :
  TextAnalyzer.simplify_text plain_sentence (py "moderate") = py "We use the method."
  /\ holds_table_phrase (TextAnalyzer.simplify_text plain_sentence (py "moderate"))
     = false
  /\ TextAnalyzer.simplify_text
       (TextAnalyzer.simplify_text plain_sentence (py "moderate")) (py "moderate")
     = TextAnalyzer.simplify_text plain_sentence (py "moderate").
Proof.
  split; [vm_compute; reflexivity |].
  assert (H : holds_table_phrase
                (TextAnalyzer.simplify_text plain_sentence (py "moderate")) = false)
    by (vm_compute; reflexivity).
  split; [exact H |].
  exact (proj1 (C3_moderate_fixed_point plain_sentence H)).
Defined.

Lemma C6_pace_mismatch_witness :
  BiasDetector.response_times pace_test_patterns = map PInt [20000; 18000; 5000]
  /\ [20000; 18000; 5000] <> []
  /\ Z.of_nat (length [20000; 18000; 5000]) <= 2 ^ 53
  /\ is_Some (int_truediv ascii_lib (sum_Z [20000; 18000; 5000])
                (Z.of_nat (length [20000; 18000; 5000])))
  /\ BiasDetector._detect_pace_mismatch ascii_lib pace_test_patterns
     = Some [BiasDetector.pace_high ascii_lib (slow_fraction [20000; 18000; 5000])].
Proof.
  assert (H1 : BiasDetector.response_times pace_test_patterns
               = map PInt [20000; 18000; 5000]) by (vm_compute; reflexivity).
  assert (H2 : [20000; 18000; 5000] <> []) by discriminate.
  assert (H3 : Z.of_nat (length [20000; 18000; 5000]) <= 2 ^ 53)
    by (vm_compute; discriminate).
  assert (H4 : is_Some (int_truediv ascii_lib (sum_Z [20000; 18000; 5000])
                          (Z.of_nat (length [20000; 18000; 5000]))))
    by (eexists; vm_compute; reflexivity).
  repeat (split; [assumption |]).
  exact (proj1 (C6_pace_mismatch ascii_lib pace_test_patterns [20000; 18000; 5000]
                  H1 H2 H3 H4)).
Defined.

Lemma C7_primary_recommendation_witness :
  as_int (dict_get (AdaptationRequest.interaction_signals pace_request)
            "clarification_count" (PInt 0)) = Some 0
  /\ as_int (dict_get (AdaptationRequest.interaction_signals pace_request)
               "response_time_ms" (PInt 0)) = Some 20000
  /\ AdaptiveEngine._select_primary_adaptation two_adaptations
       (AdaptationRequest.interaction_signals pace_request)
     = Some (Some (AdaptiveEngine._adjust_pace (py "2 + 2 = 4") ∅)).
Proof.
  assert (H1 : as_int (dict_get (AdaptationRequest.interaction_signals pace_request)
                         "clarification_count" (PInt 0)) = Some 0)
    by (vm_compute; reflexivity).
  assert (H2 : as_int (dict_get (AdaptationRequest.interaction_signals pace_request)
                         "response_time_ms" (PInt 0)) = Some 20000)
    by (vm_compute; reflexivity).
  repeat (split; [assumption |]).
  exact (proj1 (C7_primary_recommendation ascii_lib run1 pace_request two_adaptations
                  0 20000 H1 H2)).
Defined.

Lemma C9_short_text_baseline_witness :
  (length (strip (py "  Hi there  ")) < 10)%nat
  /\ TextAnalyzer.get_readability_metrics ascii_lib (py "  Hi there  ")
     = Some TextAnalyzer.baseline_metrics.
Proof.
  assert (H : (length (strip (py "  Hi there  ")) < 10)%nat) by (vm_compute; lia).
  split; [exact H |].
  exact (proj1 (C9_short_text_baseline ascii_lib (py "  Hi there  ") H)).
Defined.

Lemma C10_audit_hash_types_only_witness :
  map BiasIndicator.bias_type indicators_a ≡ₚ map BiasIndicator.bias_type indicators_b
  /\ BiasDetector._generate_audit_hash ascii_lib (py "test_123") (py "Normal content")
       indicators_a
     = BiasDetector._generate_audit_hash ascii_lib (py "test_123") (py "Normal content")
         indicators_b.
Proof.
  assert (H : map BiasIndicator.bias_type indicators_a
              ≡ₚ map BiasIndicator.bias_type indicators_b) by apply perm_swap.
  split; [exact H |].
  exact (C10_audit_hash_types_only ascii_lib (py "test_123") (py "Normal content")
           indicators_a indicators_b H).
Defined.

(** * Further properties of the sources *)

(** ** modules/interaction_analyzer.py *)

(** X1: the comprehension indicators of a single interaction always hold
    the four entries "response_speed", "help_seeking", "persistence" and
    "content_engagement"; "persistence" is always true and
    "content_engagement" always "present"; the entry "may_benefit_from" is
    there, with the value "alternative_explanation", exactly for a repeated
    error, and there is never any other entry. "help_seeking" is true
    exactly when clarifications were counted or the action is a
    clarification. *)
Theorem X1_comprehension_indicators_shape
    (self : InteractionAnalyzer.t) (i : InteractionData.t) :
  let ind :=
    InteractionAnalysisResult.comprehension_indicators
      (InteractionAnalyzer.analyze_single_interaction self i) in
  (forall key : string,
     is_Some (ind !! key)
     <-> key = "response_speed" \/ key = "help_seeking" \/ key = "persistence"
         \/ key = "content_engagement"
         \/ (key = "may_benefit_from" /\ InteractionData.is_repeated_error i = true))
  /\ ind !! "persistence" = Some (PBool true)
  /\ ind !! "content_engagement" = Some (PStr (py "present"))
  /\ (InteractionData.is_repeated_error i = true ->
      ind !! "may_benefit_from" = Some (PStr (py "alternative_explanation")))
  /\ ind !! "help_seeking"
     = Some (PBool ((0 <? InteractionData.clarification_count i)
                    || bool_decide (InteractionData.action_type i = py "clarification")))
  /\ (ind !! "response_speed" = Some (PStr (py "normal"))
      \/ ind !! "response_speed" = Some (PStr (py "taking_time"))
      \/ ind !! "response_speed" = Some (PStr (py "quick"))).
Proof.
  intros ind. subst ind. rewrite indicators_analyze.
  unfold InteractionAnalyzer._build_comprehension_indicators.
  destruct (InteractionAnalyzer.slow_response_threshold self
              <? InteractionData.response_time_ms i);
    destruct (InteractionData.response_time_ms i
                <? InteractionAnalyzer.fast_response_threshold self);
    destruct ((0 <? InteractionData.clarification_count i)
              || bool_decide (InteractionData.action_type i = py "clarification"));
    destruct (InteractionData.is_repeated_error i);
    (split; [| repeat split; try (intros; simplify_map_eq; reflexivity);
               simplify_map_eq; auto ]);
    intros key; rewrite !lookup_insert_is_Some', lookup_empty;
    split; intros H;
    repeat match goal with
           | H : _ \/ _ |- _ => destruct H
           | H : _ /\ _ |- _ => destruct H
           | H : is_Some None |- _ => destruct H; discriminate
           end; subst; try discriminate; auto 10.
Qed.

(** X2: the suggestions of the single-record classifier never hold
    adjust-pace, not even for a slow response; they hold at most four
    entries; change-representation is suggested exactly when add-examples
    is, which is exactly for a repeated error; duplicates are not removed:
    simplify-language is suggested twice exactly when the response-speed
    indicator is "taking_time" and the clarification count reaches its
    threshold. *)
Theorem X2_suggested_adaptations_shape
    (self : InteractionAnalyzer.t) (i : InteractionData.t) :
  let r := InteractionAnalyzer.analyze_single_interaction self i in
  let suggested := InteractionAnalysisResult.suggested_adaptations r in
  (ADJUST_PACE ∉ suggested)
  /\ (length suggested <= 4)%nat
  /\ (CHANGE_REPRESENTATION ∈ suggested <-> ADD_EXAMPLES ∈ suggested)
  /\ (ADD_EXAMPLES ∈ suggested <-> InteractionData.is_repeated_error i = true)
  /\ (length (List.filter (fun a => bool_decide (a = SIMPLIFY_LANGUAGE)) suggested) = 2%nat
      <-> (InteractionAnalyzer.slow_response_threshold self
             < InteractionData.response_time_ms i
           /\ InteractionAnalyzer.high_clarification_threshold self
              <= InteractionData.clarification_count i)).
Proof.
  intros r suggested. subst r suggested.
  rewrite suggested_analyze.
  unfold InteractionAnalyzer._determine_adaptations.
  pose proof (response_speed_taking_time self i) as Hspeed.
  destruct (decide (InteractionAnalyzer._build_comprehension_indicators self i
                      !! "response_speed" = Some (PStr (py "taking_time")))) as [Ht | Ht];
    [rewrite (bool_decide_eq_true_2 _ Ht) | rewrite (bool_decide_eq_false_2 _ Ht)];
    destruct (InteractionData.is_repeated_error i);
    destruct (Z.leb_spec (InteractionAnalyzer.high_clarification_threshold self)
                (InteractionData.clarification_count i));
    cbn [snd app length List.filter];
    repeat split; unfold not; intros;
    repeat match goal with
           | H : _ ∈ [] |- _ => apply elem_of_nil in H; destruct H
           | H : _ ∈ _ :: _ |- _ => apply elem_of_cons in H; destruct H as [H | H]
           | H : _ /\ _ |- _ => destruct H
           end;
    try discriminate; try lia; try tauto;
    try (cbn in *; lia);
    try (rewrite !elem_of_cons; auto 10; fail).
Qed.

(** X3: the response pattern and the indicators of one result agree. A
    "deliberate" pattern comes with the response speed "taking_time", with
    [requires_adaptation] and with simplify-language as first suggestion; a
    "quick" pattern with the response speed "quick"; a "normal" pattern
    with the response speed "normal"; a "seeking_help" pattern with a true
    "help_seeking" indicator. *)
Theorem X3_pattern_agrees_with_indicators
    (self : InteractionAnalyzer.t) (i : InteractionData.t) :
  let r := InteractionAnalyzer.analyze_single_interaction self i in
  let pattern := InteractionAnalysisResult.response_pattern r in
  let ind := InteractionAnalysisResult.comprehension_indicators r in
  (pattern = py "deliberate" ->
     ind !! "response_speed" = Some (PStr (py "taking_time"))
     /\ InteractionAnalysisResult.requires_adaptation r = true
     /\ head (InteractionAnalysisResult.suggested_adaptations r) = Some SIMPLIFY_LANGUAGE)
  /\ (pattern = py "quick" -> ind !! "response_speed" = Some (PStr (py "quick")))
  /\ (pattern = py "normal" -> ind !! "response_speed" = Some (PStr (py "normal")))
  /\ (pattern = py "seeking_help" -> ind !! "help_seeking" = Some (PBool true)).
Proof.
  intros r pattern ind. subst r pattern ind.
  rewrite response_pattern_analyze, indicators_analyze, requires_analyze,
    suggested_analyze.
  unfold InteractionAnalyzer._classify_response_pattern,
    InteractionAnalyzer._determine_adaptations.
  pose proof (response_speed_taking_time self i) as Hspeed.
  unfold InteractionAnalyzer._build_comprehension_indicators in *.
  destruct (bool_decide (InteractionData.action_type i = py "clarification"));
    destruct (Z.ltb_spec (InteractionAnalyzer.slow_response_threshold self)
                (InteractionData.response_time_ms i));
    destruct (Z.ltb_spec (InteractionData.response_time_ms i)
                (InteractionAnalyzer.fast_response_threshold self));
    rewrite ?orb_true_r;
    destruct (0 <? InteractionData.clarification_count i);
    destruct (InteractionData.is_repeated_error i);
    destruct (InteractionAnalyzer.high_clarification_threshold self
                <=? InteractionData.clarification_count i);
    cbn [orb];
    (split; [| split; [| split]]); intros Hp;
    try (vm_compute in Hp; discriminate Hp); repeat split;
    simplify_map_eq; try reflexivity;
    repeat match goal with
           | |- context [bool_decide ?P] =>
               rewrite (bool_decide_eq_true_2 P) by (simplify_map_eq; reflexivity)
           end;
    reflexivity.
Qed.

(** X4: the engagement level never goes down when more time is spent on
    the content or when more clarifications are counted, the action being
    the same. *)
Theorem X4_engagement_monotone
    (action : pystr) (time1 time2 count1 count2 : Z) :
  time1 <= time2 -> count1 <= count2 ->
  (engagement_rank (InteractionAnalyzer._assess_engagement time1 action count1)
   <= engagement_rank (InteractionAnalyzer._assess_engagement time2 action count2))%nat.
Proof.
  intros Ht Hc. unfold InteractionAnalyzer._assess_engagement.
  destruct (bool_decide (action = py "question")); cbn [orb];
    [vm_compute; lia |].
  destruct (Z.ltb_spec 0 count1), (Z.ltb_spec 0 count2); try lia;
    destruct (Z.ltb_spec 60 time1), (Z.ltb_spec 60 time2); try lia;
    destruct (Z.ltb_spec time1 5), (Z.ltb_spec time2 5); try lia;
    vm_compute; lia.
Qed.

Lemma X4_engagement_monotone_witness :
  3 <= 30 /\ 0 <= 0
  /\ (engagement_rank (InteractionAnalyzer._assess_engagement 3 (py "read") 0)
      <= engagement_rank (InteractionAnalyzer._assess_engagement 30 (py "read") 0))%nat.
Proof.
  assert (H1 : 3 <= 30) by lia.
  assert (H2 : 0 <= 0) by lia.
  split; [exact H1 |]. split; [exact H2 |].
  exact (X4_engagement_monotone (py "read") 3 30 0 0 H1 H2).
Defined.

(** ** utils/text_analysis.py *)

Lemma rstrip_last (s : pystr) (c : N) :
  last (rstrip s) = Some c -> is_space c = false.
Proof.
  induction s as [| c0 s IH]; [discriminate |].
  cbn [rstrip]. destruct (rstrip s) as [| d t] eqn:Hr.
  - destruct (is_space c0) eqn:Hc; [discriminate |].
    cbn. intros H. injection H as <-. exact Hc.
  - intros H. apply IH. exact H.
Qed.

Lemma strip_head (s : pystr) (c : N) :
  head (strip s) = Some c -> is_space c = false.
Proof.
  unfold strip.
  destruct (lstrip_head s) as [-> | (c0 & t & -> & Hc)]; [discriminate |].
  cbn [rstrip]. destruct (rstrip t); rewrite ?Hc; cbn; intros H;
    injection H as <-; exact Hc.
Qed.

(** X5: whatever the level, the text returned by [simplify_text] has no
    white space at either end: stripping it again changes nothing, and
    neither its first nor its last character is a white-space character. *)
Theorem X5_simplify_text_stripped (text level : pystr) :
  let out := TextAnalyzer.simplify_text text level in
  strip out = out
  /\ (forall c, head out = Some c -> is_space c = false)
  /\ (forall c, last out = Some c -> is_space c = false).
Proof.
  intros out. subst out. unfold TextAnalyzer.simplify_text.
  set (simplified := if bool_decide (level = py "simple") then _ else _).
  split; [apply strip_idemp |].
  split; intros c H.
  - eapply strip_head; eassumption.
  - unfold strip in H. eapply rstrip_last; eassumption.
Qed.

Lemma collect_complex_spec (lib : Lib) (threshold : Z) (l c : list pystr) :
  TextAnalyzer.collect_complex lib threshold l = Some c ->
  (forall w, w ∈ c <-> w ∈ l /\ exists n, syllable_count lib w = Some n /\ threshold <= n)
  /\ (NoDup l -> NoDup c).
Proof.
  revert c. induction l as [| x l IH]; intros c H.
  - cbn in H. injection H as <-. split; [| auto].
    intros w. split; [intros Hw; apply elem_of_nil in Hw; destruct Hw |].
    intros [Hw _]. exact Hw.
  - cbn [TextAnalyzer.collect_complex] in H.
    destruct (syllable_count lib x) as [n |] eqn:Hx;
      cbn [mbind option_bind] in H; [| discriminate].
    destruct (TextAnalyzer.collect_complex lib threshold l) as [c' |];
      cbn [mbind option_bind] in H; [| discriminate].
    injection H as <-.
    destruct (IH c' eq_refl) as [Hmem Hnd].
    destruct (Z.leb_spec threshold n) as [Hle | Hlt].
    + split.
      * intros w. rewrite !elem_of_cons, Hmem. split.
        -- intros [-> | [Hw Hn]]; [split; [auto | eauto] | split; [auto | exact Hn]].
        -- intros [[-> | Hw] Hn]; [auto | right; auto].
      * intros Hl. apply NoDup_cons in Hl. destruct Hl as [Hx' Hl].
        apply NoDup_cons. split; [| auto].
        intros Hin. apply Hmem in Hin. tauto.
    + split.
      * intros w. rewrite elem_of_cons, Hmem. split.
        -- intros [Hw Hn]. auto.
        -- intros [[-> | Hw] (m & Hm & Hle)]; [| eauto].
           rewrite Hx in Hm. injection Hm as <-. lia.
      * intros Hl. apply NoDup_cons in Hl. destruct Hl as [_ Hl]. auto.
Qed.

Lemma collect_complex_none (lib : Lib) (threshold : Z) (l : list pystr) :
  TextAnalyzer.collect_complex lib threshold l = None
  <-> exists w, w ∈ l /\ syllable_count lib w = None.
Proof.
  induction l as [| x l IH].
  - cbn. split; [discriminate |]. intros (w & Hw & _).
    apply elem_of_nil in Hw. destruct Hw.
  - cbn [TextAnalyzer.collect_complex].
    destruct (syllable_count lib x) as [n |] eqn:Hx; cbn [mbind option_bind].
    + destruct (TextAnalyzer.collect_complex lib threshold l) as [c |];
        cbn [mbind option_bind].
      * split; [discriminate |]. intros (w & Hw & Hnone).
        apply elem_of_cons in Hw. destruct Hw as [-> | Hw]; [congruence |].
        assert (Hex : exists w, w ∈ l /\ syllable_count lib w = None) by eauto.
        apply IH in Hex. discriminate.
      * split; [| reflexivity]. intros _.
        destruct (proj1 IH eq_refl) as (w & Hw & Hnone).
        exists w. split; [apply elem_of_cons; auto | exact Hnone].
    + split; [| reflexivity]. intros _. exists x.
      split; [apply elem_of_cons; auto | exact Hx].
Qed.

(** X6: the complex words of a text come back sorted in the order of
    strings and without repetition; a word is among them exactly when
    [re.findall] finds it in the lowered text and textstat counts at least
    [syllable_threshold] syllables in it. The call raises exactly when
    textstat raises on one of the words found. *)
Theorem X6_complex_words_sorted_unique
    (lib : Lib) (rt : Runtime) (text : pystr) (syllable_threshold : Z) :
  set_order_ok (set_order_str rt) ->
  let found := TextAnalyzer.findall_letters lib (str_lower lib text) in
  (forall words,
     TextAnalyzer.identify_complex_words lib rt text syllable_threshold = Some words ->
     Sorted pystr_le words
     /\ NoDup words
     /\ (forall w, w ∈ words
                   <-> w ∈ found
                       /\ exists n, syllable_count lib w = Some n
                                    /\ syllable_threshold <= n))
  /\ (TextAnalyzer.identify_complex_words lib rt text syllable_threshold = None
      <-> exists w, w ∈ found /\ syllable_count lib w = None).
Proof.
  intros ok found. unfold TextAnalyzer.identify_complex_words. fold found.
  destruct (ok found) as [Hnd Hel].
  split.
  - intros words H.
    destruct (TextAnalyzer.collect_complex lib syllable_threshold
                (set_order_str rt found)) as [c |] eqn:Hc;
      cbn [mbind option_bind] in H; [| discriminate].
    injection H as <-.
    destruct (collect_complex_spec lib syllable_threshold _ _ Hc) as [Hmem Hndc].
    split; [apply (@Sorted_merge_sort _ pystr_le _ pystr_le_total) |].
    unfold sorted_str.
    split.
    + rewrite merge_sort_Permutation. auto.
    + intros w. rewrite merge_sort_Permutation, Hmem, Hel. reflexivity.
  - destruct (TextAnalyzer.collect_complex lib syllable_threshold
                (set_order_str rt found)) as [c |] eqn:Hc;
      cbn [mbind option_bind].
    + split; [discriminate |]. intros (w & Hw & Hnone).
      assert (Hex : exists w, w ∈ set_order_str rt found /\ syllable_count lib w = None).
      { exists w. split; [apply Hel; exact Hw | exact Hnone]. }
      apply (proj2 (collect_complex_none lib syllable_threshold _)) in Hex.
      congruence.
    + split; [| reflexivity]. intros _.
      apply (proj1 (collect_complex_none _ _ _)) in Hc.
      destruct Hc as (w & Hw & Hnone).
      exists w. split; [apply Hel; exact Hw | exact Hnone].
Qed.

Lemma seven_scores_keys (fk fre fog smog ari cli dc : float) (key : string) :
  is_Some ((<["dale_chall_readability" := dc]>
            (<["coleman_liau_index" := cli]>
            (<["automated_readability_index" := ari]>
            (<["smog_index" := smog]>
            (<["gunning_fog" := fog]>
            (<["flesch_reading_ease" := fre]>
            (<["flesch_kincaid_grade" := fk]> (∅ : gmap string float)))))))) !! key)
  <-> key ∈ metric_names.
Proof.
  unfold metric_names. rewrite !elem_of_cons, elem_of_nil.
  destruct (decide (key = "dale_chall_readability")) as [-> | H1];
    [simplify_map_eq; split; [tauto | eauto] |].
  destruct (decide (key = "coleman_liau_index")) as [-> | H2];
    [simplify_map_eq; split; [tauto | eauto] |].
  destruct (decide (key = "automated_readability_index")) as [-> | H3];
    [simplify_map_eq; split; [tauto | eauto] |].
  destruct (decide (key = "smog_index")) as [-> | H4];
    [simplify_map_eq; split; [tauto | eauto] |].
  destruct (decide (key = "gunning_fog")) as [-> | H5];
    [simplify_map_eq; split; [tauto | eauto] |].
  destruct (decide (key = "flesch_reading_ease")) as [-> | H6];
    [simplify_map_eq; split; [tauto | eauto] |].
  destruct (decide (key = "flesch_kincaid_grade")) as [-> | H7];
    [simplify_map_eq; split; [tauto | eauto] |].
  simplify_map_eq. split; [intros [x Hx]; discriminate | tauto].
Qed.

(** X7: a dictionary returned by [get_readability_metrics] holds the same
    seven scores whatever the text, so a reader of any of them never
    misses a key; and the call returns exactly when the text is shorter
    than 10 characters once stripped, or none of the seven textstat
    functions raises on it. *)
Theorem X7_readability_metrics_keys (lib : Lib) (text : pystr) :
  (forall metrics,
     TextAnalyzer.get_readability_metrics lib text = Some metrics ->
     forall key, is_Some (metrics !! key) <-> key ∈ metric_names)
  /\ (is_Some (TextAnalyzer.get_readability_metrics lib text)
      <-> is_short text = true
          \/ (is_Some (flesch_kincaid_grade lib text)
              /\ is_Some (flesch_reading_ease lib text)
              /\ is_Some (gunning_fog lib text)
              /\ is_Some (smog_index lib text)
              /\ is_Some (automated_readability_index lib text)
              /\ is_Some (coleman_liau_index lib text)
              /\ is_Some (dale_chall_readability_score lib text))).
Proof.
  unfold TextAnalyzer.get_readability_metrics, is_short.
  destruct (bool_decide (text = []) || (length (strip text) <? 10)%nat).
  - split.
    + intros metrics H key. injection H as <-. apply seven_scores_keys.
    + split; [auto | eauto].
  - destruct (flesch_kincaid_grade lib text) as [fk |];
      [| split; [discriminate |]; cbn; split;
         [intros [x Hx]; discriminate
         | intros [Hf | [[x Hx] _]]; discriminate]].
    destruct (flesch_reading_ease lib text) as [fre |];
      [| split; [discriminate |]; cbn; split;
         [intros [x Hx]; discriminate
         | intros [Hf | (_ & [x Hx] & _)]; discriminate]].
    destruct (gunning_fog lib text) as [fog |];
      [| split; [discriminate |]; cbn; split;
         [intros [x Hx]; discriminate
         | intros [Hf | (_ & _ & [x Hx] & _)]; discriminate]].
    destruct (smog_index lib text) as [smog |];
      [| split; [discriminate |]; cbn; split;
         [intros [x Hx]; discriminate
         | intros [Hf | (_ & _ & _ & [x Hx] & _)]; discriminate]].
    destruct (automated_readability_index lib text) as [ari |];
      [| split; [discriminate |]; cbn; split;
         [intros [x Hx]; discriminate
         | intros [Hf | (_ & _ & _ & _ & [x Hx] & _)]; discriminate]].
    destruct (coleman_liau_index lib text) as [cli |];
      [| split; [discriminate |]; cbn; split;
         [intros [x Hx]; discriminate
         | intros [Hf | (_ & _ & _ & _ & _ & [x Hx] & _)]; discriminate]].
    destruct (dale_chall_readability_score lib text) as [dc |];
      [| split; [discriminate |]; cbn; split;
         [intros [x Hx]; discriminate
         | intros [Hf | (_ & _ & _ & _ & _ & _ & [x Hx])]; discriminate]].
    cbn [mbind option_bind]. split.
    + intros metrics H key. injection H as <-. apply seven_scores_keys.
    + split; [intros _; right; repeat split; eauto | eauto].
Qed.

Lemma omap_length_le {A B} (f : A -> option B) (l : list A) :
  (length (omap f l) <= length l)%nat.
Proof.
  induction l as [| x l IH]; [reflexivity |].
  rewrite omap_cons_match. destruct (f x); cbn [length]; lia.
Qed.




(** ** modules/bias_detector.py *)

Ltac bind_some H :=
  repeat match type of H with
         | (?m ≫= _) = Some _ =>
             let E := fresh "E" in
             destruct m eqn:E; cbn [mbind option_bind] in H; [| discriminate H]
         end.

Lemma jargon_indicators_shape (lib : Lib) (rt : Runtime) (text : pystr) :
  let jargon :=
    omap BiasDetector.jargon_indicator
         (TextAnalyzer.identify_jargon_patterns lib rt text) in
  (length jargon <= 4)%nat
  /\ Forall (fun i => BiasIndicator.bias_type i = LANGUAGE_COMPLEXITY
                      /\ BiasIndicator.severity i <> HIGH
                      /\ BiasIndicator.affected_content_segment i = None) jargon.
Proof.
  intros jargon. subst jargon. split.
  - unfold TextAnalyzer.identify_jargon_patterns.
    destruct (map strip _).
    + etransitivity; [apply omap_length_le |].
      etransitivity; [apply omap_length_le | reflexivity].
    + rewrite omap_app, length_app.
      change (length (omap BiasDetector.jargon_indicator [_])) with 0%nat.
      rewrite Nat.add_0_r.
      etransitivity; [apply omap_length_le |].
      etransitivity; [apply omap_length_le | reflexivity].
  - apply Forall_forall. intros i Hi. apply list_elem_of_omap in Hi.
    destruct Hi as (p & _ & Hp). destruct p; cbn in Hp; [| discriminate].
    injection Hp as <-. cbn. repeat split. discriminate.
Qed.

Lemma complexity_bias_parts (lib : Lib) (rt : Runtime) (self : BiasDetector.t)
    (content : pystr) (metrics : gmap string float) (inds : list BiasIndicator.t) :
  BiasDetector._detect_language_complexity_bias lib rt self content metrics
    = Some inds ->
  exists grade rest,
    inds = grade ++ rest
    /\ (length grade <= 1)%nat
    /\ (length rest <= 5)%nat
    /\ Forall (fun i => BiasIndicator.bias_type i = LANGUAGE_COMPLEXITY
                        /\ BiasIndicator.severity i <> HIGH
                        /\ BiasIndicator.affected_content_segment i = None) rest
    /\ Forall (fun i =>
                 BiasIndicator.bias_type i = LANGUAGE_COMPLEXITY
                 /\ ((BiasIndicator.severity i = HIGH
                      /\ BiasIndicator.affected_content_segment i
                         = Some (take 200 content)
                      /\ fge (dict_get metrics "flesch_kincaid_grade" 0%float)
                             (BiasDetector.complexity_threshold_high self) = true)
                     \/ (BiasIndicator.severity i = MEDIUM
                         /\ BiasIndicator.affected_content_segment i = None)))
              grade.
Proof.
  intros H. unfold BiasDetector._detect_language_complexity_bias in H.
  destruct (TextAnalyzer.identify_complex_words lib rt content 3) as [words |];
    cbn [mbind option_bind] in H; [| discriminate].
  injection H as <-.
  destruct (jargon_indicators_shape lib rt content) as [Hjl Hjf].
  set (jargon := omap BiasDetector.jargon_indicator _) in *.
  assert (Hgrade : forall (c1 c2 : float) (d1 d2 : pystr) grade,
    grade = (if fge (dict_get metrics "flesch_kincaid_grade" 0%float)
                    (BiasDetector.complexity_threshold_high self)
             then [] ++ [ {| BiasIndicator.bias_type := LANGUAGE_COMPLEXITY;
                             BiasIndicator.severity := HIGH;
                             BiasIndicator.confidence := c1;
                             BiasIndicator.description := d1;
                             BiasIndicator.affected_content_segment :=
                               Some (if (200 <? length content)%nat
                                     then take 200 content else content) |} ]
             else if fge (dict_get metrics "flesch_kincaid_grade" 0%float)
                         (BiasDetector.complexity_threshold_medium self)
                  then [] ++ [ {| BiasIndicator.bias_type := LANGUAGE_COMPLEXITY;
                                  BiasIndicator.severity := MEDIUM;
                                  BiasIndicator.confidence := c2;
                                  BiasIndicator.description := d2;
                                  BiasIndicator.affected_content_segment := None |} ]
                  else []) ->
    (length grade <= 1)%nat
    /\ Forall (fun i =>
                 BiasIndicator.bias_type i = LANGUAGE_COMPLEXITY
                 /\ ((BiasIndicator.severity i = HIGH
                      /\ BiasIndicator.affected_content_segment i
                         = Some (take 200 content)
                      /\ fge (dict_get metrics "flesch_kincaid_grade" 0%float)
                             (BiasDetector.complexity_threshold_high self) = true)
                     \/ (BiasIndicator.severity i = MEDIUM
                         /\ BiasIndicator.affected_content_segment i = None)))
              grade).
  { intros c1 c2 d1 d2 grade ->.
    destruct (fge _ (BiasDetector.complexity_threshold_high self)) eqn:Hhi.
    - cbn [app]. split; [cbn [length]; lia |]. constructor; [| constructor].
      cbn [BiasIndicator.bias_type BiasIndicator.severity
           BiasIndicator.affected_content_segment].
      split; [reflexivity |]. left. split; [reflexivity |].
      split; [| reflexivity].
      destruct (200 <? length content)%nat eqn:Hlen; [reflexivity |].
      apply Nat.ltb_ge in Hlen. rewrite take_ge by lia. reflexivity.
    - destruct (fge _ (BiasDetector.complexity_threshold_medium self)).
      + split; [cbn; lia |]. constructor; [| constructor].
        cbn. split; [reflexivity |]. right. split; reflexivity.
      + split; [cbn; lia | constructor]. }
  destruct (10 <? length words)%nat.
  - match goal with
    | |- exists grade rest, (?X ++ jargon) ++ ?W = _ /\ _ =>
        exists X, (jargon ++ W); destruct (Hgrade _ _ _ _ X eq_refl) as [Hgl Hgf]
    end.
    split; [symmetry; apply app_assoc |].
    split; [exact Hgl |].
    split; [rewrite length_app; cbn [length]; lia |].
    split; [| exact Hgf].
    apply Forall_app. split; [exact Hjf |].
    constructor; [| constructor]. cbn. repeat split. discriminate.
  - match goal with
    | |- exists grade rest, ?X ++ jargon = _ /\ _ =>
        exists X, jargon; destruct (Hgrade _ _ _ _ X eq_refl) as [Hgl Hgf]
    end.
    split; [reflexivity |].
    split; [exact Hgl |].
    split; [lia |].
    split; [exact Hjf | exact Hgf].
Qed.

Lemma pace_mismatch_shape (lib : Lib) (patterns : list (gmap string pyval))
    (pace : list BiasIndicator.t) :
  BiasDetector._detect_pace_mismatch lib patterns = Some pace ->
  (length pace <= 1)%nat
  /\ Forall (fun i => BiasIndicator.bias_type i = PACE_MISMATCH
                      /\ BiasIndicator.affected_content_segment i = None) pace
  /\ (BiasDetector.response_times patterns = [] -> pace = []).
Proof.
  unfold BiasDetector._detect_pace_mismatch. intros H.
  destruct patterns as [| p ps].
  { injection H as <-. split; [cbn; lia |]. split; [constructor | reflexivity]. }
  destruct (BiasDetector.response_times (p :: ps)) as [| t ts].
  { injection H as <-. split; [cbn; lia |]. split; [constructor | reflexivity]. }
  cbv zeta in H. bind_some H. injection H as <-.
  split; [| split].
  - destruct (fgt _ 0.5%float); [cbn; lia |].
    destruct (fgt _ 0.3%float); cbn; lia.
  - destruct (fgt _ 0.5%float); [repeat constructor |].
    destruct (fgt _ 0.3%float); repeat constructor.
  - discriminate.
Qed.

Lemma prior_exposure_shape (lib : Lib) (patterns : list (gmap string pyval))
    (exposure : list BiasIndicator.t) :
  BiasDetector._detect_prior_exposure_gaps lib patterns = Some exposure ->
  (length exposure <= 2)%nat
  /\ Forall (fun i => BiasIndicator.bias_type i = PRIOR_EXPOSURE_GAP
                      /\ BiasIndicator.affected_content_segment i = None) exposure.
Proof.
  unfold BiasDetector._detect_prior_exposure_gaps. intros H.
  cbv zeta in H. bind_some H.
  destruct (Z.of_nat (length patterns) =? 0).
  { injection H as <-. split; [cbn; lia | constructor]. }
  bind_some H. injection H as <-.
  destruct (fgt _ 1.5%float), (fgt _ 0.4%float);
    (split; [cbn; lia | repeat constructor]).
Qed.

Lemma representation_shape (lib : Lib) (content : pystr) :
  let issues := BiasDetector._detect_representation_issues lib content in
  (length issues <= 2)%nat
  /\ Forall (fun i => BiasIndicator.bias_type i = REPRESENTATION_ISSUE
                      /\ BiasIndicator.severity i = LOW
                      /\ BiasIndicator.affected_content_segment i = None) issues
  /\ ((length content <= 300)%nat -> issues = []).
Proof.
  intros issues. subst issues. unfold BiasDetector._detect_representation_issues.
  destruct (Nat.ltb_spec 500 (length content)) as [H5 | H5],
           (Nat.ltb_spec 300 (length content)) as [H3 | H3];
    try (exfalso; lia);
    cbn [andb];
    repeat match goal with
           | |- context [if ?b then _ else _] => destruct b
           end;
    (split; [cbn; lia |]); (split; [repeat constructor |]);
    intros Hlen; try reflexivity; exfalso; lia.
Qed.

(** What [detect_bias] returns, when it returns. *)
Lemma detect_bias_parts (lib : Lib) (rt : Runtime) (self : BiasDetector.t)
    (request : BiasDetectionRequest.t) (result : BiasDetectionResult.t) :
  BiasDetector.detect_bias lib rt self request = Some result ->
  let content := BiasDetectionRequest.content_text request in
  let patterns := BiasDetectionRequest.interaction_patterns request in
  exists metrics complexity pace exposure,
    TextAnalyzer.get_readability_metrics lib content = Some metrics
    /\ BiasDetector._detect_language_complexity_bias lib rt self content metrics
       = Some complexity
    /\ ((length pace <= 1)%nat
        /\ Forall (fun i => BiasIndicator.bias_type i = PACE_MISMATCH
                            /\ BiasIndicator.affected_content_segment i = None) pace
        /\ (BiasDetector.response_times patterns = [] -> pace = []))
    /\ ((length exposure <= 2)%nat
        /\ Forall (fun i => BiasIndicator.bias_type i = PRIOR_EXPOSURE_GAP
                            /\ BiasIndicator.affected_content_segment i = None)
                  exposure
        /\ (patterns = [] -> exposure = []))
    /\ BiasDetectionResult.indicators result
       = complexity ++ pace ++ exposure
         ++ BiasDetector._detect_representation_issues lib content
    /\ BiasDetectionResult.recommended_actions result
       = BiasDetector._build_recommendations rt (BiasDetectionResult.indicators result)
    /\ BiasDetectionResult.bias_detected result
       = (0 <? length (BiasDetectionResult.indicators result))%nat
    /\ BiasDetectionResult.readability_score result
       = dict_get metrics "flesch_kincaid_grade" 0%float
    /\ BiasDetectionResult.complexity_level result
       = TextAnalyzer.get_complexity_level
           (BiasDetectionResult.readability_score result).
Proof.
  intros H content patterns. unfold BiasDetector.detect_bias in H.
  fold content patterns in H. cbv zeta in H.
  destruct (TextAnalyzer.get_readability_metrics lib content) as [metrics |] eqn:Hm;
    cbn [mbind option_bind] in H; [| discriminate].
  destruct (BiasDetector._detect_language_complexity_bias lib rt self content metrics)
    as [complexity |] eqn:Hc; cbn [mbind option_bind] in H; [| discriminate].
  destruct (match patterns with
            | [] => Some []
            | _ => BiasDetector._detect_pace_mismatch lib patterns
            end) as [pace |] eqn:Hp;
    cbn [mbind option_bind] in H; [| discriminate].
  destruct (match patterns with
            | [] => Some []
            | _ => BiasDetector._detect_prior_exposure_gaps lib patterns
            end) as [exposure |] eqn:He;
    cbn [mbind option_bind] in H; [| discriminate].
  destruct (BiasDetector._generate_audit_hash _ _ _ _) as [h |];
    cbn [mbind option_bind] in H; [| discriminate].
  injection H as <-. cbn [BiasDetectionResult.indicators
    BiasDetectionResult.recommended_actions BiasDetectionResult.bias_detected
    BiasDetectionResult.readability_score BiasDetectionResult.complexity_level].
  exists metrics, complexity, pace, exposure.
  split; [reflexivity |]. split; [exact Hc |].
  split.
  { destruct patterns as [| p ps] eqn:Hpat.
    - injection Hp as <-. split; [cbn; lia |]. split; [constructor | reflexivity].
    - apply pace_mismatch_shape in Hp. exact Hp. }
  split.
  { destruct patterns as [| p ps] eqn:Hpat.
    - injection He as <-. split; [cbn; lia |]. split; [constructor | reflexivity].
    - apply prior_exposure_shape in He. destruct He as [He1 He2].
      split; [exact He1 |]. split; [exact He2 | discriminate]. }
  cbn [app]. rewrite <- !app_assoc. repeat split; reflexivity.
Qed.

Lemma of_type_app (b : BiasType) (l1 l2 : list BiasIndicator.t) :
  of_type b (l1 ++ l2) = of_type b l1 ++ of_type b l2.
Proof. apply List.filter_app. Qed.

Lemma of_type_same (b : BiasType) (l : list BiasIndicator.t) :
  Forall (fun i => BiasIndicator.bias_type i = b) l -> of_type b l = l.
Proof.
  induction 1 as [| i l Hi _ IH]; [reflexivity |].
  unfold of_type in *. cbn [List.filter].
  rewrite bool_decide_eq_true_2 by exact Hi. f_equal. exact IH.
Qed.

Lemma of_type_other (b b' : BiasType) (l : list BiasIndicator.t) :
  b' <> b ->
  Forall (fun i => BiasIndicator.bias_type i = b') l -> of_type b l = [].
Proof.
  intros Hne. induction 1 as [| i l Hi _ IH]; [reflexivity |].
  unfold of_type in *. cbn [List.filter].
  rewrite bool_decide_eq_false_2 by congruence. exact IH.
Qed.

Lemma of_type_nonempty (b : BiasType) (l : list BiasIndicator.t) :
  of_type b l <> [] <-> exists i, i ∈ l /\ BiasIndicator.bias_type i = b.
Proof.
  unfold of_type. split.
  - intros Hne. destruct (List.filter _ l) as [| i t] eqn:Hf; [congruence |].
    assert (Hin : In i (List.filter
                          (fun i => bool_decide (BiasIndicator.bias_type i = b)) l))
      by (rewrite Hf; left; reflexivity).
    apply filter_In in Hin. destruct Hin as [Hin Hb].
    exists i. split; [apply list_elem_of_In; exact Hin |].
    apply bool_decide_eq_true_1 in Hb. exact Hb.
  - intros (i & Hin & Hb) Hnil.
    assert (Hf : In i (List.filter
                         (fun i => bool_decide (BiasIndicator.bias_type i = b)) l)).
    { apply filter_In. split; [apply list_elem_of_In; exact Hin |].
      apply bool_decide_eq_true_2. exact Hb. }
    rewrite Hnil in Hf. destruct Hf.
Qed.

Lemma Forall_weaken_type (b : BiasType) (P : BiasIndicator.t -> Prop)
    (l : list BiasIndicator.t) :
  Forall (fun i => BiasIndicator.bias_type i = b /\ P i) l ->
  Forall (fun i => BiasIndicator.bias_type i = b) l.
Proof.
  intros H. eapply Forall_impl; [exact H |]. intros i [Hi _]. exact Hi.
Qed.

(** The four groups of a result, by their types. *)
Lemma detect_bias_groups (lib : Lib) (rt : Runtime) (self : BiasDetector.t)
    (request : BiasDetectionRequest.t) (result : BiasDetectionResult.t) :
  BiasDetector.detect_bias lib rt self request = Some result ->
  let inds := BiasDetectionResult.indicators result in
  let content := BiasDetectionRequest.content_text request in
  let patterns := BiasDetectionRequest.interaction_patterns request in
  BiasDetector._detect_language_complexity_bias lib rt self content
    (default ∅ (TextAnalyzer.get_readability_metrics lib content))
    = Some (of_type LANGUAGE_COMPLEXITY inds)
  /\ ((length (of_type PACE_MISMATCH inds) <= 1)%nat
      /\ (BiasDetector.response_times patterns = []
          -> of_type PACE_MISMATCH inds = []))
  /\ ((length (of_type PRIOR_EXPOSURE_GAP inds) <= 2)%nat
      /\ (patterns = [] -> of_type PRIOR_EXPOSURE_GAP inds = []))
  /\ of_type REPRESENTATION_ISSUE inds
     = BiasDetector._detect_representation_issues lib content
  /\ inds = of_type LANGUAGE_COMPLEXITY inds ++ of_type PACE_MISMATCH inds
            ++ of_type PRIOR_EXPOSURE_GAP inds ++ of_type REPRESENTATION_ISSUE inds.
Proof.
  intros H inds content patterns.
  destruct (detect_bias_parts _ _ _ _ _ H)
    as (metrics & c & p & e & Hm & Hc & (Hpl & Hpf & Hp0) & (Hel & Hef & He0)
        & Hinds & _).
  fold content patterns in Hm, Hc, Hp0, He0, Hinds. fold inds in Hinds.
  destruct (representation_shape lib content) as (Hrl & Hrf & _).
  set (r := BiasDetector._detect_representation_issues lib content) in *.
  destruct (complexity_bias_parts _ _ _ _ _ _ Hc)
    as (grade & rest & Hceq & _ & _ & Hrest & Hgrade).
  assert (Hcf : Forall (fun i => BiasIndicator.bias_type i = LANGUAGE_COMPLEXITY) c).
  { rewrite Hceq. apply Forall_app. split.
    - eapply Forall_impl; [exact Hgrade |]. intros i [Hi _]. exact Hi.
    - eapply Forall_impl; [exact Hrest |]. intros i [Hi _]. exact Hi. }
  apply Forall_weaken_type in Hpf, Hef, Hrf.
  assert (H1 : of_type LANGUAGE_COMPLEXITY inds = c).
  { rewrite Hinds, !of_type_app, (of_type_same _ c Hcf).
    rewrite (of_type_other LANGUAGE_COMPLEXITY PACE_MISMATCH p) by first [discriminate | assumption].
    rewrite (of_type_other LANGUAGE_COMPLEXITY PRIOR_EXPOSURE_GAP e) by first [discriminate | assumption].
    rewrite (of_type_other LANGUAGE_COMPLEXITY REPRESENTATION_ISSUE r) by first [discriminate | assumption].
    rewrite ?app_nil_r. reflexivity. }
  assert (H2 : of_type PACE_MISMATCH inds = p).
  { rewrite Hinds, !of_type_app, (of_type_same _ p Hpf).
    rewrite (of_type_other PACE_MISMATCH LANGUAGE_COMPLEXITY c) by first [discriminate | assumption].
    rewrite (of_type_other PACE_MISMATCH PRIOR_EXPOSURE_GAP e) by first [discriminate | assumption].
    rewrite (of_type_other PACE_MISMATCH REPRESENTATION_ISSUE r) by first [discriminate | assumption].
    rewrite ?app_nil_r. reflexivity. }
  assert (H3 : of_type PRIOR_EXPOSURE_GAP inds = e).
  { rewrite Hinds, !of_type_app, (of_type_same _ e Hef).
    rewrite (of_type_other PRIOR_EXPOSURE_GAP LANGUAGE_COMPLEXITY c) by first [discriminate | assumption].
    rewrite (of_type_other PRIOR_EXPOSURE_GAP PACE_MISMATCH p) by first [discriminate | assumption].
    rewrite (of_type_other PRIOR_EXPOSURE_GAP REPRESENTATION_ISSUE r) by first [discriminate | assumption].
    rewrite ?app_nil_r. reflexivity. }
  assert (H4 : of_type REPRESENTATION_ISSUE inds = r).
  { rewrite Hinds, !of_type_app, (of_type_same _ r Hrf).
    rewrite (of_type_other REPRESENTATION_ISSUE LANGUAGE_COMPLEXITY c) by first [discriminate | assumption].
    rewrite (of_type_other REPRESENTATION_ISSUE PACE_MISMATCH p) by first [discriminate | assumption].
    rewrite (of_type_other REPRESENTATION_ISSUE PRIOR_EXPOSURE_GAP e) by first [discriminate | assumption].
    rewrite ?app_nil_r. reflexivity. }
  rewrite H1, H2, H3, H4, Hm. cbn [default].
  split; [exact Hc |].
  split; [split; assumption |].
  split; [split; assumption |].
  split; [reflexivity | exact Hinds].
Qed.

(** X9: the indicators of a result come in four groups, in the order of
    the four detectors: language complexity, pace mismatch, prior exposure
    gap, representation issue; the list is its own grouping by type. There
    are at most six indicators of language complexity, one of pace
    mismatch, two of prior exposure and two of representation, none of
    representation for a content of at most 300 characters, and
    [bias_detected] tells whether there is any indicator. *)
Theorem X9_indicators_grouped
    (lib : Lib) (rt : Runtime) (self : BiasDetector.t)
    (request : BiasDetectionRequest.t) (result : BiasDetectionResult.t) :
  BiasDetector.detect_bias lib rt self request = Some result ->
  let inds := BiasDetectionResult.indicators result in
  inds = of_type LANGUAGE_COMPLEXITY inds ++ of_type PACE_MISMATCH inds
         ++ of_type PRIOR_EXPOSURE_GAP inds ++ of_type REPRESENTATION_ISSUE inds
  /\ (length (of_type LANGUAGE_COMPLEXITY inds) <= 6)%nat
  /\ (length (of_type PACE_MISMATCH inds) <= 1)%nat
  /\ (length (of_type PRIOR_EXPOSURE_GAP inds) <= 2)%nat
  /\ (length (of_type REPRESENTATION_ISSUE inds) <= 2)%nat
  /\ ((length (BiasDetectionRequest.content_text request) <= 300)%nat
      -> of_type REPRESENTATION_ISSUE inds = [])
  /\ (BiasDetectionResult.bias_detected result = true <-> inds <> []).
Proof.
  intros H inds.
  destruct (detect_bias_groups _ _ _ _ _ H)
    as (Hc & (Hp & _) & (He & _) & Hr & Hgroups).
  fold inds in Hc, Hp, He, Hr, Hgroups.
  destruct (detect_bias_parts _ _ _ _ _ H)
    as (m0 & c0 & p0 & e0 & _ & _ & _ & _ & _ & _ & Hd & _).
  fold inds in Hd.
  destruct (representation_shape lib (BiasDetectionRequest.content_text request))
    as (Hrl & _ & Hr0).
  split; [exact Hgroups |].
  split.
  { destruct (complexity_bias_parts _ _ _ _ _ _ Hc)
      as (grade & rest & -> & Hgl & Hrl' & _).
    rewrite length_app. lia. }
  split; [exact Hp |]. split; [exact He |].
  split; [rewrite Hr; exact Hrl |].
  split; [rewrite Hr; exact Hr0 |].
  rewrite Hd. destruct inds; cbn; split; congruence.
Qed.

Lemma X9_indicators_grouped_witness :
  exists result,
    BiasDetector.detect_bias sample_lib run1 BiasDetector.init dense_request
      = Some result
    /\ let inds := BiasDetectionResult.indicators result in
       inds = of_type LANGUAGE_COMPLEXITY inds ++ of_type PACE_MISMATCH inds
              ++ of_type PRIOR_EXPOSURE_GAP inds ++ of_type REPRESENTATION_ISSUE inds
       /\ (length (of_type LANGUAGE_COMPLEXITY inds) <= 6)%nat
       /\ (length (of_type PACE_MISMATCH inds) <= 1)%nat
       /\ (length (of_type PRIOR_EXPOSURE_GAP inds) <= 2)%nat
       /\ (length (of_type REPRESENTATION_ISSUE inds) <= 2)%nat
       /\ ((length (BiasDetectionRequest.content_text dense_request) <= 300)%nat
           -> of_type REPRESENTATION_ISSUE inds = [])
       /\ (BiasDetectionResult.bias_detected result = true <-> inds <> []).
Proof.
  assert (H : exists result,
            BiasDetector.detect_bias sample_lib run1 BiasDetector.init dense_request
            = Some result)
    by (vm_compute; eexists; reflexivity).
  destruct H as [result H]. exists result.
  split; [exact H |].
  exact (X9_indicators_grouped sample_lib run1 BiasDetector.init dense_request
           result H).
Defined.

Ltac in_hyp H :=
  apply list_elem_of_In in H; cbn in H; intuition discriminate.

Ltac in_goal :=
  apply list_elem_of_In; cbn; repeat (first [left; reflexivity | right]); auto.

Lemma recommendations_spec (rt : Runtime) (inds : list BiasIndicator.t)
    (a : AdaptationType) :
  set_order_ok (set_order_adaptation rt) ->
  a ∈ BiasDetector._build_recommendations rt inds
  <-> exists i, i ∈ inds
                /\ a ∈ BiasDetector.recommended_for (BiasIndicator.bias_type i).
Proof.
  intros ok. unfold BiasDetector._build_recommendations.
  destruct (ok (flat_map (fun indicator =>
                            BiasDetector.recommended_for
                              (BiasIndicator.bias_type indicator)) inds))
    as [_ Hel].
  rewrite Hel, list_elem_of_In, in_flat_map.
  split; intros (i & Hi & Ha); exists i;
    (split; [apply list_elem_of_In; exact Hi | apply list_elem_of_In; exact Ha]).
Qed.

(** X10: the recommended actions of a result hold no action twice (so at
    most four), and each action is there exactly when an indicator asks for
    it: simplify-language for language complexity or a prior exposure gap,
    adjust-pace for a pace mismatch, add-examples for a prior exposure gap
    or a representation issue, change-representation for a representation
    issue. There is no recommended action exactly when no bias was
    detected. *)
Theorem X10_recommended_actions
    (lib : Lib) (rt : Runtime) (self : BiasDetector.t)
    (request : BiasDetectionRequest.t) (result : BiasDetectionResult.t) :
  set_order_ok (set_order_adaptation rt) ->
  BiasDetector.detect_bias lib rt self request = Some result ->
  let inds := BiasDetectionResult.indicators result in
  let actions := BiasDetectionResult.recommended_actions result in
  NoDup actions
  /\ (length actions <= 4)%nat
  /\ (SIMPLIFY_LANGUAGE ∈ actions
      <-> of_type LANGUAGE_COMPLEXITY inds <> []
          \/ of_type PRIOR_EXPOSURE_GAP inds <> [])
  /\ (ADJUST_PACE ∈ actions <-> of_type PACE_MISMATCH inds <> [])
  /\ (ADD_EXAMPLES ∈ actions
      <-> of_type PRIOR_EXPOSURE_GAP inds <> []
          \/ of_type REPRESENTATION_ISSUE inds <> [])
  /\ (CHANGE_REPRESENTATION ∈ actions <-> of_type REPRESENTATION_ISSUE inds <> [])
  /\ (actions = [] <-> BiasDetectionResult.bias_detected result = false).
Proof.
  intros ok H inds actions.
  destruct (detect_bias_parts _ _ _ _ _ H)
    as (m0 & c0 & p0 & e0 & _ & _ & _ & _ & _ & Ha & Hd & _).
  fold inds in Ha, Hd. fold actions in Ha.
  assert (Hnd : NoDup actions).
  { rewrite Ha. unfold BiasDetector._build_recommendations. apply ok. }
  assert (Hin : forall a, a ∈ actions
            <-> exists i, i ∈ inds
                  /\ a ∈ BiasDetector.recommended_for (BiasIndicator.bias_type i)).
  { intros a. rewrite Ha. apply recommendations_spec. exact ok. }
  split; [exact Hnd |].
  split.
  { assert (Hsub : actions ⊆+ [SIMPLIFY_LANGUAGE; ADD_EXAMPLES;
                               CHANGE_REPRESENTATION; ADJUST_PACE]).
    { apply NoDup_submseteq; [exact Hnd |].
      intros a _. destruct a; in_goal. }
    apply submseteq_length in Hsub. exact Hsub. }
  rewrite !of_type_nonempty.
  split.
  { rewrite Hin. split.
    - intros (i & Hi & Ha'). destruct (BiasIndicator.bias_type i) eqn:Ht;
        first [ solve [left; exists i; split; assumption]
              | solve [right; exists i; split; assumption]
              | exfalso; in_hyp Ha' ].
    - intros [(i & Hi & Ht) | (i & Hi & Ht)]; exists i;
        (split; [exact Hi | rewrite Ht; in_goal]). }
  split.
  { rewrite Hin. split.
    - intros (i & Hi & Ha'). destruct (BiasIndicator.bias_type i) eqn:Ht;
        first [ solve [exists i; split; assumption] | exfalso; in_hyp Ha' ].
    - intros (i & Hi & Ht); exists i;
        (split; [exact Hi | rewrite Ht; in_goal]). }
  split.
  { rewrite Hin. split.
    - intros (i & Hi & Ha'). destruct (BiasIndicator.bias_type i) eqn:Ht;
        first [ solve [left; exists i; split; assumption]
              | solve [right; exists i; split; assumption]
              | exfalso; in_hyp Ha' ].
    - intros [(i & Hi & Ht) | (i & Hi & Ht)]; exists i;
        (split; [exact Hi | rewrite Ht; in_goal]). }
  split.
  { rewrite Hin. split.
    - intros (i & Hi & Ha'). destruct (BiasIndicator.bias_type i) eqn:Ht;
        first [ solve [exists i; split; assumption] | exfalso; in_hyp Ha' ].
    - intros (i & Hi & Ht); exists i;
        (split; [exact Hi | rewrite Ht; in_goal]). }
  rewrite Hd. split.
  - intros Hnil. destruct inds as [| i inds']; [reflexivity |]. exfalso.
    assert (Hex : exists a, a ∈ BiasDetector.recommended_for (BiasIndicator.bias_type i)).
    { destruct (BiasIndicator.bias_type i); cbn; eexists; apply list_elem_of_here. }
    destruct Hex as [a Ha'].
    assert (Hmem : a ∈ actions).
    { apply Hin. exists i. split; [apply list_elem_of_here | exact Ha']. }
    rewrite Hnil in Hmem. apply elem_of_nil in Hmem. exact Hmem.
  - intros Hz. destruct inds as [| i inds']; [| discriminate Hz].
    destruct actions as [| a actions'] eqn:Hact; [reflexivity |]. exfalso.
    assert (Hmem : a ∈ a :: actions') by apply list_elem_of_here.
    apply Hin in Hmem. destruct Hmem as (i & Hi & _).
    apply elem_of_nil in Hi. exact Hi.
Qed.

Lemma X10_recommended_actions_witness :
  set_order_ok (set_order_adaptation run1)
  /\ exists result,
       BiasDetector.detect_bias sample_lib run1 BiasDetector.init dense_request
         = Some result
       /\ let inds := BiasDetectionResult.indicators result in
          let actions := BiasDetectionResult.recommended_actions result in
          NoDup actions
          /\ (length actions <= 4)%nat
          /\ (SIMPLIFY_LANGUAGE ∈ actions
              <-> of_type LANGUAGE_COMPLEXITY inds <> []
                  \/ of_type PRIOR_EXPOSURE_GAP inds <> [])
          /\ (ADJUST_PACE ∈ actions <-> of_type PACE_MISMATCH inds <> [])
          /\ (ADD_EXAMPLES ∈ actions
              <-> of_type PRIOR_EXPOSURE_GAP inds <> []
                  \/ of_type REPRESENTATION_ISSUE inds <> [])
          /\ (CHANGE_REPRESENTATION ∈ actions
              <-> of_type REPRESENTATION_ISSUE inds <> [])
          /\ (actions = [] <-> BiasDetectionResult.bias_detected result = false).
Proof.
  assert (ok : set_order_ok (set_order_adaptation run1))
    by exact remove_dups_order_ok.
  assert (H : exists result,
            BiasDetector.detect_bias sample_lib run1 BiasDetector.init dense_request
            = Some result)
    by (vm_compute; eexists; reflexivity).
  destruct H as [result H].
  split; [exact ok |]. exists result. split; [exact H |].
  exact (X10_recommended_actions sample_lib run1 BiasDetector.init dense_request
           result ok H).
Defined.

Lemma response_times_absent (patterns : list (gmap string pyval)) :
  (forall p, p ∈ patterns -> p !! "response_time_ms" = None) ->
  BiasDetector.response_times patterns = [].
Proof.
  unfold BiasDetector.response_times.
  induction patterns as [| p ps IH]; intros H; [reflexivity |].
  rewrite omap_cons_match, (H p) by apply list_elem_of_here.
  apply IH. intros q Hq. apply H. apply list_elem_of_further. exact Hq.
Qed.

(** X11: without timing data the detector never reports a pace mismatch
    and never recommends adjust-pace: this holds for a request none of
    whose interaction patterns has the key "response_time_ms". If the
    request has no interaction pattern at all, every indicator is of
    language complexity or of representation. *)
Theorem X11_no_timing_no_pace
    (lib : Lib) (rt : Runtime) (self : BiasDetector.t)
    (request : BiasDetectionRequest.t) (result : BiasDetectionResult.t) :
  set_order_ok (set_order_adaptation rt) ->
  BiasDetector.detect_bias lib rt self request = Some result ->
  (forall p, p ∈ BiasDetectionRequest.interaction_patterns request ->
             p !! "response_time_ms" = None) ->
  let inds := BiasDetectionResult.indicators result in
  (forall i, i ∈ inds -> BiasIndicator.bias_type i <> PACE_MISMATCH)
  /\ (ADJUST_PACE ∉ BiasDetectionResult.recommended_actions result)
  /\ (BiasDetectionRequest.interaction_patterns request = [] ->
      forall i, i ∈ inds ->
                BiasIndicator.bias_type i = LANGUAGE_COMPLEXITY
                \/ BiasIndicator.bias_type i = REPRESENTATION_ISSUE).
Proof.
  intros ok H Hno inds.
  destruct (detect_bias_groups _ _ _ _ _ H)
    as (_ & (_ & Hp0) & (_ & He0) & _ & _).
  fold inds in Hp0, He0.
  destruct (detect_bias_parts _ _ _ _ _ H)
    as (m0 & c0 & p0 & e0 & _ & _ & _ & _ & _ & Ha & _).
  fold inds in Ha.
  specialize (Hp0 (response_times_absent _ Hno)).
  assert (Hnone : forall i, i ∈ inds -> BiasIndicator.bias_type i <> PACE_MISMATCH).
  { intros i Hi Ht.
    assert (Hne : of_type PACE_MISMATCH inds <> [])
      by (apply of_type_nonempty; eauto).
    exact (Hne Hp0). }
  split; [exact Hnone |].
  split.
  - rewrite Ha. intros Hin. apply recommendations_spec in Hin; [| exact ok].
    destruct Hin as (i & Hi & Hrec).
    pose proof (Hnone i Hi) as Hnp.
    destruct (BiasIndicator.bias_type i); [| congruence | |]; in_hyp Hrec.
  - intros Hnil i Hi. specialize (He0 Hnil).
    pose proof (Hnone i Hi) as Hnp.
    destruct (BiasIndicator.bias_type i) eqn:Ht; [auto | congruence | | auto].
    exfalso.
    assert (Hne : of_type PRIOR_EXPOSURE_GAP inds <> [])
      by (apply of_type_nonempty; eauto).
    exact (Hne He0).
Qed.

Lemma X11_no_timing_no_pace_witness :
  set_order_ok (set_order_adaptation run1)
  /\ (forall p, p ∈ BiasDetectionRequest.interaction_patterns exposure_request ->
                p !! "response_time_ms" = None)
  /\ exists result,
       BiasDetector.detect_bias ascii_lib run1 BiasDetector.init exposure_request
         = Some result
       /\ let inds := BiasDetectionResult.indicators result in
          (forall i, i ∈ inds -> BiasIndicator.bias_type i <> PACE_MISMATCH)
          /\ (ADJUST_PACE ∉ BiasDetectionResult.recommended_actions result)
          /\ (BiasDetectionRequest.interaction_patterns exposure_request = [] ->
              forall i, i ∈ inds ->
                        BiasIndicator.bias_type i = LANGUAGE_COMPLEXITY
                        \/ BiasIndicator.bias_type i = REPRESENTATION_ISSUE).
Proof.
  assert (ok : set_order_ok (set_order_adaptation run1))
    by exact remove_dups_order_ok.
  assert (Hno : forall p,
            p ∈ BiasDetectionRequest.interaction_patterns exposure_request ->
            p !! "response_time_ms" = None).
  { intros p Hp. cbn in Hp.
    repeat (apply elem_of_cons in Hp; destruct Hp as [-> | Hp];
            [vm_compute; reflexivity |]).
    apply elem_of_nil in Hp. destruct Hp. }
  assert (H : exists result,
            BiasDetector.detect_bias ascii_lib run1 BiasDetector.init exposure_request
            = Some result)
    by (vm_compute; eexists; reflexivity).
  destruct H as [result H].
  split; [exact ok |]. split; [exact Hno |].
  exists result. split; [exact H |].
  exact (X11_no_timing_no_pace ascii_lib run1 BiasDetector.init exposure_request
           result ok H Hno).
Defined.

(** Two positive floats [a < b], given by their mantissas and exponents:
    what is at most [a] is not at least [b]. *)
Lemma leb_below (x a b : float) (ma mb : positive) (ea eb : Z) :
  Prim2SF a = S754_finite false ma ea ->
  Prim2SF b = S754_finite false mb eb ->
  ea < eb \/ (ea = eb /\ (ma < mb)%positive) ->
  PrimFloat.leb x a = true -> PrimFloat.leb b x = false.
Proof.
  intros Ha Hb Hlt. rewrite !FloatAxioms.leb_spec, Ha, Hb.
  unfold SFleb, SFcompare.
  destruct (Prim2SF x) as [s | s | | s m e]; try destruct s;
    try reflexivity; try discriminate.
  change (PosDef.Pos.compare_cont Eq m ma) with (Pos.compare m ma).
  change (PosDef.Pos.compare_cont Eq mb m) with (Pos.compare mb m).
  destruct (Z.compare_spec e ea) as [He | He | He];
    destruct (Z.compare_spec eb e) as [He' | He' | He'];
    try reflexivity; try discriminate; try (exfalso; lia).
  destruct (Pos.compare_spec m ma) as [Hm | Hm | Hm];
    destruct (Pos.compare_spec mb m) as [Hm' | Hm' | Hm'];
    try reflexivity; try discriminate; exfalso; lia.
Qed.

(** X12: the complexity level of a result agrees with its indicators. With
    the configured thresholds (12 and 8), an indicator of language
    complexity of severity HIGH is reported only for a content whose level
    is "complex"; it is then the first indicator of the result and carries
    the first 200 characters of the content. No other indicator carries a
    content segment. *)
Theorem X12_high_severity_is_complex
    (lib : Lib) (rt : Runtime)
    (request : BiasDetectionRequest.t) (result : BiasDetectionResult.t) :
  BiasDetector.detect_bias lib rt BiasDetector.init request = Some result ->
  let inds := BiasDetectionResult.indicators result in
  (forall i, i ∈ inds ->
     BiasIndicator.bias_type i = LANGUAGE_COMPLEXITY ->
     BiasIndicator.severity i = HIGH ->
     BiasDetectionResult.complexity_level result = py "complex"
     /\ head inds = Some i
     /\ BiasIndicator.affected_content_segment i
        = Some (take 200 (BiasDetectionRequest.content_text request)))
  /\ (forall i, i ∈ inds ->
        BiasIndicator.affected_content_segment i = None
        \/ (BiasIndicator.bias_type i = LANGUAGE_COMPLEXITY
            /\ BiasIndicator.severity i = HIGH)).
Proof.
  intros H inds.
  destruct (detect_bias_parts _ _ _ _ _ H)
    as (metrics & c & p & e & Hm & Hc & (_ & Hpf & _) & (_ & Hef & _)
        & Hinds & _ & _ & Hscore & Hlevel).
  fold inds in Hinds.
  destruct (representation_shape lib (BiasDetectionRequest.content_text request))
    as (_ & Hrf & _).
  set (r := BiasDetector._detect_representation_issues lib _) in *.
  destruct (complexity_bias_parts _ _ _ _ _ _ Hc)
    as (grade & rest & -> & Hgl & _ & Hrest & Hgrade).
  rewrite Forall_forall in Hpf, Hef, Hrf, Hrest, Hgrade.
  split.
  - intros i Hi Ht Hs. rewrite Hinds in Hi.
    rewrite !elem_of_app in Hi.
    destruct Hi as [[Hi | Hi] | [Hi | [Hi | Hi]]].
    + destruct (Hgrade i Hi) as [_ [(_ & Hseg & Hge) | (Hmed & _)]];
        [| congruence].
      split; [| split; [| exact Hseg]].
      * rewrite Hlevel, Hscore. unfold TextAnalyzer.get_complexity_level.
        cbn [BiasDetector.complexity_threshold_high BiasDetector.init] in Hge.
        unfold settings.COMPLEXITY_THRESHOLD_HIGH, fge in Hge.
        set (fk := dict_get metrics "flesch_kincaid_grade" 0%float) in *.
        destruct (fle fk 6%float) eqn:H6.
        { unfold fle in H6.
          rewrite (leb_below fk 6%float 12.0%float 6755399441055744 6755399441055744
                     (-50) (-49) eq_refl eq_refl ltac:(left; lia) H6) in Hge.
          discriminate Hge. }
        destruct (fle fk 10%float) eqn:H10; [| reflexivity].
        unfold fle in H10.
        rewrite (leb_below fk 10%float 12.0%float 5629499534213120 6755399441055744
                   (-49) (-49) eq_refl eq_refl ltac:(right; split; lia) H10) in Hge.
        discriminate Hge.
      * rewrite Hinds. destruct grade as [| g grade']; [inversion Hi |].
        destruct grade' as [| g' grade'']; [| cbn in Hgl; lia].
        apply list_elem_of_singleton in Hi. subst g. reflexivity.
    + destruct (Hrest i Hi) as (_ & Hnh & _). congruence.
    + destruct (Hpf i Hi) as [Ht' _]. congruence.
    + destruct (Hef i Hi) as [Ht' _]. congruence.
    + destruct (Hrf i Hi) as [Ht' _]. congruence.
  - intros i Hi. rewrite Hinds in Hi. rewrite !elem_of_app in Hi.
    destruct Hi as [[Hi | Hi] | [Hi | [Hi | Hi]]].
    + destruct (Hgrade i Hi) as [Ht [(Hs & _) | (_ & Hnone)]]; auto.
    + destruct (Hrest i Hi) as (_ & _ & Hnone). auto.
    + destruct (Hpf i Hi) as [_ Hnone]. auto.
    + destruct (Hef i Hi) as [_ Hnone]. auto.
    + destruct (Hrf i Hi) as (_ & _ & Hnone). auto.
Qed.

Lemma X12_high_severity_is_complex_witness :
  exists result,
    BiasDetector.detect_bias sample_lib run1 BiasDetector.init dense_request
      = Some result
    /\ let inds := BiasDetectionResult.indicators result in
       (forall i, i ∈ inds ->
          BiasIndicator.bias_type i = LANGUAGE_COMPLEXITY ->
          BiasIndicator.severity i = HIGH ->
          BiasDetectionResult.complexity_level result = py "complex"
          /\ head inds = Some i
          /\ BiasIndicator.affected_content_segment i
             = Some (take 200 (BiasDetectionRequest.content_text dense_request)))
       /\ (forall i, i ∈ inds ->
             BiasIndicator.affected_content_segment i = None
             \/ (BiasIndicator.bias_type i = LANGUAGE_COMPLEXITY
                 /\ BiasIndicator.severity i = HIGH)).
Proof.
  assert (H : exists result,
            BiasDetector.detect_bias sample_lib run1 BiasDetector.init dense_request
            = Some result)
    by (vm_compute; eexists; reflexivity).
  destruct H as [result H]. exists result. split; [exact H |].
  exact (X12_high_severity_is_complex sample_lib run1 dense_request result H).
Defined.

Lemma summary_fold (l : list BiasIndicator.t) (sc tc : gmap pystr Z) :
  fold_left BiasDetector.summary_step l (sc, tc)
  = (fold_left (fun m i => BiasDetector.count_up m
                             (SeverityLevelEnum.value (BiasIndicator.severity i)))
               l sc,
     fold_left (fun m i => BiasDetector.count_up m
                             (BiasTypeEnum.value (BiasIndicator.bias_type i)))
               l tc).
Proof.
  revert sc tc. induction l as [| i l IH]; intros sc tc; [reflexivity |].
  cbn [fold_left BiasDetector.summary_step]. apply IH.
Qed.

Lemma count_fold {A} (f : A -> pystr) (l : list A) (m : gmap pystr Z) (k : pystr) :
  fold_left (fun m x => BiasDetector.count_up m (f x)) l m !! k
  = match length (List.filter (fun x => bool_decide (f x = k)) l) with
    | O => m !! k
    | S n => Some (default 0 (m !! k) + Z.of_nat (S n))
    end.
Proof.
  revert m. induction l as [| x l IH]; intros m; [reflexivity |].
  cbn [fold_left List.filter]. rewrite IH. unfold BiasDetector.count_up.
  destruct (bool_decide (f x = k)) eqn:Hx.
  - apply bool_decide_eq_true_1 in Hx. subst k.
    rewrite lookup_insert_eq. cbn [length default]. unfold id.
    destruct (length (List.filter _ l)); f_equal; lia.
  - apply bool_decide_eq_false_1 in Hx.
    rewrite lookup_insert_ne by exact Hx. reflexivity.
Qed.

Lemma sum_counts_up (m : gmap pystr Z) (k : pystr) :
  sum_counts (BiasDetector.count_up m k) = sum_counts m + 1.
Proof.
  unfold sum_counts, BiasDetector.count_up.
  destruct (m !! k) as [v |] eqn:Hk; cbn [default]; unfold id.
  - rewrite <- insert_delete_eq.
    rewrite map_fold_insert_L;
      [| intros; lia | apply lookup_delete_eq].
    rewrite (map_fold_delete_L _ _ k v m); [lia | intros; lia | exact Hk].
  - rewrite map_fold_insert_L; [lia | intros; lia | exact Hk].
Qed.

Lemma sum_count_fold {A} (f : A -> pystr) (l : list A) (m : gmap pystr Z) :
  sum_counts (fold_left (fun m x => BiasDetector.count_up m (f x)) l m)
  = sum_counts m + Z.of_nat (length l).
Proof.
  revert m. induction l as [| x l IH]; intros m; [cbn; lia |].
  cbn [fold_left length]. rewrite IH, sum_counts_up. lia.
Qed.

Lemma max_go_rank {A} (key : A -> option nat) (rank : A -> nat) :
  (forall x, key x = Some (rank x)) ->
  forall xs best,
    exists h, BiasDetector.max_go key best (rank best) xs = Some h
              /\ h ∈ best :: xs
              /\ forall x, x ∈ best :: xs -> (rank x <= rank h)%nat.
Proof.
  intros Hkey. induction xs as [| x xs IH]; intros best.
  - exists best. split; [reflexivity |]. split; [apply list_elem_of_here |].
    intros x Hx. apply list_elem_of_singleton in Hx. subst x. lia.
  - cbn [BiasDetector.max_go]. rewrite Hkey. cbn [mbind option_bind].
    destruct (Nat.ltb_spec (rank best) (rank x)) as [Hlt | Hge].
    + destruct (IH x) as (h & Hh & Hin & Hmax).
      exists h. split; [exact Hh |]. split.
      * apply list_elem_of_further. exact Hin.
      * intros y Hy. apply elem_of_cons in Hy. destruct Hy as [-> | Hy].
        -- specialize (Hmax x (list_elem_of_here _ _)). lia.
        -- apply Hmax. exact Hy.
    + destruct (IH best) as (h & Hh & Hin & Hmax).
      exists h. split; [exact Hh |]. split.
      * apply elem_of_cons in Hin. destruct Hin as [-> | Hin];
          [apply list_elem_of_here |].
        apply list_elem_of_further, list_elem_of_further. exact Hin.
      * intros y Hy. apply elem_of_cons in Hy. destruct Hy as [-> | Hy];
          [apply Hmax, list_elem_of_here |].
        apply elem_of_cons in Hy. destruct Hy as [-> | Hy].
        -- specialize (Hmax best (list_elem_of_here _ _)). lia.
        -- apply Hmax. apply list_elem_of_further. exact Hy.
Qed.

(** X13: the summary of a list of indicators that is not empty. It holds
    the number of indicators; a distribution by severity and one by type
    in which a value has an entry exactly when some indicator has it, the
    entry being the number of those indicators, so that the counts of each
    distribution add up to the number of indicators; and the highest
    severity, which is the severity of one of the indicators and below
    none of them. *)
Theorem X13_bias_summary_counts (indicators : list BiasIndicator.t) :
  indicators <> [] ->
  exists summary severity_counts type_counts highest,
    BiasDetector.get_bias_summary indicators = Some summary
    /\ summary !! "bias_detected" = Some (BiasDetector.SBool true)
    /\ summary !! "total_indicators"
       = Some (BiasDetector.SInt (Z.of_nat (length indicators)))
    /\ summary !! "severity_distribution" = Some (BiasDetector.SDict severity_counts)
    /\ summary !! "type_distribution" = Some (BiasDetector.SDict type_counts)
    /\ summary !! "highest_severity"
       = Some (BiasDetector.SStr (SeverityLevelEnum.value highest))
    /\ (forall key, severity_counts !! key
                    = count_entry (with_severity key indicators))
    /\ (forall key, type_counts !! key = count_entry (with_type key indicators))
    /\ sum_counts severity_counts = Z.of_nat (length indicators)
    /\ sum_counts type_counts = Z.of_nat (length indicators)
    /\ highest ∈ map BiasIndicator.severity indicators
    /\ (forall i, i ∈ indicators ->
          (severity_rank (BiasIndicator.severity i) <= severity_rank highest)%nat).
Proof.
  intros Hne. destruct indicators as [| i0 rest]; [congruence |].
  set (indicators := i0 :: rest).
  unfold BiasDetector.get_bias_summary. fold indicators.
  rewrite summary_fold.
  assert (Hkey : forall s,
            BiasDetector.index [py "low"; py "medium"; py "high"]
              (SeverityLevelEnum.value s) = Some (severity_rank s))
    by (intros []; vm_compute; reflexivity).
  destruct (max_go_rank _ severity_rank Hkey
              (map BiasIndicator.severity rest) (BiasIndicator.severity i0))
    as (h & Hh & Hin & Hmax).
  subst indicators. cbn [map BiasDetector.max_by].
  rewrite Hkey. cbn [mbind option_bind]. rewrite Hh. cbn [mbind option_bind].
  eexists _, _, _, h. split; [reflexivity |].
  split; [reflexivity |]. split; [reflexivity |].
  split; [reflexivity |]. split; [reflexivity |]. split; [reflexivity |].
  split.
  { intros key. rewrite count_fold, lookup_empty. unfold with_severity, count_entry.
    destruct (length _); [reflexivity |]. cbn [default]. f_equal. }
  split.
  { intros key. rewrite count_fold, lookup_empty. unfold with_type, count_entry.
    destruct (length _); [reflexivity |]. cbn [default]. f_equal. }
  split; [rewrite sum_count_fold; unfold sum_counts; rewrite map_fold_empty; lia |].
  split; [rewrite sum_count_fold; unfold sum_counts; rewrite map_fold_empty; lia |].
  split; [exact Hin |].
  intros i Hi. apply Hmax.
  change (BiasIndicator.severity i0 :: map BiasIndicator.severity rest)
    with (map BiasIndicator.severity (i0 :: rest)).
  apply list_elem_of_In, in_map, list_elem_of_In. exact Hi.
Qed.

Lemma X13_bias_summary_counts_witness :
  indicators_a <> []
  /\ exists summary severity_counts type_counts highest,
       BiasDetector.get_bias_summary indicators_a = Some summary
       /\ summary !! "bias_detected" = Some (BiasDetector.SBool true)
       /\ summary !! "total_indicators"
          = Some (BiasDetector.SInt (Z.of_nat (length indicators_a)))
       /\ summary !! "severity_distribution"
          = Some (BiasDetector.SDict severity_counts)
       /\ summary !! "type_distribution" = Some (BiasDetector.SDict type_counts)
       /\ summary !! "highest_severity"
          = Some (BiasDetector.SStr (SeverityLevelEnum.value highest))
       /\ (forall key, severity_counts !! key
                       = count_entry (with_severity key indicators_a))
       /\ (forall key, type_counts !! key
                       = count_entry (with_type key indicators_a))
       /\ sum_counts severity_counts = Z.of_nat (length indicators_a)
       /\ sum_counts type_counts = Z.of_nat (length indicators_a)
       /\ highest ∈ map BiasIndicator.severity indicators_a
       /\ (forall i, i ∈ indicators_a ->
             (severity_rank (BiasIndicator.severity i) <= severity_rank highest)%nat).
Proof.
  assert (H : indicators_a <> []) by discriminate.
  split; [exact H |].
  exact (X13_bias_summary_counts indicators_a H).
Defined.

(** ** modules/adaptive_engine.py *)

Lemma find_some_seq (f : nat -> bool) (start len i : nat) :
  List.find f (seq start len) = Some i ->
  (start <= i < start + len)%nat
  /\ f i = true
  /\ forall j, (start <= j < i)%nat -> f j = false.
Proof.
  revert start. induction len as [| len IH]; intros start H; [discriminate |].
  cbn [seq List.find] in H. destruct (f start) eqn:Hs.
  - injection H as <-. split; [lia |]. split; [exact Hs |]. intros j Hj. lia.
  - destruct (IH _ H) as (Hi & Hf & Hbefore).
    split; [lia |]. split; [exact Hf |].
    intros j Hj. destruct (decide (j = start)) as [-> | Hne]; [exact Hs |].
    apply Hbefore. lia.
Qed.

(** X14: where the reflection prompt goes. [_add_reflection_prompts]
    either returns the content as it is, or inserts the prompt once,
    directly behind a sentence end that stands in the 50 characters from
    the midpoint and is the first one there, and never at the very end of
    the text; the text before and behind the prompt is that of the
    content. *)
Theorem X14_reflection_prompt_placement (content : pystr) :
  let out := AdaptiveEngine._add_reflection_prompts content in
  let midpoint := (length content / 2)%nat in
  out = content
  \/ exists before c after,
       content = before ++ [c] ++ after
       /\ out = before ++ [c] ++ AdaptiveEngine.reflection ++ after
       /\ is_sentence_end c = true
       /\ after <> []
       /\ (midpoint <= length before < midpoint + 50)%nat
       /\ (forall j d, (midpoint <= j < length before)%nat ->
                       content !! j = Some d -> is_sentence_end d = false).
Proof.
  intros out midpoint. subst out.
  unfold AdaptiveEngine._add_reflection_prompts. fold midpoint.
  destruct (List.find _ _) as [i |] eqn:Hfind; [right | left; reflexivity].
  apply find_some_seq in Hfind. destruct Hfind as (Hi & Hbreak & Hbefore).
  unfold AdaptiveEngine.is_break in Hbreak.
  destruct (content !! i) as [c |] eqn:Hc; [| discriminate].
  apply andb_true_iff in Hbreak. destruct Hbreak as [Hend Hlen].
  apply Nat.ltb_lt in Hlen.
  exists (take i content), c, (drop (S i) content).
  assert (Hti : length (take i content) = i) by (rewrite length_take; lia).
  split; [symmetry; apply take_drop_middle; exact Hc |].
  split.
  { rewrite Nat.add_1_r, (take_S_r _ _ _ Hc), <- !app_assoc. reflexivity. }
  split; [exact Hend |].
  split.
  { intros Hnil. apply (f_equal length) in Hnil.
    rewrite length_drop in Hnil. cbn in Hnil. lia. }
  rewrite Hti. split; [lia |].
  intros j d Hj Hd. specialize (Hbefore j Hj).
  unfold AdaptiveEngine.is_break in Hbefore. rewrite Hd in Hbefore.
  apply andb_false_iff in Hbefore. destruct Hbefore as [Hb | Hb]; [exact Hb |].
  apply Nat.ltb_ge in Hb. lia.
Qed.

Lemma prefix_eqb_take (p s : pystr) :
  prefix_eqb p s = true -> take (length p) s = p.
Proof.
  revert s. induction p as [| a p IH]; intros s H; [reflexivity |].
  destruct s as [| c s]; [discriminate |].
  cbn [prefix_eqb] in H. apply andb_true_iff in H. destruct H as [Hac Hp].
  apply N.eqb_eq in Hac. subst c. cbn [length take]. f_equal. apply IH. exact Hp.
Qed.

Lemma split_on_go_nonempty (sep : pystr) (s : pystr) :
  forall skip cur, split_on_go sep skip cur s <> [].
Proof.
  induction s as [| c s IH]; intros skip cur; [discriminate |].
  cbn [split_on_go]. destruct skip; [| apply IH].
  destruct (prefix_eqb sep (c :: s)); [discriminate | apply IH].
Qed.

Lemma join_cons (sep p : pystr) (rest : list pystr) :
  rest <> [] -> join sep (p :: rest) = p ++ sep ++ join sep rest.
Proof. destruct rest; [congruence | reflexivity]. Qed.

(** While [skip] characters of a separator are still to be dropped, they
    are the next characters of the text. *)
Lemma join_split_on_go (sep : pystr) (s : pystr) :
  sep <> [] ->
  forall skip cur,
    (skip < length sep)%nat ->
    take skip s = drop (length sep - skip) sep ->
    join sep (split_on_go sep skip cur s) = rev cur ++ drop skip s.
Proof.
  intros Hsep. induction s as [| c s IH]; intros skip cur Hskip Htake.
  - cbn. rewrite drop_nil, app_nil_r. reflexivity.
  - cbn [split_on_go]. destruct skip as [| k].
    + destruct (prefix_eqb sep (c :: s)) eqn:Hp.
      * rewrite join_cons by apply split_on_go_nonempty.
        apply prefix_eqb_take in Hp.
        destruct sep as [| a sep']; [congruence |].
        cbn [length take] in Hp. injection Hp as -> Hp.
        replace (length (a :: sep') - 1)%nat with (length sep')
          by (cbn [length]; lia).
        rewrite IH.
        -- cbn [rev app drop]. f_equal. f_equal.
           rewrite <- Hp at 1. apply take_drop.
        -- cbn [length]. lia.
        -- replace (length (a :: sep') - length sep')%nat with 1%nat
             by (cbn [length]; lia).
           cbn [drop]. exact Hp.
      * rewrite IH; [| exact Hskip | rewrite Nat.sub_0_r, drop_all; reflexivity].
        cbn [rev drop]. rewrite <- app_assoc. reflexivity.
    + rewrite IH.
      * reflexivity.
      * lia.
      * cbn [take] in Htake.
        assert (Hd : drop (length sep - k) sep
                     = drop 1 (drop (length sep - S k) sep)).
        { rewrite drop_drop. f_equal. lia. }
        rewrite Hd, <- Htake. reflexivity.
Qed.

(** [sep.join(s.split(sep))] is [s]. *)
Lemma join_split_on (sep s : pystr) :
  sep <> [] -> join sep (split_on sep s) = s.
Proof.
  intros Hsep. unfold split_on.
  rewrite join_split_on_go.
  - reflexivity.
  - exact Hsep.
  - destruct sep; [congruence | cbn; lia].
  - rewrite Nat.sub_0_r, drop_all. reflexivity.
Qed.

Lemma non_space_app (a b : pystr) :
  non_space_chars (a ++ b) = non_space_chars a ++ non_space_chars b.
Proof. apply List.filter_app. Qed.

Lemma non_space_join (sep : pystr) (parts : list pystr) :
  non_space_chars sep = [] ->
  non_space_chars (join sep parts) = non_space_chars (concat parts).
Proof.
  intros Hsep. induction parts as [| p rest IH]; [reflexivity |].
  destruct rest as [| q rest].
  - cbn. rewrite app_nil_r. reflexivity.
  - change (join sep (p :: q :: rest)) with (p ++ sep ++ join sep (q :: rest)).
    change (concat (p :: q :: rest)) with (p ++ concat (q :: rest)).
    rewrite !non_space_app, Hsep, IH. reflexivity.
Qed.

Lemma non_space_split_after_sentence (s : pystr) :
  forall prev_end in_gap cur,
    non_space_chars (concat (split_after_sentence_go prev_end in_gap cur s))
    = non_space_chars (rev cur ++ s).
Proof.
  induction s as [| c s IH]; intros prev_end in_gap cur.
  - cbn. rewrite app_nil_r. reflexivity.
  - cbn [split_after_sentence_go].
    assert (Hpush : non_space_chars (rev (c :: cur) ++ s)
                    = non_space_chars (rev cur ++ c :: s)).
    { cbn [rev]. rewrite <- app_assoc. reflexivity. }
    destruct (is_space c) eqn:Hc.
    + assert (Hskip : non_space_chars (rev cur ++ c :: s)
                      = non_space_chars (rev cur ++ s)).
      { rewrite !non_space_app. f_equal. unfold non_space_chars.
        cbn [List.filter]. rewrite Hc. reflexivity. }
      destruct in_gap; [rewrite IH, Hskip; reflexivity |].
      destruct prev_end.
      * cbn [concat]. rewrite non_space_app, IH, Hskip. cbn [rev app].
        rewrite non_space_app. reflexivity.
      * rewrite IH. exact Hpush.
    + rewrite IH. exact Hpush.
Qed.

Lemma concat_groups_of_three (n : nat) :
  forall sentences, (length sentences <= n)%nat ->
    concat (AdaptiveEngine.groups_of_three sentences) = sentences.
Proof.
  induction n as [| n IH]; intros sentences Hn.
  - destruct sentences; [reflexivity | cbn in Hn; lia].
  - destruct sentences as [| a [| b [| c rest]]]; try reflexivity.
    cbn [AdaptiveEngine.groups_of_three concat app].
    rewrite IH by (cbn in Hn; lia). reflexivity.
Qed.

Lemma non_space_lstrip (s : pystr) :
  non_space_chars (lstrip s) = non_space_chars s.
Proof.
  induction s as [| c s IH]; [reflexivity |].
  cbn [lstrip]. destruct (is_space c) eqn:Hc; [| reflexivity].
  unfold non_space_chars in *. cbn [List.filter]. rewrite Hc. exact IH.
Qed.

Lemma rstrip_nil_non_space (s : pystr) :
  rstrip s = [] -> non_space_chars s = [].
Proof.
  induction s as [| c s IH]; [reflexivity |].
  cbn [rstrip]. destruct (rstrip s) as [| d t]; [| discriminate].
  destruct (is_space c) eqn:Hc; [| discriminate].
  intros _. unfold non_space_chars in *. cbn [List.filter]. rewrite Hc.
  apply IH. reflexivity.
Qed.

Lemma strip_nil_non_space (s : pystr) :
  strip s = [] -> non_space_chars s = [].
Proof.
  unfold strip. intros H. apply rstrip_nil_non_space in H.
  rewrite non_space_lstrip in H. exact H.
Qed.

Lemma non_space_keep_chunks (chunks : list pystr) :
  non_space_chars
    (concat (List.filter (fun chunk => negb (bool_decide (strip chunk = [])))
                         chunks))
  = non_space_chars (concat chunks).
Proof.
  induction chunks as [| chunk chunks IH]; [reflexivity |].
  cbn [List.filter concat].
  destruct (bool_decide (strip chunk = [])) eqn:Hs; cbn [negb].
  - apply bool_decide_eq_true_1 in Hs.
    rewrite non_space_app, (strip_nil_non_space _ Hs), IH. reflexivity.
  - cbn [concat]. rewrite !non_space_app, IH. reflexivity.
Qed.

Lemma non_space_groups (groups : list (list pystr)) :
  non_space_chars (concat (map (join [space]) groups))
  = non_space_chars (concat (concat groups)).
Proof.
  induction groups as [| g groups IH]; [reflexivity |].
  cbn [map concat]. rewrite concat_app, !non_space_app, IH.
  rewrite non_space_join by reflexivity. reflexivity.
Qed.

(** The first piece cut by [split_after_sentence] ends a sentence. *)
Lemma split_after_sentence_first (s : pystr) :
  forall prev_end cur,
    (prev_end = true -> non_space_chars (rev cur) <> []) ->
    match split_after_sentence_go prev_end false cur s with
    | first :: _ :: _ => non_space_chars first <> []
    | _ => True
    end.
Proof.
  induction s as [| c s IH]; intros prev_end cur Hinv; [exact I |].
  cbn [split_after_sentence_go].
  assert (Hpush : non_space_chars (rev (c :: cur)) <> [] \/ is_space c = true).
  { destruct (is_space c) eqn:Hc; [right; reflexivity | left].
    cbn [rev]. rewrite non_space_app. unfold non_space_chars at 2.
    cbn [List.filter]. rewrite Hc. cbn [negb].
    intros Hnil. apply app_eq_nil in Hnil. destruct Hnil as [_ Hnil].
    discriminate. }
  destruct (is_space c) eqn:Hc.
  - destruct prev_end.
    + destruct (split_after_sentence_go false true [] s); [exact I |].
      apply Hinv. reflexivity.
    + apply IH. discriminate.
  - apply IH. intros _. destruct Hpush as [Hp | Hp]; [exact Hp | discriminate].
Qed.

(** X15: chunking touches nothing but white space. The chunks into which
    [_split_into_chunks] cuts a content hold, in order, exactly the
    characters of the content that are not white space; there is always
    at least one chunk; and for a content of three paragraphs or more the
    chunks are its paragraphs, from which the paragraph break gives the
    content back. *)
Theorem X15_chunks_keep_text (content : pystr) :
  let chunks := AdaptiveEngine._split_into_chunks content in
  non_space_chars (concat chunks) = non_space_chars content
  /\ chunks <> []
  /\ ((3 <= length (split_on AdaptiveEngine.paragraph_break content))%nat ->
      chunks = split_on AdaptiveEngine.paragraph_break content
      /\ join AdaptiveEngine.paragraph_break chunks = content).
Proof.
  intros chunks. subst chunks. unfold AdaptiveEngine._split_into_chunks.
  assert (Hpar : join AdaptiveEngine.paragraph_break
                   (split_on AdaptiveEngine.paragraph_break content) = content)
    by (apply join_split_on; discriminate).
  destruct (Nat.leb_spec 3 (length (split_on AdaptiveEngine.paragraph_break content)))
    as [H3 | H3].
  { split.
    - rewrite <- Hpar at 2. rewrite non_space_join by reflexivity. reflexivity.
    - split; [apply split_on_go_nonempty |]. intros _. split; [reflexivity | exact Hpar]. }
  destruct (Nat.ltb_spec (length (split_after_sentence content)) 4) as [H4 | H4].
  { split; [cbn; rewrite app_nil_r; reflexivity |].
    split; [discriminate | intros Hge; lia]. }
  split; [| split; [| intros Hge; lia]].
  - rewrite non_space_keep_chunks, non_space_groups.
    rewrite (concat_groups_of_three (length (split_after_sentence content)))
      by reflexivity.
    unfold split_after_sentence. rewrite non_space_split_after_sentence.
    reflexivity.
  - pose proof (split_after_sentence_first content false [] ltac:(discriminate))
      as Hfirst.
    fold (split_after_sentence content) in Hfirst.
    destruct (split_after_sentence content) as [| a [| b [| c rest]]];
      try (cbn in H4; lia).
    cbn [AdaptiveEngine.groups_of_three map List.filter].
    assert (Hchunk : strip (join [space] [a; b; c]) <> []).
    { intros Hnil. apply strip_nil_non_space in Hnil.
      cbn [join] in Hnil. rewrite non_space_app in Hnil.
      apply app_eq_nil in Hnil. destruct Hnil as [Hnil _]. exact (Hfirst Hnil). }
    rewrite bool_decide_eq_false_2 by exact Hchunk. discriminate.
Qed.

Lemma add_summary_changes (content : pystr) :
  AdaptiveEngine._add_summary content <> content
  /\ starts_with (py "**Quick Overview:** ") (AdaptiveEngine._add_summary content)
  /\ exists summary, AdaptiveEngine._add_summary content = summary ++ content
                     /\ (length summary <= 130)%nat.
Proof.
  unfold AdaptiveEngine._add_summary.
  set (first_sentence := default [] (head (split_after_sentence content))).
  set (shown := if (100 <? length first_sentence)%nat
                then take 100 first_sentence ++ py "..."
                else first_sentence).
  assert (Hshown : (length shown <= 103)%nat).
  { subst shown. destruct (Nat.ltb_spec 100 (length first_sentence)).
    - rewrite length_app, length_take. cbn [length]. change (length (py "...")) with 3%nat. lia.
    - lia. }
  split; [| split].
  - intros Heq. apply (f_equal length) in Heq.
    rewrite !length_app in Heq.
    change (length (py "**Quick Overview:** ")) with 20%nat in Heq. lia.
  - unfold starts_with. rewrite <- !app_assoc.
    change (length (py "**Quick Overview:** ")) with 20%nat.
    rewrite take_app_length'; reflexivity.
  - eexists. split; [reflexivity |].
    rewrite !length_app.
    change (length (py "**Quick Overview:** ")) with 20%nat.
    change (length AdaptiveEngine.paragraph_break) with 2%nat.
    change (length (py "---")) with 3%nat. lia.
Qed.

Lemma change_representation_changes
    (content : pystr) (signals : gmap string pyval) :
  let adapted := AdaptiveEngine._change_representation content signals in
  (1 <= length (AdaptedContent.changes_made adapted) <= 3)%nat
  /\ AdaptedContent.complexity_level adapted = py "moderate".
Proof.
  intros adapted. subst adapted. unfold AdaptiveEngine._change_representation.
  destruct ((200 <? length content)%nat && (count_char newline content <? 3)%nat);
    [destruct (bool_decide (AdaptiveEngine._convert_to_bullets content <> content)) |];
    (destruct (negb _);
     [match goal with
      | |- context [bool_decide (AdaptiveEngine._add_structure ?m <> ?m)] =>
          destruct (bool_decide (AdaptiveEngine._add_structure m <> m))
      end |]);
    (destruct (500 <? length content)%nat;
     [match goal with
      | |- context [bool_decide (AdaptiveEngine._add_summary ?m <> ?m)] =>
          destruct (bool_decide (AdaptiveEngine._add_summary m <> m))
      end |]);
    cbn [app AdaptedContent.changes_made AdaptedContent.complexity_level length];
    (split; [lia | reflexivity]).
Qed.

(** X16: the change-representation transform. Its result tells one to
    three changes and is of level "moderate". For a content of more than
    500 characters the summary is always added: the adapted content
    starts with the overview heading and "Added summary introduction" is
    the last of the changes. A content of at most 200 characters that
    holds a hyphen is returned as it is, with the single change
    "Reorganized content structure". *)
Theorem X16_change_representation
    (content : pystr) (signals : gmap string pyval) :
  let adapted := AdaptiveEngine._change_representation content signals in
  (1 <= length (AdaptedContent.changes_made adapted) <= 3)%nat
  /\ AdaptedContent.complexity_level adapted = py "moderate"
  /\ ((500 < length content)%nat ->
      starts_with (py "**Quick Overview:** ") (AdaptedContent.content adapted)
      /\ last (AdaptedContent.changes_made adapted)
         = Some (py "Added summary introduction"))
  /\ ((length content <= 200)%nat -> contains (py "-") content = true ->
      AdaptedContent.content adapted = content
      /\ AdaptedContent.changes_made adapted = [py "Reorganized content structure"]).
Proof.
  intros adapted. subst adapted. unfold AdaptiveEngine._change_representation.
  set (marked := existsb (fun marker => contains marker content)
                   [AdaptiveEngine.bullet; py "-"; py "*"; py "1."; py "2."]).
  assert (Hmarked : contains (py "-") content = true -> marked = true).
  { intros Hc. subst marked. cbn [existsb]. rewrite Hc.
    destruct (contains AdaptiveEngine.bullet content); reflexivity. }
  destruct ((200 <? length content)%nat && (count_char newline content <? 3)%nat)
    eqn:Hdense;
    [destruct (bool_decide (AdaptiveEngine._convert_to_bullets content <> content))
       eqn:Hbul |];
    (destruct marked eqn:Hm; cbn [negb];
     [| match goal with
        | |- context [bool_decide (AdaptiveEngine._add_structure ?m <> ?m)] =>
            destruct (bool_decide (AdaptiveEngine._add_structure m <> m)) eqn:Hstr
        end]);
    (destruct (Nat.ltb_spec 500 (length content)) as [H5 | H5];
     [match goal with
      | |- context [bool_decide (AdaptiveEngine._add_summary ?m <> ?m)] =>
          destruct (add_summary_changes m) as (Hneq & Hstart & _);
          rewrite (bool_decide_eq_true_2 _ Hneq)
      end |]);
    cbn [app AdaptedContent.changes_made AdaptedContent.complexity_level
         AdaptedContent.content length last];
    (split; [lia |]); (split; [reflexivity |]);
    (split; [intros Hlen; first [ exfalso; lia | split; [exact Hstart | reflexivity] ] |]);
    intros Hlen Hc;
    try (specialize (Hmarked Hc); discriminate Hmarked);
    try (apply andb_true_iff in Hdense; destruct Hdense as [Hd _];
         apply Nat.ltb_lt in Hd; exfalso; lia);
    try (exfalso; lia);
    split; reflexivity.
Qed.

Lemma adjust_pace_well_formed (content : pystr) (signals : gmap string pyval) :
  well_formed (AdaptiveEngine._adjust_pace content signals).
Proof.
  unfold AdaptiveEngine._adjust_pace, well_formed.
  repeat match goal with
         | |- context [if ?b then _ else _] => destruct b
         end;
    cbn [app AdaptedContent.changes_made AdaptedContent.complexity_level length];
    (split; [lia | left; reflexivity]).
Qed.

Lemma change_representation_well_formed
    (content : pystr) (signals : gmap string pyval) :
  well_formed (AdaptiveEngine._change_representation content signals).
Proof.
  destruct (change_representation_changes content signals) as (Hlen & Hlevel).
  split; [exact Hlen | right; exact Hlevel].
Qed.

Lemma changes_bound {A} (c1 c2 c3 : bool) (x y z w : A) :
  let l1 := if c1 then [] ++ [x] else [] in
  let l2 := if c2 then l1 ++ [y] else l1 in
  let l3 := if c3 then l2 ++ [z] else l2 in
  (1 <= length (match l3 with [] => l3 ++ [w] | _ => l3 end) <= 3)%nat.
Proof. destruct c1, c2, c3; cbn; lia. Qed.

Lemma simplify_language_well_formed (lib : Lib)
    (content : pystr) (signals : gmap string pyval) (a : AdaptedContent.t) :
  AdaptiveEngine._simplify_language lib content signals = Some a ->
  well_formed a.
Proof.
  unfold AdaptiveEngine._simplify_language, well_formed. intros H.
  cbv zeta in H. bind_some H. injection H as <-.
  cbn [AdaptedContent.changes_made AdaptedContent.complexity_level].
  split.
  - exact (changes_bound _ _ _ _ _ _ _).
  - match goal with
    | |- context [if ?b then py "simple" else _] => destruct b
    end; [left | right]; reflexivity.
Qed.

Lemma add_examples_well_formed (lib : Lib) (rt : Runtime)
    (content : pystr) (signals : gmap string pyval) (a : AdaptedContent.t) :
  AdaptiveEngine._add_examples lib rt content signals = Some a ->
  well_formed a.
Proof.
  unfold AdaptiveEngine._add_examples, well_formed. intros H.
  cbv zeta in H.
  destruct (existsb _ _);
    destruct (AdaptiveEngine._extract_key_concepts lib rt content);
    cbv beta iota in H; bind_some H;
    match type of H with
    | context [bool_decide ?P] => destruct (bool_decide P)
    end;
    injection H as <-;
    cbn [app AdaptedContent.changes_made AdaptedContent.complexity_level length];
    (split; [lia | right; reflexivity]).
Qed.

Lemma apply_adaptation_well_formed (lib : Lib) (rt : Runtime)
    (content : pystr) (t : AdaptationType) (signals : gmap string pyval)
    (a : AdaptedContent.t) :
  AdaptiveEngine._apply_adaptation lib rt content t signals = Some a ->
  well_formed a.
Proof.
  destruct t; cbn [AdaptiveEngine._apply_adaptation]; intros H.
  - eapply simplify_language_well_formed; eassumption.
  - eapply add_examples_well_formed; eassumption.
  - injection H as <-. apply change_representation_well_formed.
  - injection H as <-. apply adjust_pace_well_formed.
Qed.

Lemma mapM_apply_adaptation_well_formed (lib : Lib) (rt : Runtime)
    (content : pystr) (signals : gmap string pyval)
    (requested : list AdaptationType) (adaptations : list AdaptedContent.t) :
  mapM (fun t => AdaptiveEngine._apply_adaptation lib rt content t signals) requested
    = Some adaptations ->
  Forall well_formed adaptations.
Proof.
  revert adaptations. induction requested as [| t requested IH]; intros adaptations H.
  - cbn in H. injection H as <-. constructor.
  - cbn [mapM] in H.
    destruct (AdaptiveEngine._apply_adaptation lib rt content t signals) as [a |] eqn:Ha;
      cbn [mbind option_bind] in H; [| discriminate].
    destruct (mapM _ requested) as [rest |] eqn:Hrest;
      cbn [mbind option_bind mret option_ret] in H; [| discriminate].
    injection H as <-. constructor.
    + eapply apply_adaptation_well_formed; eassumption.
    + apply IH. reflexivity.
Qed.

Lemma first_with_priority_elem (signal_priority : list (AdaptationType * Z))
    (adaptations : list AdaptedContent.t) (a : AdaptedContent.t) :
  AdaptiveEngine.first_with_priority signal_priority adaptations = Some a ->
  a ∈ adaptations.
Proof.
  induction adaptations as [| x rest IH]; [discriminate |].
  cbn [AdaptiveEngine.first_with_priority].
  destruct (bool_decide _).
  - intros H. injection H as <-. apply list_elem_of_here.
  - intros H. apply list_elem_of_further, IH, H.
Qed.

Lemma select_primary_elem (adaptations : list AdaptedContent.t)
    (signals : gmap string pyval) (primary : option AdaptedContent.t) :
  AdaptiveEngine._select_primary_adaptation adaptations signals = Some primary ->
  (primary = None <-> adaptations = [])
  /\ forall a, primary = Some a -> a ∈ adaptations.
Proof.
  unfold AdaptiveEngine._select_primary_adaptation. intros H.
  destruct adaptations as [| first rest].
  { injection H as <-. split; [split; reflexivity | discriminate]. }
  cbv zeta in H. bind_some H.
  destruct (AdaptiveEngine.first_with_priority _ _) as [x |] eqn:Hfirst;
    injection H as <-.
  - split; [split; discriminate |]. intros a Ha. injection Ha as <-.
    eapply first_with_priority_elem. exact Hfirst.
  - split; [split; discriminate |]. intros a Ha. injection Ha as <-.
    apply list_elem_of_here.
Qed.

(** X17: what a result of [generate_adaptation] is made of. Every
    adaptation tells between one and three changes and is of level
    "simple" or "moderate"; the primary recommendation is one of the
    adaptations of the result, and is missing exactly when no adaptation
    was requested; session hash and original content are those of the
    request. *)
Theorem X17_adaptations_well_formed
    (lib : Lib) (rt : Runtime) (request : AdaptationRequest.t)
    (result : AdaptationResult.t) :
  AdaptiveEngine.generate_adaptation lib rt request = Some result ->
  Forall well_formed (AdaptationResult.adaptations result)
  /\ (AdaptationResult.primary_recommendation result = None
      <-> AdaptationRequest.requested_adaptations request = [])
  /\ (forall a, AdaptationResult.primary_recommendation result = Some a ->
                a ∈ AdaptationResult.adaptations result)
  /\ AdaptationResult.session_hash result = AdaptationRequest.session_hash request
  /\ AdaptationResult.original_content result
     = AdaptationRequest.original_content request.
Proof.
  unfold AdaptiveEngine.generate_adaptation. intros H.
  destruct (mapM _ _) as [adaptations |] eqn:Hmap;
    cbn [mbind option_bind] in H; [| discriminate].
  destruct (AdaptiveEngine._select_primary_adaptation _ _) as [primary |] eqn:Hsel;
    cbn [mbind option_bind] in H; [| discriminate].
  destruct (AdaptiveEngine._generate_audit_hash _ _ _ _) as [h |] eqn:Hh;
    cbn [mbind option_bind] in H; [| discriminate].
  injection H as <-.
  cbn [AdaptationResult.adaptations AdaptationResult.primary_recommendation
       AdaptationResult.session_hash AdaptationResult.original_content].
  pose proof (mapM_apply_adaptation_types _ _ _ _ _ _ Hmap) as Htypes.
  destruct (select_primary_elem _ _ _ Hsel) as [Hnone Helem].
  split; [eapply mapM_apply_adaptation_well_formed; exact Hmap |].
  split.
  { rewrite Hnone, <- Htypes. destruct adaptations; split; discriminate || reflexivity. }
  split; [exact Helem |]. split; reflexivity.
Qed.

Lemma X17_adaptations_well_formed_witness :
  exists result,
    AdaptiveEngine.generate_adaptation sample_lib run1 dense_adaptation_request
      = Some result
    /\ Forall well_formed (AdaptationResult.adaptations result)
    /\ (AdaptationResult.primary_recommendation result = None
        <-> AdaptationRequest.requested_adaptations dense_adaptation_request = [])
    /\ (forall a, AdaptationResult.primary_recommendation result = Some a ->
                  a ∈ AdaptationResult.adaptations result)
    /\ AdaptationResult.session_hash result
       = AdaptationRequest.session_hash dense_adaptation_request
    /\ AdaptationResult.original_content result
       = AdaptationRequest.original_content dense_adaptation_request.
Proof.
  assert (H : exists result,
            AdaptiveEngine.generate_adaptation sample_lib run1
              dense_adaptation_request = Some result)
    by (vm_compute; eexists; reflexivity).
  destruct H as [result H]. exists result. split; [exact H |].
  exact (X17_adaptations_well_formed sample_lib run1 dense_adaptation_request
           result H).
Defined.

(** X18: the number of variants. [generate_multiple_variants] returns the
    first variants of three (the original content as it is, the content
    simplified at level "moderate", and at level "simple"), all of type
    simplify-language: as many as asked for up to three, never more; and
    for a negative number [-k], all but the last [k] of the three. *)
Theorem X18_variants_count (content : pystr) (num_variants : Z) :
  let variants := AdaptiveEngine.generate_multiple_variants content num_variants in
  length variants = variants_returned num_variants
  /\ variants = take (variants_returned num_variants)
                  (AdaptiveEngine.generate_multiple_variants content 3)
  /\ map AdaptedContent.content
         (AdaptiveEngine.generate_multiple_variants content 3)
     = [content; TextAnalyzer.simplify_text content (py "moderate");
        TextAnalyzer.simplify_text content (py "simple")]
  /\ Forall (fun v => AdaptedContent.adaptation_type v = SIMPLIFY_LANGUAGE) variants.
Proof.
  intros variants. subst variants.
  unfold AdaptiveEngine.generate_multiple_variants, AdaptiveEngine.slice_to,
    variants_returned.
  cbn [app length]. change (3 <? 0) with false. cbv iota.
  change (Z.to_nat 3) with 3%nat.
  destruct (Z.ltb_spec num_variants 0) as [Hneg | Hpos].
  - replace (Z.min 3 (3 + num_variants)) with (3 + num_variants) by lia.
    change (Z.of_nat 3) with 3.
    split; [rewrite length_take; cbn [length]; lia |].
    split; [cbn [take]; reflexivity |].
    split; [reflexivity |].
    apply Forall_take. repeat constructor.
  - split; [rewrite length_take; cbn [length]; lia |].
    split.
    { destruct (Z.le_gt_cases num_variants 3) as [Hle | Hgt].
      - rewrite Z.min_r by lia. reflexivity.
      - rewrite Z.min_l by lia. change (Z.to_nat 3) with 3%nat.
        rewrite !take_ge by (cbn [length]; lia). reflexivity. }
    split; [reflexivity |].
    apply Forall_take. repeat constructor.
Qed.

(** ** utils/text_analysis.py, the substitution table *)

Lemma ci_prefix_length (p s : pystr) :
  ci_prefix p s = true -> (length p <= length s)%nat.
Proof.
  revert s. induction p as [| a p IH]; intros s H; [cbn; lia |].
  destruct s as [| c s]; [discriminate |].
  cbn [ci_prefix] in H. apply andb_true_iff in H. destruct H as [_ H].
  apply IH in H. cbn [length]. lia.
Qed.

Lemma sub_ci_go_length (p repl : pystr) :
  (length repl <= length p)%nat ->
  forall s skip, (length (sub_ci_go p repl skip s) <= length s - skip)%nat.
Proof.
  intros Hrepl. induction s as [| c s IH]; intros skip; [cbn; lia |].
  cbn [sub_ci_go]. destruct skip as [| k].
  - destruct (ci_prefix p (c :: s)) eqn:Hp.
    + apply ci_prefix_length in Hp. cbn [length] in Hp.
      rewrite length_app. specialize (IH (length p - 1)%nat).
      cbn [length]. lia.
    + specialize (IH 0%nat). cbn [length]. lia.
  - specialize (IH k). cbn [length]. lia.
Qed.

Lemma apply_replacements_length (table : list (string * string)) :
  Forall (fun entry : string * string =>
            (length (py entry.2) <= length (py entry.1))%nat) table ->
  forall s, (length (TextAnalyzer.apply_replacements table s) <= length s)%nat.
Proof.
  unfold TextAnalyzer.apply_replacements.
  induction 1 as [| [complex_word simple_word] table Hentry _ IH]; intros s;
    [cbn; lia |].
  cbn [fold_left fst snd] in *. etransitivity; [apply IH |].
  unfold sub_ci. pose proof (sub_ci_go_length _ _ Hentry s 0). lia.
Qed.

Lemma lstrip_length (s : pystr) : (length (lstrip s) <= length s)%nat.
Proof.
  induction s as [| c s IH]; [reflexivity |].
  cbn [lstrip]. destruct (is_space c); cbn [length]; lia.
Qed.

Lemma rstrip_length (s : pystr) : (length (rstrip s) <= length s)%nat.
Proof.
  induction s as [| c s IH]; [reflexivity |].
  cbn [rstrip]. destruct (rstrip s); [destruct (is_space c) |];
    cbn [length] in *; lia.
Qed.

Lemma strip_length (s : pystr) : (length (strip s) <= length s)%nat.
Proof.
  unfold strip. etransitivity; [apply rstrip_length | apply lstrip_length].
Qed.

Lemma count_char_cons (e c : N) (s : pystr) :
  count_char e (c :: s)
  = ((if decide (c = e) then 1 else 0) + count_char e s)%nat.
Proof.
  unfold count_char, pystr. rewrite filter_cons.
  destruct (decide (c = e)); reflexivity.
Qed.

Lemma count_char_app (e : N) (a b : pystr) :
  count_char e (a ++ b) = (count_char e a + count_char e b)%nat.
Proof. unfold count_char, pystr. rewrite filter_app, length_app. reflexivity. Qed.

Lemma count_char_other (e c : N) (s : pystr) :
  c <> e -> count_char e (c :: s) = count_char e s.
Proof. intros H. rewrite count_char_cons, decide_False by exact H. reflexivity. Qed.

Lemma ci_prefix_take (p s : pystr) :
  ci_prefix p s = true -> ci_prefix p (take (length p) s) = true.
Proof.
  revert s. induction p as [| b p IH]; intros s H; [reflexivity |].
  destruct s as [| d s]; [discriminate |].
  cbn [ci_prefix] in H. apply andb_true_iff in H. destruct H as [Hbd H].
  cbn [length take ci_prefix]. rewrite Hbd. apply IH. exact H.
Qed.

(** While [skip] characters of a match are still to be dropped, they are
    matched by the last [skip] characters of the pattern. *)
Lemma sub_ci_go_count (e : N) (p repl : pystr) :
  p <> [] ->
  never_matches e p = true ->
  count_char e repl = 0%nat ->
  forall s skip,
    (skip <= length p)%nat ->
    ci_prefix (drop (length p - skip) p) (take skip s) = true ->
    count_char e (sub_ci_go p repl skip s) = count_char e s.
Proof.
  intros Hp Hnever Hrepl.
  assert (Hmatch : forall a c, a ∈ p -> ci_char_match a c = true -> c <> e).
  { intros a c Ha Hm ->. unfold never_matches in Hnever.
    rewrite forallb_forall in Hnever.
    specialize (Hnever a (proj1 (list_elem_of_In _ _) Ha)).
    rewrite Hm in Hnever. discriminate. }
  induction s as [| c s IH]; intros skip Hskip Hpre; [reflexivity |].
  cbn [sub_ci_go]. destruct skip as [| k].
  - destruct (ci_prefix p (c :: s)) eqn:Hcp.
    + destruct p as [| a p']; [congruence |].
      cbn [ci_prefix] in Hcp. apply andb_true_iff in Hcp.
      destruct Hcp as [Hac Hp'].
      rewrite count_char_app, Hrepl, IH.
      * rewrite count_char_other; [reflexivity |].
        eapply Hmatch; [apply list_elem_of_here | exact Hac].
      * cbn [length]. lia.
      * replace (length (a :: p') - (length (a :: p') - 1))%nat with 1%nat
          by (cbn [length]; lia).
        replace (length (a :: p') - 1)%nat with (length p')
          by (cbn [length]; lia).
        change (drop 1 (a :: p')) with (drop 0 p'). rewrite drop_0.
        apply ci_prefix_take. exact Hp'.
    + rewrite !count_char_cons, IH; [reflexivity | lia |].
      rewrite Nat.sub_0_r, drop_all. reflexivity.
  - assert (Hlt : (length p - S k < length p)%nat) by lia.
    destruct (drop (length p - S k) p) as [| a rest] eqn:Hdrop.
    { apply (f_equal length) in Hdrop. rewrite length_drop in Hdrop.
      cbn [length] in Hdrop. lia. }
    cbn [take ci_prefix] in Hpre. apply andb_true_iff in Hpre.
    destruct Hpre as [Hac Hrest].
    assert (Ha : a ∈ p).
    { apply (list_elem_of_lookup_2 _ (length p - S k)%nat).
      rewrite <- (Nat.add_0_r (length p - S k)), <- lookup_drop, Hdrop.
      reflexivity. }
    rewrite (count_char_other _ _ _ (Hmatch a c Ha Hac)).
    apply IH; [lia |].
    replace (length p - k)%nat with (length p - S k + 1)%nat by lia.
    rewrite <- (drop_drop p 1 (length p - S k)), Hdrop.
    change (drop 1 (a :: rest)) with (drop 0 rest).
    rewrite drop_0. exact Hrest.
Qed.

Lemma apply_replacements_count (e : N) (table : list (string * string)) :
  Forall (fun entry : string * string =>
            py entry.1 <> []
            /\ never_matches e (py entry.1) = true
            /\ count_char e (py entry.2) = 0%nat) table ->
  forall s, count_char e (TextAnalyzer.apply_replacements table s) = count_char e s.
Proof.
  unfold TextAnalyzer.apply_replacements.
  induction 1 as [| [complex_word simple_word] table (Hne & Hnever & Hrepl) _ IH];
    intros s; [reflexivity |].
  cbn [fold_left fst snd] in *. rewrite IH. unfold sub_ci.
  apply sub_ci_go_count; try assumption; [lia |].
  rewrite Nat.sub_0_r, drop_all. reflexivity.
Qed.

Lemma count_char_lstrip (e : N) (s : pystr) :
  is_space e = false -> count_char e (lstrip s) = count_char e s.
Proof.
  intros He. induction s as [| c s IH]; [reflexivity |].
  cbn [lstrip]. destruct (is_space c) eqn:Hc; [| reflexivity].
  rewrite count_char_other by congruence. exact IH.
Qed.

Lemma count_char_rstrip (e : N) (s : pystr) :
  is_space e = false -> count_char e (rstrip s) = count_char e s.
Proof.
  intros He. induction s as [| c s IH]; [reflexivity |].
  cbn [rstrip]. destruct (rstrip s) as [| d t] eqn:Hr.
  - destruct (is_space c) eqn:Hc.
    + rewrite count_char_other by congruence. exact IH.
    + rewrite (count_char_cons e c s), (count_char_cons e c []), IH.
      reflexivity.
  - rewrite (count_char_cons e c (d :: t)), (count_char_cons e c s), IH.
    reflexivity.
Qed.

Lemma table_keeps_Forall (e : N) :
  table_keeps e = true ->
  Forall (fun entry : string * string =>
            py entry.1 <> []
            /\ never_matches e (py entry.1) = true
            /\ count_char e (py entry.2) = 0%nat) TextAnalyzer.replacements.
Proof.
  unfold table_keeps. rewrite forallb_forall. intros H.
  apply Forall_forall. intros entry Hin.
  specialize (H entry (proj1 (list_elem_of_In _ _) Hin)).
  apply andb_true_iff in H. destruct H as [H H3].
  apply andb_true_iff in H. destruct H as [H1 H2].
  split; [| split].
  - apply negb_true_iff, bool_decide_eq_false_1 in H1. exact H1.
  - exact H2.
  - apply Nat.eqb_eq. exact H3.
Qed.

Lemma simplify_text_keeps (text level : pystr) (e : N) :
  level <> py "simple" ->
  is_sentence_end e = true ->
  count_char e (TextAnalyzer.simplify_text text level) = count_char e text.
Proof.
  intros Hlevel He. unfold TextAnalyzer.simplify_text.
  rewrite bool_decide_eq_false_2 by exact Hlevel.
  assert (Hsp : is_space e = false).
  { unfold is_sentence_end in He.
    destruct e as [| q]; [discriminate |].
    repeat (destruct q as [q | q |]; try discriminate He; try reflexivity). }
  unfold strip. rewrite count_char_rstrip, count_char_lstrip by exact Hsp.
  apply apply_replacements_count, table_keeps_Forall.
  unfold is_sentence_end in He.
  destruct e as [| q]; [discriminate |].
  repeat (destruct q as [q | q |]; try discriminate He);
    vm_compute; reflexivity.
Qed.

Lemma simplify_text_length (text level : pystr) :
  level <> py "simple" ->
  (length (TextAnalyzer.simplify_text text level) <= length text)%nat.
Proof.
  intros Hlevel. unfold TextAnalyzer.simplify_text.
  rewrite bool_decide_eq_false_2 by exact Hlevel.
  etransitivity; [apply strip_length |].
  apply apply_replacements_length.
  apply Forall_forall. intros entry Hin.
  assert (Hall : table_shortens = true) by (vm_compute; reflexivity).
  unfold table_shortens in Hall. rewrite forallb_forall in Hall.
  apply Nat.leb_le, Hall, list_elem_of_In, Hin.
Qed.

(** X19: simplification below the level "simple" never makes a text
    longer, and leaves the number of full stops, of exclamation marks and
    of question marks as it was: the table replaces no phrase by a longer
    one, and none of its phrases or words holds such a character. *)
Theorem X19_moderate_simplification (text level : pystr) :
  level <> py "simple" ->
  (length (TextAnalyzer.simplify_text text level) <= length text)%nat
  /\ forall e, is_sentence_end e = true ->
               count_char e (TextAnalyzer.simplify_text text level)
               = count_char e text.
Proof.
  intros Hlevel. split.
  - apply simplify_text_length. exact Hlevel.
  - intros e He. apply simplify_text_keeps; assumption.
Qed.

Lemma X19_moderate_simplification_witness :
  py "moderate" <> py "simple"
  /\ (length (TextAnalyzer.simplify_text plain_sentence (py "moderate"))
      <= length plain_sentence)%nat
  /\ forall e, is_sentence_end e = true ->
               count_char e (TextAnalyzer.simplify_text plain_sentence (py "moderate"))
               = count_char e plain_sentence.
Proof.
  assert (H : py "moderate" <> py "simple") by discriminate.
  split; [exact H |].
  exact (X19_moderate_simplification plain_sentence (py "moderate") H).
Defined.

(** X20: the simplify-language transform at level "moderate", which is
    the level chosen unless [clarification_count] is above 3. The adapted
    content is the text simplified at that level and is not longer than
    the original; and since simplification at that level keeps every
    sentence end, the change "Broke long sentences into shorter ones" is
    never reported. *)
Theorem X20_simplify_language_moderate
    (lib : Lib) (content : pystr) (signals : gmap string pyval)
    (adapted : AdaptedContent.t) :
  AdaptiveEngine._simplify_language lib content signals = Some adapted ->
  AdaptedContent.complexity_level adapted = py "moderate" ->
  py_gt (dict_get signals "clarification_count" (PInt 0)) 3 = Some false
  /\ AdaptedContent.content adapted
     = TextAnalyzer.simplify_text content (py "moderate")
  /\ (length (AdaptedContent.content adapted) <= length content)%nat
  /\ (py "Broke long sentences into shorter ones"
        ∉ AdaptedContent.changes_made adapted).
Proof.
  unfold AdaptiveEngine._simplify_language. intros H Hlevel.
  cbv zeta in H.
  destruct (py_gt (dict_get signals "clarification_count" (PInt 0)) 3)
    as [many |] eqn:Hmany; cbn [mbind option_bind] in H; [| discriminate].
  bind_some H. injection H as <-.
  cbn [AdaptedContent.complexity_level] in Hlevel.
  destruct many; [discriminate Hlevel |].
  cbn [AdaptedContent.content AdaptedContent.changes_made].
  assert (Hmod : py "moderate" <> py "simple") by discriminate.
  split; [reflexivity |]. split; [reflexivity |].
  split; [apply simplify_text_length; exact Hmod |].
  rewrite !(simplify_text_keeps content (py "moderate")) by (exact Hmod || reflexivity).
  rewrite Nat.ltb_irrefl.
  destruct (flt _ _); destruct (0 <? _)%nat;
    cbn [app]; intros Hin;
    repeat (apply elem_of_cons in Hin; destruct Hin as [Hin | Hin];
            [apply (f_equal head) in Hin; vm_compute in Hin; discriminate Hin |]);
    apply elem_of_nil in Hin; exact Hin.
Qed.

Lemma X20_simplify_language_moderate_witness :
  exists adapted,
    AdaptiveEngine._simplify_language sample_lib dense_text ∅ = Some adapted
    /\ AdaptedContent.complexity_level adapted = py "moderate"
    /\ py_gt (dict_get (∅ : gmap string pyval) "clarification_count" (PInt 0)) 3
       = Some false
    /\ AdaptedContent.content adapted
       = TextAnalyzer.simplify_text dense_text (py "moderate")
    /\ (length (AdaptedContent.content adapted) <= length dense_text)%nat
    /\ (py "Broke long sentences into shorter ones"
          ∉ AdaptedContent.changes_made adapted).
Proof.
  assert (H : exists adapted,
            AdaptiveEngine._simplify_language sample_lib dense_text ∅ = Some adapted
            /\ AdaptedContent.complexity_level adapted = py "moderate")
    by (vm_compute; eexists; split; reflexivity).
  destruct H as (adapted & H & Hlevel). exists adapted.
  split; [exact H |]. split; [exact Hlevel |].
  exact (X20_simplify_language_moderate sample_lib dense_text ∅ adapted H Hlevel).
Defined.

Lemma insert_after_first_word_spec (lib : Lib) (word ins : pystr) (s : pystr) :
  forall prev,
    insert_after_first_word lib word ins prev s = s
    \/ inserted ins s (insert_after_first_word lib word ins prev s).
Proof.
  induction s as [| c s IH]; intros prev; [left; reflexivity |].
  cbn [insert_after_first_word].
  destruct (ci_prefix word (c :: s) && word_boundary lib prev (Some c)
            && boundary_at lib (length word) (c :: s)).
  - right. exists (take (length word) (c :: s)), (drop (length word) (c :: s)).
    split; [symmetry; apply take_drop | reflexivity].
  - destruct (IH (Some c)) as [-> | (a & b & Hs & Ht)]; [left; reflexivity |].
    right. exists (c :: a), b. split; [rewrite Hs; reflexivity |].
    rewrite Ht. reflexivity.
Qed.

Lemma inline_step_spec (lib : Lib) (modified word : pystr) :
  AdaptiveEngine.inline_step lib modified word = modified
  \/ inserted (py " (in simpler terms)") modified
       (AdaptiveEngine.inline_step lib modified word).
Proof.
  unfold AdaptiveEngine.inline_step.
  destruct (_ && _); [apply insert_after_first_word_spec | left; reflexivity].
Qed.

Lemma add_inline_examples_spec (lib : Lib) (rt : Runtime) (content out : pystr) :
  AdaptiveEngine._add_inline_examples lib rt content = Some out ->
  inserted_at_most_twice (py " (in simpler terms)") content out.
Proof.
  unfold AdaptiveEngine._add_inline_examples. intros H.
  destruct (TextAnalyzer.identify_complex_words lib rt content 3) as [words |];
    cbn [mbind option_bind] in H; [| discriminate].
  destruct words as [| w1 words]; injection H as <-; [left; reflexivity |].
  destruct words as [| w2 words].
  - cbn [take fold_left].
    destruct (inline_step_spec lib content w1) as [E1 | H1];
      [left; exact E1 | right; left; exact H1].
  - cbn [take]. rewrite take_0. cbn [fold_left].
    pose proof (inline_step_spec lib content w1) as S1.
    remember (AdaptiveEngine.inline_step lib content w1) as m eqn:Hm.
    pose proof (inline_step_spec lib m w2) as S2.
    remember (AdaptiveEngine.inline_step lib m w2) as out eqn:Hout.
    clear Hm Hout.
    destruct S1 as [-> | H1], S2 as [-> | H2].
    + left. reflexivity.
    + right. left. exact H2.
    + right. left. exact H1.
    + right. right. exists m. split; assumption.
Qed.

(** X21: the add-examples transform only inserts. Its adapted content is
    the original content, followed by the example section when the content
    shows no example marker and a key concept was found, with the note
    " (in simpler terms)" inserted at no more than two places; nothing of
    the content is removed or rewritten. *)
Theorem X21_add_examples_only_inserts
    (lib : Lib) (rt : Runtime) (content : pystr) (signals : gmap string pyval)
    (adapted : AdaptedContent.t) :
  AdaptiveEngine._add_examples lib rt content signals = Some adapted ->
  exists section,
    (section = []
     \/ section = AdaptiveEngine.paragraph_break
                  ++ AdaptiveEngine._generate_example_section
                       (AdaptiveEngine._extract_key_concepts lib rt content))
    /\ inserted_at_most_twice (py " (in simpler terms)")
         (content ++ section) (AdaptedContent.content adapted).
Proof.
  unfold AdaptiveEngine._add_examples. intros H. cbv zeta in H.
  destruct (existsb _ _);
    destruct (AdaptiveEngine._extract_key_concepts lib rt content) as [| k ks] eqn:Hk;
    cbv beta iota in H;
    (destruct (AdaptiveEngine._add_inline_examples lib rt _) as [inline |] eqn:Hin;
     cbn [mbind option_bind] in H; [| discriminate]);
    apply add_inline_examples_spec in Hin;
    match type of H with
    | context [bool_decide ?P] => destruct (bool_decide P) eqn:Hd
    end;
    injection H as <-; cbn [AdaptedContent.content];
    try (exists []; split; [left; reflexivity |];
         rewrite app_nil_r; first [exact Hin | left; reflexivity]; fail);
    (eexists; split; [right; reflexivity |];
     first [exact Hin | left; reflexivity]).
Qed.

Lemma X21_add_examples_only_inserts_witness :
  exists adapted,
    AdaptiveEngine._add_examples sample_lib run1 dense_text ∅ = Some adapted
    /\ exists section,
         (section = []
          \/ section = AdaptiveEngine.paragraph_break
                       ++ AdaptiveEngine._generate_example_section
                            (AdaptiveEngine._extract_key_concepts sample_lib run1
                               dense_text))
         /\ inserted_at_most_twice (py " (in simpler terms)")
              (dense_text ++ section) (AdaptedContent.content adapted).
Proof.
  assert (H : exists adapted,
            AdaptiveEngine._add_examples sample_lib run1 dense_text ∅ = Some adapted)
    by (vm_compute; eexists; reflexivity).
  destruct H as [adapted H]. exists adapted. split; [exact H |].
  exact (X21_add_examples_only_inserts sample_lib run1 dense_text ∅ adapted H).
Defined.

(** ** modules/interaction_analyzer.py, the audit hash *)

Lemma py_inj (a b : string) : py a = py b -> a = b.
Proof.
  unfold py. intros H.
  assert (Hback : forall l : list ascii,
            map ascii_of_N (map (fun a => N_of_ascii a) l) = l).
  { induction l as [| x l IH]; [reflexivity |].
    cbn [map]. rewrite ascii_N_embedding, IH. reflexivity. }
  apply (f_equal (map ascii_of_N)) in H. rewrite !Hback in H.
  apply (f_equal string_of_list_ascii) in H.
  rewrite !string_of_list_ascii_of_string in H. exact H.
Qed.

Lemma NoDup_keys_inj (data : list (string * audit_value))
    (x y : string * audit_value) :
  NoDup (data.*1) -> x ∈ data -> y ∈ data -> x.1 = y.1 -> x = y.
Proof.
  induction data as [| d data IH]; intros Hnd Hx Hy Hk.
  { apply elem_of_nil in Hx. destruct Hx. }
  cbn [fmap list_fmap] in Hnd. apply NoDup_cons in Hnd. destruct Hnd as [Hd Hnd].
  apply elem_of_cons in Hx. apply elem_of_cons in Hy.
  destruct Hx as [-> | Hx], Hy as [-> | Hy].
  - reflexivity.
  - exfalso. apply Hd. rewrite Hk. apply list_elem_of_fmap.
    exists y. split; [reflexivity | exact Hy].
  - exfalso. apply Hd. rewrite <- Hk. apply list_elem_of_fmap.
    exists x. split; [reflexivity | exact Hx].
  - apply IH; assumption.
Qed.

Lemma sorted_items_Permutation (data1 data2 : list (string * audit_value)) :
  NoDup (data1.*1) -> data1 ≡ₚ data2 -> sorted_items data1 = sorted_items data2.
Proof.
  intros Hnd Hperm. unfold sorted_items.
  set (R := fun a b : string * audit_value => pystr_le (py a.1) (py b.1)).
  assert (Htotal : Total R).
  { intros a b. apply pystr_le_total. }
  assert (Htrans : Transitive R).
  { intros a b c Hab Hbc. exact (pystr_le_trans _ _ _ Hab Hbc). }
  apply (@Sorted_unique_strong _ R Htrans).
  - intros x1 x2 H1 H2 H12 H21.
    rewrite merge_sort_Permutation in H1.
    rewrite merge_sort_Permutation, <- Hperm in H2.
    apply (NoDup_keys_inj data1); try assumption.
    apply py_inj. exact (pystr_le_antisym _ _ H12 H21).
  - apply (@Sorted_merge_sort _ R _ Htotal).
  - apply (@Sorted_merge_sort _ R _ Htotal).
  - rewrite !merge_sort_Permutation. exact Hperm.
Qed.

(** X22: the hash of [generate_deterministic_hash] does not depend on
    the order in which the dictionary was filled: two dictionaries with
    the same items give the same hash, and the call raises on one exactly
    when it does on the other. *)
Theorem X22_hash_ignores_insertion_order
    (lib : Lib) (data1 data2 : list (string * audit_value)) :
  NoDup (data1.*1) ->
  data1 ≡ₚ data2 ->
  generate_deterministic_hash lib data1 = generate_deterministic_hash lib data2.
Proof.
  intros Hnd Hperm. unfold generate_deterministic_hash, str_sorted_items.
  rewrite (sorted_items_Permutation data1 data2 Hnd Hperm). reflexivity.
Qed.

Lemma X22_hash_ignores_insertion_order_witness :
  NoDup (audit_data.*1)
  /\ audit_data ≡ₚ audit_data_reordered
  /\ generate_deterministic_hash ascii_lib audit_data
     = generate_deterministic_hash ascii_lib audit_data_reordered.
Proof.
  assert (Hnd : NoDup (audit_data.*1)).
  { cbn. repeat (apply NoDup_cons; split;
                 [intros Hin; in_hyp Hin |]). apply NoDup_nil_2. }
  assert (Hperm : audit_data ≡ₚ audit_data_reordered).
  { unfold audit_data, audit_data_reordered.
    etransitivity; [apply Permutation_swap |].
    etransitivity; [apply perm_skip, Permutation_swap |].
    etransitivity; [apply Permutation_swap |]. 
    apply perm_skip. apply Permutation_swap. }
  split; [exact Hnd |]. split; [exact Hperm |].
  exact (X22_hash_ignores_insertion_order ascii_lib audit_data
           audit_data_reordered Hnd Hperm).
Defined.

(** ** modules/adaptive_engine.py, the key concepts *)

Lemma findall_scan_elem (m : option N -> pystr -> option (pystr * nat)) (s : pystr) :
  forall prev skip g,
    g ∈ findall_scan m prev skip s ->
    exists prev' s' n, m prev' s' = Some (g, n).
Proof.
  induction s as [| c s IH]; intros prev skip g Hg.
  { apply elem_of_nil in Hg. destruct Hg. }
  cbn [findall_scan] in Hg. destruct skip as [| k]; [| eapply IH; exact Hg].
  destruct (m prev (c :: s)) as [[g0 n] |] eqn:Hm; [| eapply IH; exact Hg].
  apply elem_of_cons in Hg. destruct Hg as [-> | Hg]; [eauto | eapply IH; exact Hg].
Qed.

Lemma cap_phrase_ends_pos (fuel : nat) :
  forall pos s e, e ∈ cap_phrase_ends fuel pos s -> (1 <= e)%nat.
Proof.
  induction fuel as [| fuel IH]; intros pos s e He.
  { apply elem_of_nil in He. destruct He. }
  cbn [cap_phrase_ends] in He.
  destruct (span is_space s) as [ws r].
  destruct ws as [| w0 ws]; [apply elem_of_nil in He; destruct He |].
  destruct (take_cap_word r) as [[w r'] |];
    [| apply elem_of_nil in He; destruct He].
  apply elem_of_cons in He. destruct He as [-> | He].
  - cbn [length]. lia.
  - eapply IH. exact He.
Qed.

Lemma cap_phrase_at_upper (lib : Lib) (prev : option N) (s g : pystr) (n : nat) :
  cap_phrase_at lib prev s = Some (g, n) ->
  exists u rest, g = u :: rest /\ is_ascii_upper u = true.
Proof.
  unfold cap_phrase_at. intros H.
  destruct (word_boundary lib prev (head s)); [| discriminate].
  destruct (take_cap_word s) as [[w r] |] eqn:Hw; [| discriminate].
  destruct (List.find _ _) as [e |] eqn:Hf; [| discriminate].
  injection H as <- <-.
  unfold take_cap_word in Hw. destruct s as [| c s']; [discriminate |].
  destruct (is_ascii_upper c) eqn:Hc; [| discriminate].
  destruct (span is_ascii_lower s') as [lows r0].
  destruct lows as [| l0 lows]; [discriminate |]. injection Hw as <- <-.
  apply find_some in Hf. destruct Hf as [Hin _].
  apply in_rev in Hin. apply list_elem_of_In in Hin.
  assert (He : (1 <= e)%nat).
  { apply elem_of_cons in Hin. destruct Hin as [-> | Hin]; [cbn [length]; lia |].
    eapply cap_phrase_ends_pos. exact Hin. }
  destruct e as [| e']; [lia |].
  exists c, (take e' s'). split; [reflexivity | exact Hc].
Qed.

Lemma span_Forall (f : N -> bool) (s a b : pystr) :
  span f s = (a, b) -> Forall (fun c => f c = true) a.
Proof.
  revert a b. induction s as [| c s IH]; intros a b H.
  - injection H as <- <-. constructor.
  - cbn [span] in H. destruct (f c) eqn:Hc.
    + destruct (span f s) as [a' b']. injection H as <- <-.
      constructor; [exact Hc | eapply IH; reflexivity].
    + injection H as <- <-. constructor.
Qed.

Lemma quoted_at_body (prev : option N) (s g : pystr) (n : nat) :
  quoted_at prev s = Some (g, n) -> g <> [] /\ 34%N ∉ g.
Proof.
  unfold quoted_at. intros H.
  destruct s as [| q s']; [discriminate |].
  destruct (decide (q = 34%N)) as [-> | Hq].
  - destruct (span (fun c => negb (c =? 34)%N) s') as [body r] eqn:Hspan.
    destruct body as [| b0 body]; [discriminate |].
    destruct r as [| r0 r]; [discriminate |].
    destruct (decide (r0 = 34%N)) as [-> | Hr].
    + injection H as <- <-. split; [discriminate |].
      apply span_Forall in Hspan. rewrite Forall_forall in Hspan.
      intros Hin. specialize (Hspan _ Hin). discriminate.
    + exfalso. destruct r0 as [| p]; [discriminate |].
      repeat (destruct p as [p | p |]; try discriminate H). congruence.
  - exfalso. destruct q as [| p]; [discriminate |].
    repeat (destruct p as [p | p |]; try discriminate H). congruence.
Qed.

(** X23: the key concepts of a content. [_extract_key_concepts] returns
    at most five concepts, none of them twice; each one is either a
    capitalised phrase, which starts with an upper-case ASCII letter, or a
    quoted text, which is not empty and holds no double quote. *)
Theorem X23_key_concepts_shape (lib : Lib) (rt : Runtime) (content : pystr) :
  set_order_ok (set_order_str rt) ->
  let concepts := AdaptiveEngine._extract_key_concepts lib rt content in
  (length concepts <= 5)%nat
  /\ NoDup concepts
  /\ forall concept, concept ∈ concepts ->
       (exists u rest, concept = u :: rest /\ is_ascii_upper u = true)
       \/ (concept <> [] /\ 34%N ∉ concept).
Proof.
  intros ok concepts. subst concepts. unfold AdaptiveEngine._extract_key_concepts.
  set (words := findall_scan (cap_phrase_at lib) None 0 content).
  set (quoted := findall_scan quoted_at None 0 content).
  destruct (ok (words ++ quoted)) as [Hnd Hel].
  split; [rewrite length_take; lia |].
  split.
  { rewrite <- (take_drop 5 (set_order_str rt (words ++ quoted))) in Hnd.
    apply NoDup_app in Hnd. destruct Hnd as [Hnd _]. exact Hnd. }
  intros concept Hin.
  apply elem_of_take in Hin. destruct Hin as (i & Hi & _).
  apply list_elem_of_lookup_2 in Hi. apply Hel in Hi.
  apply elem_of_app in Hi. destruct Hi as [Hw | Hq].
  - left. apply findall_scan_elem in Hw. destruct Hw as (prev & s & n & Hm).
    eapply cap_phrase_at_upper. exact Hm.
  - right. apply findall_scan_elem in Hq. destruct Hq as (prev & s & n & Hm).
    eapply quoted_at_body. exact Hm.
Qed.

Lemma X23_key_concepts_shape_witness :
  set_order_ok (set_order_str run1)
  /\ let concepts := AdaptiveEngine._extract_key_concepts sample_lib run1 dense_text in
     (length concepts <= 5)%nat
     /\ NoDup concepts
     /\ forall concept, concept ∈ concepts ->
          (exists u rest, concept = u :: rest /\ is_ascii_upper u = true)
          \/ (concept <> [] /\ 34%N ∉ concept).
Proof.
  assert (ok : set_order_ok (set_order_str run1)) by exact remove_dups_order_ok.
  split; [exact ok |].
  exact (X23_key_concepts_shape sample_lib run1 dense_text ok).
Defined.

(** ** utils/text_analysis.py, the complexity level *)

Lemma leb_trans (x y z : float) :
  PrimFloat.leb x y = true -> PrimFloat.leb y z = true ->
  PrimFloat.leb x z = true.
Proof.
  rewrite !FloatAxioms.leb_spec. unfold SFleb, SFcompare.
  destruct (Prim2SF x) as [sx | sx | | sx mx ex];
    destruct (Prim2SF y) as [sy | sy | | sy my ey];
    destruct (Prim2SF z) as [sz | sz | | sz mz ez];
    try discriminate; try reflexivity;
    repeat match goal with
           | s : bool |- _ => destruct s
           end;
    try discriminate; try reflexivity;
    repeat match goal with
           | |- context [PosDef.Pos.compare_cont Eq ?a ?b] =>
               change (PosDef.Pos.compare_cont Eq a b) with (Pos.compare a b)
           end;
    repeat match goal with
           | |- context [Z.compare ?a ?b] => destruct (Z.compare_spec a b)
           end;
    try discriminate; try reflexivity; try (intros; exfalso; lia);
    repeat match goal with
           | |- context [Pos.compare ?a ?b] => destruct (Pos.compare_spec a b)
           end;
    cbn [CompOpp]; try discriminate; try reflexivity; intros; exfalso; lia.
Qed.

(** X24: the complexity level grows with the grade. Of two
    Flesch-Kincaid grades, the lower one never gets the higher of the
    levels "simple", "moderate" and "complex". *)
Theorem X24_complexity_level_monotone (grade1 grade2 : float) :
  fle grade1 grade2 = true ->
  (level_rank (TextAnalyzer.get_complexity_level grade1)
   <= level_rank (TextAnalyzer.get_complexity_level grade2))%nat.
Proof.
  unfold fle. intros Hle. unfold TextAnalyzer.get_complexity_level, fle.
  destruct (PrimFloat.leb grade2 6%float) eqn:H6.
  - rewrite (leb_trans _ _ _ Hle H6). reflexivity.
  - destruct (PrimFloat.leb grade2 10%float) eqn:H10.
    + destruct (PrimFloat.leb grade1 6%float); [vm_compute; lia |].
      rewrite (leb_trans _ _ _ Hle H10). reflexivity.
    + destruct (PrimFloat.leb grade1 6%float); [vm_compute; lia |].
      destruct (PrimFloat.leb grade1 10%float); vm_compute; lia.
Qed.

Lemma X24_complexity_level_monotone_witness :
  fle 5.5%float 11.25%float = true
  /\ (level_rank (TextAnalyzer.get_complexity_level 5.5%float)
      <= level_rank (TextAnalyzer.get_complexity_level 11.25%float))%nat.
Proof.
  assert (H : fle 5.5%float 11.25%float = true) by reflexivity.
  split; [exact H |].
  exact (X24_complexity_level_monotone 5.5%float 11.25%float H).
Defined.

(** ** modules/adaptive_engine.py, bullet points *)

Lemma non_space_rstrip (s : pystr) :
  non_space_chars (rstrip s) = non_space_chars s.
Proof.
  induction s as [| c s IH]; [reflexivity |].
  cbn [rstrip]. destruct (rstrip s) as [| d t] eqn:Hr.
  - unfold non_space_chars in *. cbn [List.filter] in *.
    destruct (is_space c) eqn:Hc; cbn [negb List.filter]; rewrite ?Hc; cbn [negb];
      rewrite <- IH; reflexivity.
  - unfold non_space_chars in *. cbn [List.filter] in *.
    rewrite <- IH. reflexivity.
Qed.

Lemma non_space_strip (s : pystr) :
  non_space_chars (strip s) = non_space_chars s.
Proof. unfold strip. rewrite non_space_rstrip. apply non_space_lstrip. Qed.

Lemma bullets_of_sentences (sentences : list pystr) :
  exists kept,
    omap (fun sentence =>
            let sentence := strip sentence in
            match sentence with
            | [] => None
            | _ => Some (AdaptiveEngine.bullet ++ [space] ++ sentence)
            end) sentences
    = map (fun s => AdaptiveEngine.bullet ++ [space] ++ s) kept
    /\ Forall (fun s => s <> [] /\ strip s = s) kept
    /\ non_space_chars (concat kept) = non_space_chars (concat sentences).
Proof.
  induction sentences as [| sentence sentences (kept & Heq & Hall & Hns)].
  { exists []. split; [reflexivity |]. split; [constructor | reflexivity]. }
  rewrite omap_cons_match. cbv zeta in Heq |- *.
  destruct (strip sentence) as [| c t] eqn:Hs.
  - exists kept. split; [exact Heq |]. split; [exact Hall |].
    cbn [concat]. rewrite non_space_app, (strip_nil_non_space _ Hs). exact Hns.
  - exists ((c :: t) :: kept). split; [cbn [map]; rewrite Heq; reflexivity |].
    split.
    + constructor; [| exact Hall]. split; [discriminate |].
      rewrite <- Hs. apply strip_idemp.
    + cbn [concat]. rewrite !non_space_app, Hns, <- Hs, non_space_strip.
      reflexivity.
Qed.

(** X25: bullet points keep the text. A content of fewer than three
    sentences is returned as it is. Otherwise the result is one line per
    sentence, each line a bullet, a space and the sentence without white
    space around it, sentences of white space being left out; the
    sentences of the lines hold, in order, exactly the characters of the
    content that are not white space. *)
Theorem X25_bullets_keep_text (content : pystr) :
  let out := AdaptiveEngine._convert_to_bullets content in
  ((length (split_after_sentence content) < 3)%nat -> out = content)
  /\ ((3 <= length (split_after_sentence content))%nat ->
      exists sentences,
        out = join [newline]
                (map (fun s => AdaptiveEngine.bullet ++ [space] ++ s) sentences)
        /\ Forall (fun s => s <> [] /\ strip s = s) sentences
        /\ non_space_chars (concat sentences) = non_space_chars content).
Proof.
  intros out. subst out. unfold AdaptiveEngine._convert_to_bullets.
  destruct (Nat.ltb_spec (length (split_after_sentence content)) 3) as [Hlt | Hge].
  - split; [reflexivity | intros; lia].
  - split; [intros; lia |]. intros _.
    destruct (bullets_of_sentences (split_after_sentence content))
      as (kept & Heq & Hall & Hns).
    exists kept. split; [rewrite <- Heq; reflexivity |].
    split; [exact Hall |].
    rewrite Hns. unfold split_after_sentence.
    rewrite non_space_split_after_sentence. reflexivity.
Qed.

(** ** The statements about the text utilities at a concrete input *)

Lemma X6_complex_words_sorted_unique_witness :
  set_order_ok (set_order_str run1)
  /\ let found :=
       TextAnalyzer.findall_letters sample_lib (str_lower sample_lib dense_text) in
     (forall words,
        TextAnalyzer.identify_complex_words sample_lib run1 dense_text 3 = Some words ->
        Sorted pystr_le words
        /\ NoDup words
        /\ (forall w, w ∈ words
                      <-> w ∈ found
                          /\ exists n, syllable_count sample_lib w = Some n /\ 3 <= n))
     /\ (TextAnalyzer.identify_complex_words sample_lib run1 dense_text 3 = None
         <-> exists w, w ∈ found /\ syllable_count sample_lib w = None).
Proof.
  assert (ok : set_order_ok (set_order_str run1)) by exact remove_dups_order_ok.
  split; [exact ok |].
  exact (X6_complex_words_sorted_unique sample_lib run1 dense_text 3 ok).
Defined.


(** ** modules/interaction_analyzer.py, sequences of interactions *)

Lemma raises_only_bind {A B} (allowed : list exn) (m : result A)
    (f : A -> result B) :
  raises_only allowed m ->
  (forall a, m = Ok a -> raises_only allowed (f a)) ->
  raises_only allowed (m ≫= f).
Proof.
  intros Hm Hf. destruct m as [a | e]; [apply Hf; reflexivity | exact Hm].
Qed.

Lemma raises_only_weaken {A} (allowed allowed' : list exn) (r : result A) :
  (forall e, e ∈ allowed -> e ∈ allowed') ->
  raises_only allowed r -> raises_only allowed' r.
Proof. intros Hsub. destruct r as [a | e]; [auto | apply Hsub]. Qed.

Lemma truediv_raises (lib : Lib) (a b : Z) :
  b <> 0 -> raises_only [OverflowError] (truediv lib a b).
Proof.
  intros Hb. unfold truediv.
  rewrite (proj2 (Z.eqb_neq b 0) Hb).
  destruct (int_truediv lib a b); [exact I | apply list_elem_of_here].
Qed.

Lemma float_of_int_raises (nl : NumLib) (z : Z) :
  raises_only [OverflowError] (float_of_int nl z).
Proof.
  unfold float_of_int. destruct (exact_float z); [exact I |].
  destruct (big_float nl z); [exact I | apply list_elem_of_here].
Qed.

Lemma num_mul_float_raises (nl : NumLib) (x : pynum) (c : float) :
  raises_only [OverflowError] (num_mul_float nl x c).
Proof.
  destruct x as [z | f]; [| exact I]. cbn [num_mul_float].
  apply raises_only_bind; [apply float_of_int_raises | intros; exact I].
Qed.

Lemma round_num_raises (x : pynum) :
  raises_only [OverflowError; ValueError] (round_num x).
Proof.
  destruct x as [z | f]; [exact I |]. cbn [round_num]. unfold round_float.
  destruct (Prim2SF f); cbn; try exact I; in_goal.
Qed.

Lemma mean_raises (lib : Lib) (data : list Z) :
  data <> [] -> raises_only [OverflowError] (mean lib data).
Proof.
  intros Hne. unfold mean.
  assert (Hn : 1 <= Z.of_nat (length data)).
  { destruct data; [congruence | cbn [length]; lia]. }
  rewrite (proj2 (Z.ltb_ge _ _) Hn).
  set (n := Z.of_nat (length data)) in *.
  set (total := fold_left Z.add data 0).
  destruct (total mod n =? 0); [exact I |].
  apply raises_only_bind; [| intros; exact I].
  apply truediv_raises.
  pose proof (Z.gcd_divide_r total n) as [k Hk].
  pose proof (Z.gcd_nonneg total n) as Hg.
  assert (Hg0 : Z.gcd total n <> 0).
  { intros H0. rewrite H0 in Hk. lia. }
  rewrite Hk at 1. rewrite Z.div_mul by exact Hg0.
  intros Hk0. subst k. lia.
Qed.

Lemma calculate_trend_raises (lib : Lib) (nl : NumLib) (values : list Z) :
  raises_only [OverflowError] (InteractionSequences._calculate_trend lib nl values).
Proof.
  unfold InteractionSequences._calculate_trend.
  destruct (Nat.ltb_spec (length values) 3) as [Hlt | Hge]; [exact I |].
  assert (Hmid : (1 <= length values / 2 < length values)%nat).
  { split; [apply Nat.div_le_lower_bound; lia | apply Nat.div_lt; lia]. }
  apply raises_only_bind.
  { apply mean_raises. intros Hnil. apply (f_equal length) in Hnil.
    rewrite length_take in Hnil. cbn [length] in Hnil. lia. }
  intros first_half_avg _.
  apply raises_only_bind.
  { apply mean_raises. intros Hnil. apply (f_equal length) in Hnil.
    rewrite length_drop in Hnil. cbn [length] in Hnil. lia. }
  intros second_half_avg _.
  apply raises_only_bind; [apply num_mul_float_raises |].
  intros low _. destruct (num_lt_float second_half_avg low); [exact I |].
  apply raises_only_bind; [apply num_mul_float_raises |].
  intros high _. destruct (num_gt_float second_half_avg high); exact I.
Qed.

(** X26: the analysis of a sequence never divides by zero and never
    averages an empty list: [analyze_interaction_sequence] returns or
    raises an [OverflowError] or a [ValueError] (from the conversion of an
    integer too large for a float, or from rounding a float that is no
    number), and [_calculate_trend] returns or raises an [OverflowError].
    For no interaction at all the analysis returns the three entries of
    insufficient data, without metrics. *)
Theorem X26_sequence_no_division_by_zero
    (lib : Lib) (nl : NumLib) (self : InteractionAnalyzer.t)
    (interactions : list InteractionData.t) (values : list Z) :
  raises_only [OverflowError; ValueError]
    (InteractionSequences.analyze_interaction_sequence lib nl self interactions)
  /\ raises_only [OverflowError]
       (InteractionSequences._calculate_trend lib nl values)
  /\ exists summary,
       InteractionSequences.analyze_interaction_sequence lib nl self [] = Ok summary
       /\ summary !! "pattern_summary"
          = Some (InteractionSequences.EStr (py "insufficient_data"))
       /\ summary !! "trend" = Some (InteractionSequences.EStr (py "neutral"))
       /\ summary !! "adaptation_urgency"
          = Some (InteractionSequences.EStr (py "low"))
       /\ summary !! "metrics" = None.
Proof.
  split; [| split; [apply calculate_trend_raises |]].
  - unfold InteractionSequences.analyze_interaction_sequence.
    destruct interactions as [| i0 rest]; [exact I |].
    set (interactions := i0 :: rest).
    assert (Hover : forall e, e ∈ [OverflowError] -> e ∈ [OverflowError; ValueError]).
    { intros e He. apply list_elem_of_singleton in He. subst e.
      apply list_elem_of_here. }
    apply raises_only_bind.
    { apply (raises_only_weaken [OverflowError]); [exact Hover |].
      apply mean_raises. discriminate. }
    intros avg_response _.
    apply raises_only_bind.
    { apply (raises_only_weaken [OverflowError]); [exact Hover |].
      apply calculate_trend_raises. }
    intros response_trend _.
    apply raises_only_bind.
    { destruct (num_gt_int avg_response _); [exact I |].
      apply raises_only_bind.
      - apply (raises_only_weaken [OverflowError]); [exact Hover |].
        apply float_of_int_raises.
      - intros count_float _.
        destruct (float_lt_int _ _); [exact I |].
        destruct (_ <? _); [exact I |].
        destruct (bool_decide _); exact I. }
    intros [pattern_summary adaptation_urgency] _.
    apply raises_only_bind; [apply round_num_raises |].
    intros avg_rounded _.
    apply raises_only_bind; [| intros; exact I].
    apply (raises_only_weaken [OverflowError]); [exact Hover |].
    apply truediv_raises. subst interactions. cbn [length]. lia.
  - eexists. split; [reflexivity |].
    repeat split; reflexivity.
Qed.

Lemma calculate_trend_values (lib : Lib) (nl : NumLib) (values : list Z)
    (trend : pystr) :
  InteractionSequences._calculate_trend lib nl values = Ok trend ->
  ((length values < 3)%nat /\ trend = py "insufficient_data")
  \/ ((3 <= length values)%nat
      /\ (trend = py "improving" \/ trend = py "struggling" \/ trend = py "stable")).
Proof.
  unfold InteractionSequences._calculate_trend.
  destruct (Nat.ltb_spec (length values) 3) as [Hlt | Hge].
  { intros H. injection H as <-. left. split; [exact Hlt | reflexivity]. }
  intros H. right. split; [exact Hge |].
  destruct (mean lib (take _ values)) as [first_half_avg | e]; [| discriminate H].
  destruct (mean lib (drop _ values)) as [second_half_avg | e]; [| discriminate H].
  cbn [mbind result_bind] in H.
  destruct (num_mul_float nl first_half_avg (PrimFloat.sub 1%float 0.1%float))
    as [low | e]; cbn [mbind result_bind] in H; [| discriminate H].
  destruct (num_lt_float second_half_avg low).
  { injection H as <-. left. reflexivity. }
  destruct (num_mul_float nl first_half_avg (PrimFloat.add 1%float 0.1%float))
    as [high | e]; cbn [mbind result_bind] in H; [| discriminate H].
  destruct (num_gt_float second_half_avg high); injection H as <-; auto.
Qed.

(** X27: what the analysis of a sequence returns. For at least one
    interaction the result holds a pattern summary, a trend, an adaptation
    urgency and the metrics. Summary and urgency go together: "struggling"
    and "persistent_difficulty" with "high", "needs_clarification" with
    "medium", "progressing" and "stable" with "low". The trend is
    "insufficient_data" exactly for fewer than three interactions, so that
    a sequence is "progressing" only from three interactions on. The
    metrics count the interactions and add up their clarifications. *)
Theorem X27_sequence_summary
    (lib : Lib) (nl : NumLib) (self : InteractionAnalyzer.t)
    (interactions : list InteractionData.t)
    (summary : gmap string InteractionSequences.entry) :
  interactions <> [] ->
  InteractionSequences.analyze_interaction_sequence lib nl self interactions
    = Ok summary ->
  exists pattern trend urgency metrics avg rate,
    summary !! "pattern_summary" = Some (InteractionSequences.EStr pattern)
    /\ summary !! "trend" = Some (InteractionSequences.EStr trend)
    /\ summary !! "adaptation_urgency" = Some (InteractionSequences.EStr urgency)
    /\ summary !! "metrics" = Some (InteractionSequences.EMetrics metrics)
    /\ (pattern, urgency) ∈ summary_pairs
    /\ (trend = py "insufficient_data" <-> (length interactions < 3)%nat)
    /\ (pattern = py "progressing" ->
        trend = py "improving" /\ (3 <= length interactions)%nat)
    /\ metrics !! "interaction_count"
       = Some (InteractionSequences.MInt (Z.of_nat (length interactions)))
    /\ metrics !! "total_clarifications"
       = Some (InteractionSequences.MInt
                 (fold_left Z.add
                    (map InteractionData.clarification_count interactions) 0))
    /\ metrics !! "avg_response_time_ms" = Some (InteractionSequences.MInt avg)
    /\ metrics !! "repeated_error_rate" = Some (InteractionSequences.MFloat rate).
Proof.
  intros Hne H. unfold InteractionSequences.analyze_interaction_sequence in H.
  destruct interactions as [| i0 rest]; [congruence |].
  set (interactions := i0 :: rest) in *.
  destruct (mean lib _) as [avg_response | e];
    cbn [mbind result_bind] in H; [| discriminate H].
  destruct (InteractionSequences._calculate_trend lib nl _)
    as [response_trend | e] eqn:Htrend;
    cbn [mbind result_bind] in H; [| discriminate H].
  apply calculate_trend_values in Htrend. rewrite length_map in Htrend.
  assert (Htrend' : response_trend = py "insufficient_data"
                    <-> (length interactions < 3)%nat).
  { destruct Htrend as [[Hlt ->] | [Hge Hcases]]; [tauto |].
    split; [| lia]. intros ->.
    destruct Hcases as [Hc | [Hc | Hc]]; discriminate Hc. }
  match type of H with
  | (?m ≫= _) = _ => destruct m as [[pattern urgency] | e] eqn:Hsum
  end; cbn [mbind result_bind] in H; [| discriminate H].
  destruct (round_num avg_response) as [avg_rounded | e];
    cbn [mbind result_bind] in H; [| discriminate H].
  destruct (truediv lib _ _) as [error_rate | e];
    cbn [mbind result_bind] in H; [| discriminate H].
  injection H as <-.
  eexists pattern, response_trend, urgency, _, avg_rounded, _.
  split; [reflexivity |]. split; [reflexivity |]. split; [reflexivity |].
  split; [reflexivity |].
  assert (Hpair : (pattern, urgency) ∈ summary_pairs
                  /\ (pattern = py "progressing" -> response_trend = py "improving")).
  { destruct (num_gt_int avg_response _).
    { injection Hsum as <- <-. split; [in_goal | discriminate]. }
    destruct (float_of_int nl _) as [count_float | e];
      cbn [mbind result_bind] in Hsum; [| discriminate Hsum].
    destruct (float_lt_int _ _).
    { injection Hsum as <- <-. split; [in_goal | discriminate]. }
    destruct (_ <? _).
    { injection Hsum as <- <-. split; [in_goal | discriminate]. }
    destruct (bool_decide (response_trend = py "improving")) eqn:Himp;
      injection Hsum as <- <-.
    - apply bool_decide_eq_true_1 in Himp. split; [in_goal | auto].
    - split; [in_goal | discriminate]. }
  destruct Hpair as [Hpair Hprog].
  split; [exact Hpair |]. split; [exact Htrend' |].
  split.
  { intros Hp. specialize (Hprog Hp). split; [exact Hprog |].
    destruct (Nat.lt_ge_cases (length interactions) 3) as [Hlt | Hge];
      [| exact Hge].
    apply Htrend' in Hlt. rewrite Hprog in Hlt. discriminate Hlt. }
  repeat split; reflexivity.
Qed.

Lemma X27_sequence_summary_witness :
  falling_sequence <> []
  /\ exists summary,
       InteractionSequences.analyze_interaction_sequence ascii_lib sample_numlib
         InteractionAnalyzer.init falling_sequence = Ok summary
       /\ exists pattern trend urgency metrics avg rate,
            summary !! "pattern_summary" = Some (InteractionSequences.EStr pattern)
            /\ summary !! "trend" = Some (InteractionSequences.EStr trend)
            /\ summary !! "adaptation_urgency"
               = Some (InteractionSequences.EStr urgency)
            /\ summary !! "metrics" = Some (InteractionSequences.EMetrics metrics)
            /\ (pattern, urgency) ∈ summary_pairs
            /\ (trend = py "insufficient_data"
                <-> (length falling_sequence < 3)%nat)
            /\ (pattern = py "progressing" ->
                trend = py "improving" /\ (3 <= length falling_sequence)%nat)
            /\ metrics !! "interaction_count"
               = Some (InteractionSequences.MInt
                         (Z.of_nat (length falling_sequence)))
            /\ metrics !! "total_clarifications"
               = Some (InteractionSequences.MInt
                         (fold_left Z.add
                            (map InteractionData.clarification_count
                                 falling_sequence) 0))
            /\ metrics !! "avg_response_time_ms"
               = Some (InteractionSequences.MInt avg)
            /\ metrics !! "repeated_error_rate"
               = Some (InteractionSequences.MFloat rate).
Proof.
  assert (Hne : falling_sequence <> []) by discriminate.
  assert (H : exists summary,
            InteractionSequences.analyze_interaction_sequence ascii_lib
              sample_numlib InteractionAnalyzer.init falling_sequence = Ok summary)
    by (vm_compute; eexists; reflexivity).
  destruct H as [summary H].
  split; [exact Hne |]. exists summary. split; [exact H |].
  exact (X27_sequence_summary ascii_lib sample_numlib InteractionAnalyzer.init
           falling_sequence summary Hne H).
Defined.

(** ** utils/text_analysis.py, statistics and reading time *)

(** X28: division by zero in the text statistics. [get_text_statistics]
    never divides by zero, whatever textstat counts, since it divides by
    the number of sentences or by 1 if that is greater; its character
    count is the length of the text. [generate_reading_time_estimate]
    raises [ZeroDivisionError] for [wpm = 0] as soon as textstat has
    counted the words, and never for another [wpm]. *)
Theorem X28_statistics_division
    (lib : Lib) (nl : NumLib) (text : pystr) (wpm : Z) :
  raises_only [LibraryError; OverflowError]
    (TextStatistics.get_text_statistics lib nl text)
  /\ (forall statistics,
        TextStatistics.get_text_statistics lib nl text = Ok statistics ->
        statistics !! "char_count" = Some (NInt (Z.of_nat (length text)))
        /\ (NInt <$> lexicon_count nl text) = statistics !! "word_count"
        /\ (NInt <$> sentence_count nl text) = statistics !! "sentence_count")
  /\ (wpm <> 0 ->
      raises_only [LibraryError; OverflowError; ValueError]
        (TextStatistics.generate_reading_time_estimate lib nl text wpm))
  /\ (is_Some (lexicon_count nl text) ->
      TextStatistics.generate_reading_time_estimate lib nl text 0
      = Raise ZeroDivisionError).
Proof.
  split; [| split; [| split]].
  - unfold TextStatistics.get_text_statistics.
    destruct (lexicon_count nl text) as [words |]; [| in_goal].
    destruct (sentence_count nl text) as [sentences |]; [| in_goal].
    destruct (syllable_count lib text) as [syllables |]; [| in_goal].
    cbn [of_option mbind result_bind].
    apply raises_only_bind; [| intros; exact I].
    apply (raises_only_weaken [OverflowError]).
    + intros e He. apply list_elem_of_singleton in He. subst e. in_goal.
    + apply truediv_raises. lia.
  - intros statistics H. unfold TextStatistics.get_text_statistics in H.
    destruct (lexicon_count nl text) as [words |]; [| discriminate H].
    destruct (sentence_count nl text) as [sentences |]; [| discriminate H].
    destruct (syllable_count lib text) as [syllables |]; [| discriminate H].
    cbn [of_option mbind result_bind] in H.
    destruct (truediv lib _ _) as [avg | e];
      cbn [mbind result_bind] in H; [| discriminate H].
    injection H as <-. repeat split; reflexivity.
  - intros Hwpm. unfold TextStatistics.generate_reading_time_estimate.
    destruct (lexicon_count nl text) as [words |]; [| in_goal].
    cbn [of_option mbind result_bind].
    apply raises_only_bind.
    { apply (raises_only_weaken [OverflowError]).
      - intros e He. apply list_elem_of_singleton in He. subst e. in_goal.
      - apply truediv_raises. exact Hwpm. }
    intros minutes _.
    apply raises_only_bind.
    { unfold round_float. destruct (Prim2SF _); cbn; try exact I; in_goal. }
    intros seconds _.
    destruct (flesch_kincaid_grade lib text); [exact I | in_goal].
  - intros [words Hwords]. unfold TextStatistics.generate_reading_time_estimate.
    rewrite Hwords. reflexivity.
Qed.
